(** * Industrial marking system: fieldbus master and TCP message server

  A shallow embedding of [hardware_interface/plc_interface.py], of
  [network_services/tcp_server.py], of the marking handler and the
  health check of [main.py], and of the packet analysis of
  [tools/network_monitor.py].  Python exceptions are explicit results,
  object state is threaded through a small state monad, and the outside
  world (the PLC behind the socket, the wall clock, the client sockets)
  is an explicit part of the state. *)

From Stdlib Require Import ZArith NArith List String Ascii Bool Lia QArith.
From Equations Require Import Equations.
Import ListNotations.

Local Open Scope string_scope.
Local Open Scope Z_scope.
Local Open Scope list_scope.

(** ** Python results *)

Module Py.

(** The exception classes the embedded code can raise or catch. *)
Inductive exn : Type :=
| StructError        (* struct.error *)
| IndexError
| AttributeError (type_name attribute : string)
| TypeError
| KeyError
| SocketError        (* socket.error, i.e. OSError; socket.timeout is one *)
| JSONDecodeError.

Inductive result (A : Type) : Type :=
| Return (a : A)
| Raise (e : exn).
Arguments Return {A} a.
Arguments Raise {A} e.

Definition bind {A B} (r : result A) (k : A -> result B) : result B :=
  match r with
  | Return a => k a
  | Raise e => Raise e
  end.

(** Code that runs on an object's state and may raise: the state
    survives an exception, as a Python object does. *)
Definition M (S A : Type) : Type := S -> result A * S.

Definition ret {S A} (a : A) : M S A := fun s => (Return a, s).
Definition lift {S A} (r : result A) : M S A := fun s => (r, s).
Definition bindM {S A B} (m : M S A) (k : A -> M S B) : M S B :=
  fun s => match m s with
           | (Return a, s') => k a s'
           | (Raise e, s') => (Raise e, s')
           end.
(** [try: body except Exception as e: handler e]. *)
Definition try_except {S A} (body : M S A) (handler : exn -> M S A) : M S A :=
  fun s => match body s with
           | (Return a, s') => (Return a, s')
           | (Raise e, s') => handler e s'
           end.
Definition modify {S} (f : S -> S) : M S unit := fun s => (Return tt, f s).
Definition gets {S A} (f : S -> A) : M S A := fun s => (Return (f s), s).

Declare Scope py_scope.
Delimit Scope py_scope with py.
Notation "x <- m ;; k" := (bindM m (fun x => k))
  (at level 61, m at next level, right associativity) : py_scope.
Notation "m ;;; k" := (bindM m (fun _ => k))
  (at level 61, right associativity) : py_scope.

End Py.

Import Py.

(** ** [struct.pack] for the format characters the interface uses *)

Module Struct.

Inductive code : Type :=
| H   (* unsigned short, 2 bytes *)
| B.  (* unsigned char, 1 byte *)

Definition code_of_ascii (c : ascii) : option code :=
  if Ascii.eqb c "H" then Some H
  else if Ascii.eqb c "B" then Some B
  else None.

Fixpoint codes_of (s : string) : option (list code) :=
  match s with
  | EmptyString => Some []
  | String c rest =>
      match code_of_ascii c, codes_of rest with
      | Some k, Some ks => Some (k :: ks)
      | _, _ => None
      end
  end.

(** A format is the byte-order mark [>] (big-endian, standard sizes, no
    padding) followed by format characters. *)
Definition parse_format (fmt : string) : option (list code) :=
  match fmt with
  | String c rest => if Ascii.eqb c ">" then codes_of rest else None
  | EmptyString => None
  end.

Definition size_of (k : code) : nat :=
  match k with H => 2%nat | B => 1%nat end.

Definition calcsize (ks : list code) : nat :=
  fold_right (fun k n => (size_of k + n)%nat) 0%nat ks.

(** One value, big-endian; out-of-range values raise [struct.error]. *)
Definition pack_one (k : code) (v : Z) : result (list Z) :=
  match k with
  | H => if (0 <=? v) && (v <=? 65535)
         then Return [Z.shiftr v 8; Z.land v 255]
         else Raise StructError
  | B => if (0 <=? v) && (v <=? 255)
         then Return [v]
         else Raise StructError
  end.

Fixpoint pack_all (ks : list code) (vs : list Z) : result (list Z) :=
  match ks, vs with
  | [], _ => Return []
  | k :: ks', v :: vs' =>
      bind (pack_one k v) (fun b =>
      bind (pack_all ks' vs') (fun bs => Return (b ++ bs)))
  | _ :: _, [] => Raise StructError
  end.

(** [struct.pack(fmt, *vs)]: the number of values must equal the number
    of format items ("pack expected N items for packing (got M)"). *)
Definition pack (fmt : string) (vs : list Z) : result (list Z) :=
  match parse_format fmt with
  | None => Raise StructError
  | Some ks =>
      if Nat.eqb (List.length ks) (List.length vs)
      then pack_all ks vs
      else Raise StructError
  end.

(** [struct.unpack('>H', b)[0]] on a two-byte slice. *)
Definition unpack_H (b : list Z) : result Z :=
  match b with
  | [hi; lo] => Return (Z.lor (Z.shiftl hi 8) lo)
  | _ => Raise StructError
  end.

End Struct.


(** ** The fieldbus master ([PLCInterface]) *)

Module Plc.

Record IOPoint : Type := {
  address : Z;
  description : string;
  data_type : string;
  access : string
}.

(** The I/O mapping of [__init__]; dictionaries keep insertion order. *)
Definition discrete_inputs : list (Z * IOPoint) :=
  [ (0, Build_IOPoint 0 "Product Present Sensor" "bool" "read");
    (1, Build_IOPoint 1 "System Ready" "bool" "read");
    (2, Build_IOPoint 2 "Emergency Stop" "bool" "read");
    (3, Build_IOPoint 3 "Marking Complete" "bool" "read") ].

Definition discrete_outputs : list (Z * IOPoint) :=
  [ (0, Build_IOPoint 0 "Marking Start" "bool" "write");
    (1, Build_IOPoint 1 "System Status LED" "bool" "write");
    (2, Build_IOPoint 2 "Error Indicator" "bool" "write");
    (3, Build_IOPoint 3 "Cycle Complete" "bool" "write") ].

Definition analog_inputs : list (Z * IOPoint) :=
  [ (0, Build_IOPoint 0 "Line Speed" "float" "read");
    (1, Build_IOPoint 1 "Print Quality Sensor" "float" "read") ].

(** The entries of [config] the interface reads.  [None] and a missing
    table entry stand for an absent key, so [.get] falls back to its
    default.  Scale and offset are exact rationals. *)
Record config : Type := {
  protocol : string;
  unit_id : option Z;
  analog_scale : list (Z * Q);
  analog_offset : list (Z * Q)
}.

(** The PLC at the far end of the socket, as seen through successive
    socket calls: call number [n] may fail, and blocks for some time. *)
Record peer : Type := {
  accepts : nat -> list Z -> bool;
  answers : nat -> list (list Z) -> option (list Z);
  takes : nat -> N
}.

(** What was asked of the interface (kept for the proofs only). *)
Inductive request : Type :=
| Read_discrete (address : Z)
| Write_discrete (address : Z) (value : bool)
| Read_analog (address : Z).

Record plc : Type := {
  cfg : config;
  connection : option peer;
  is_connected : bool;
  io_count : nat;            (* socket calls made so far *)
  wire : list (list Z);      (* frames handed to [send], oldest first *)
  clock : N;                 (* [time.time()], in milliseconds *)
  journal : list request     (* operations entered, oldest first *)
}.

Definition tick (d : N) (s : plc) : plc :=
  {| cfg := cfg s; connection := connection s; is_connected := is_connected s;
     io_count := S (io_count s); wire := wire s;
     clock := (clock s + d)%N; journal := journal s |}.

Definition push_wire (frame : list Z) (s : plc) : plc :=
  {| cfg := cfg s; connection := connection s; is_connected := is_connected s;
     io_count := io_count s; wire := wire s ++ [frame];
     clock := clock s; journal := journal s |}.

Definition note (r : request) (s : plc) : plc :=
  {| cfg := cfg s; connection := connection s; is_connected := is_connected s;
     io_count := io_count s; wire := wire s;
     clock := clock s; journal := journal s ++ [r] |}.

Definition advance (d : N) (s : plc) : plc :=
  {| cfg := cfg s; connection := connection s; is_connected := is_connected s;
     io_count := io_count s; wire := wire s;
     clock := (clock s + d)%N; journal := journal s |}.

Local Open Scope py_scope.

Definition M (A : Type) : Type := Py.M plc A.

(** *** The socket *)

(** [self.connection.send(data)]; with [connection = None] (the serial
    transport) the attribute lookup raises. *)
Definition send (data : list Z) : M unit :=
  fun s => match connection s with
           | None => (Raise (AttributeError "NoneType" "send"), s)
           | Some p =>
               let n := io_count s in
               let s' := tick (takes p n) s in
               if accepts p n data then (Return tt, push_wire data s')
               else (Raise SocketError, s')
           end.

(** [self.connection.recv(bufsize)]; a timeout raises. *)
Definition recv (bufsize : nat) : M (list Z) :=
  fun s => match connection s with
           | None => (Raise (AttributeError "NoneType" "recv"), s)
           | Some p =>
               let n := io_count s in
               let s' := tick (takes p n) s in
               match answers p n (wire s) with
               | Some data => (Return (firstn bufsize data), s')
               | None => (Raise SocketError, s')
               end
           end.

Definition time_time : M N := gets clock.
Definition time_sleep (ms : N) : M unit := modify (advance ms).

(** *** Frames *)

Definition _build_modbus_request
    (c : config) (function_code address value : Z) : result (list Z) :=
  let transaction_id := 1 in
  let protocol_id := 0 in
  let length := 6 in
  let unit_id := match unit_id c with Some u => u | None => 1 end in
  let starting_address := address in
  let quantity := value in
  Struct.pack ">HHHBBBHH"
    [transaction_id; protocol_id; length; unit_id; function_code;
     starting_address; quantity].

Definition _parse_discrete_response (response : list Z) : result (option bool) :=
  if (List.length response <? 9)%nat then Return None
  else match nth_error response 9 with
       | Some data_byte => Return (Some (negb (Z.land data_byte 1 =? 0)))
       | None => Raise IndexError
       end.

Definition _parse_register_response (response : list Z) : result (option Z) :=
  if (List.length response <? 11)%nat then Return None
  else bind (Struct.unpack_H (firstn 2 (skipn 9 response)))
            (fun register_value => Return (Some register_value)).

Definition _verify_write_response
    (response : list Z) (address value : Z) : bool :=
  (0 <? List.length response)%nat.

(** *** Point operations *)

Definition read_discrete_input (address : Z) : M (option bool) :=
  fun s0 =>
    let s := note (Read_discrete address) s0 in
    if negb (is_connected s) then (Return None, s)
    else
      try_except
        (let function_code := 2 in
         request <- lift (_build_modbus_request (cfg s) function_code address 1) ;;
         send request ;;;
         response <- recv 1024 ;;
         lift (_parse_discrete_response response))
        (fun _ => ret None)
        s.

Definition write_discrete_output (address : Z) (value : bool) : M bool :=
  fun s0 =>
    let s := note (Write_discrete address value) s0 in
    if negb (is_connected s) then (Return false, s)
    else
      try_except
        (let function_code := 5 in
         let coil_value := if value then 65280 else 0 in
         request <- lift (_build_modbus_request (cfg s) function_code address coil_value) ;;
         send request ;;;
         response <- recv 1024 ;;
         ret (_verify_write_response response address coil_value))
        (fun _ => ret false)
        s.

Fixpoint lookup {V} (k : Z) (d : list (Z * V)) : option V :=
  match d with
  | [] => None
  | (k', v) :: rest => if k =? k' then Some v else lookup k rest
  end.

Definition get_default {V} (k : Z) (d : list (Z * V)) (default : V) : V :=
  match lookup k d with Some v => v | None => default end.

Definition read_analog_input (address : Z) : M (option Q) :=
  fun s0 =>
    let s := note (Read_analog address) s0 in
    if negb (is_connected s) then (Return None, s)
    else
      try_except
        (let function_code := 4 in
         request <- lift (_build_modbus_request (cfg s) function_code address 1) ;;
         send request ;;;
         response <- recv 1024 ;;
         raw_value <- lift (_parse_register_response response) ;;
         match raw_value with
         | Some raw =>
             let scale := get_default address (analog_scale (cfg s)) 1%Q in
             let offset := get_default address (analog_offset (cfg s)) 0%Q in
             ret (Some (inject_Z raw * scale + offset)%Q)
         | None => ret None
         end)
        (fun _ => ret None)
        s.

(** *** Status snapshot *)

(** The values found in the status dictionary. *)
Inductive status_value : Type :=
| VStr (s : string)
| VTime (t : N)
| VDiscrete (d : list (string * option bool))
| VAnalog (d : list (string * option Q)).

(** [d[key] = value] on an insertion-ordered dictionary. *)
Fixpoint dict_set {V} (key : string) (value : V) (d : list (string * V))
  : list (string * V) :=
  match d with
  | [] => [(key, value)]
  | (k, v) :: rest =>
      if String.eqb k key then (k, value) :: rest
      else (k, v) :: dict_set key value rest
  end.

Fixpoint read_all_discrete (points : list (Z * IOPoint))
    (acc : list (string * option bool)) : M (list (string * option bool)) :=
  match points with
  | [] => ret acc
  | (addr, point) :: rest =>
      value <- read_discrete_input addr ;;
      read_all_discrete rest (dict_set (description point) value acc)
  end.

Fixpoint read_all_analog (points : list (Z * IOPoint))
    (acc : list (string * option Q)) : M (list (string * option Q)) :=
  match points with
  | [] => ret acc
  | (addr, point) :: rest =>
      value <- read_analog_input addr ;;
      read_all_analog rest (dict_set (description point) value acc)
  end.

Definition get_system_status : M (list (string * status_value)) :=
  fun s =>
    if negb (is_connected s) then
      (Return [("status", VStr "disconnected")], s)
    else
      (last_update <- time_time ;;
       discrete <- read_all_discrete discrete_inputs [] ;;
       analog <- read_all_analog analog_inputs [] ;;
       ret [ ("connection", VStr "connected");
             ("discrete_inputs", VDiscrete discrete);
             ("analog_inputs", VAnalog analog);
             ("last_update", VTime last_update) ]) s.

(** *** The marking sequence *)

(** Python truth value of an [Optional[bool]]. *)
Definition truthy (v : option bool) : bool :=
  match v with Some true => true | _ => false end.

Lemma read_discrete_input_clock (address : Z) (s : plc) :
  (clock s <= clock (snd (read_discrete_input address s)))%N.
Proof.
  unfold read_discrete_input, try_except, bindM, lift, ret, send, recv.
  cbn.
  repeat match goal with
         | |- context [match ?x with _ => _ end] => destruct x; cbn
         | |- context [if ?x then _ else _] => destruct x; cbn
         end; lia.
Qed.

Definition inspect {A} (a : A) : {b : A | a = b} := exist _ a eq_refl.

(** The [while time.time() < timeout] loop: [true] when it was left by
    [break], [false] when the condition failed (the [else] clause). *)
Equations? await_complete (timeout : N) (s : plc) : result bool * plc
  by wf (N.to_nat (timeout - clock s)) lt :=
  await_complete timeout s with inspect (N.ltb (clock s) timeout) => {
    | exist _ false _ := (Return false, s);
    | exist _ true Hlt with inspect (read_discrete_input 3 s) => {
        | exist _ (Raise e, s1) _ := (Raise e, s1);
        | exist _ (Return marking_complete, s1) Hread with truthy marking_complete => {
            | true := (Return true, s1);
            | false := await_complete timeout (advance 100 s1) } } }.
Proof.
  pose proof (read_discrete_input_clock 3 s) as Hmono.
  rewrite Hread in Hmono. apply N.ltb_lt in Hlt. cbn in *. lia.
Qed.

Definition execute_marking_sequence : M bool :=
  try_except
    (product_present <- read_discrete_input 0 ;;
     if negb (truthy product_present) then ret false
     else
       system_ready <- read_discrete_input 1 ;;
       if negb (truthy system_ready) then ret false
       else
         write_discrete_output 0 true ;;;
         write_discrete_output 1 true ;;;
         now <- time_time ;;
         let timeout := (now + 10000)%N in
         completed <- await_complete timeout ;;
         if negb completed then
           write_discrete_output 2 true ;;;
           ret false
         else
           write_discrete_output 3 true ;;;
           time_sleep 500 ;;;
           write_discrete_output 3 false ;;;
           ret true)
    (fun _ =>
       write_discrete_output 2 true ;;;
       ret false).

(** [_connect_modbus_rtu]: marks the link connected without a socket. *)
Definition _connect_modbus_rtu : M bool :=
  fun s =>
    (Return true,
     {| cfg := cfg s; connection := connection s; is_connected := true;
        io_count := io_count s; wire := wire s;
        clock := clock s; journal := journal s |}).

(** *** Sample links *)

Definition sample_config : config :=
  {| protocol := "modbus_tcp"; unit_id := Some 1;
     analog_scale := []; analog_offset := [] |}.

(** A PLC that takes every frame and answers every receive at once with
    a ten-byte "read discrete inputs" response whose data bit is set. *)
Definition input_on_response : list Z := [0; 1; 0; 0; 0; 4; 1; 2; 1; 1].

Definition willing_peer : peer :=
  {| accepts := fun _ _ => true;
     answers := fun _ _ => Some input_on_response;
     takes := fun _ => 0%N |}.

Definition connected_plc : plc :=
  {| cfg := sample_config; connection := Some willing_peer;
     is_connected := true; io_count := 0%nat; wire := [];
     clock := 0%N; journal := [] |}.

(** The state [__init__] leaves: no socket, not connected. *)
Definition fresh_plc : plc :=
  {| cfg := sample_config; connection := None;
     is_connected := false; io_count := 0%nat; wire := [];
     clock := 0%N; journal := [] |}.

(** Whether the discrete input at [address] reads true in state [s]. *)
Definition reads_true (address : Z) (s : plc) : bool :=
  match fst (read_discrete_input address s) with
  | Return v => truthy v
  | Raise _ => false
  end.

Definition is_write (r : request) : bool :=
  match r with Write_discrete _ _ => true | _ => false end.

(** The write operations among the journal entries. *)
Definition writes (j : list request) : list request := filter is_write j.

End Plc.

(** ** Python text *)

Module Text.

(** A Python [str]: a sequence of code points. *)
Definition str : Type := list N.

Definition text (s : string) : str :=
  List.map N_of_ascii (list_ascii_of_string s).

Fixpoint eqb (a b : str) : bool :=
  match a, b with
  | [], [] => true
  | x :: a', y :: b' => N.eqb x y && eqb a' b'
  | _, _ => false
  end.

Fixpoint starts_with (prefix s : str) : option str :=
  match prefix, s with
  | [], _ => Some s
  | p :: prefix', c :: s' => if N.eqb p c then starts_with prefix' s' else None
  | _ :: _, [] => None
  end.

(** [str.isspace] for one code point. *)
Definition is_space (c : N) : bool :=
  ((9 <=? c) && (c <=? 13) || (28 <=? c) && (c <=? 32)
   || (c =? 133) || (c =? 160) || (c =? 5760)
   || (8192 <=? c) && (c <=? 8202)
   || (c =? 8232) || (c =? 8233) || (c =? 8239) || (c =? 8287)
   || (c =? 12288))%N.

Fixpoint lstrip (s : str) : str :=
  match s with
  | c :: rest => if is_space c then lstrip rest else s
  | [] => []
  end.

Definition strip (s : str) : str := rev (lstrip (rev (lstrip s))).

(** [s.split(sep, 1)] when [sep] occurs in [s]: the part before the
    first occurrence and the part after it. *)
Fixpoint split_once (sep : N) (s : str) : option (str * str) :=
  match s with
  | [] => None
  | c :: rest =>
      if N.eqb c sep then Some ([], rest)
      else match split_once sep rest with
           | Some (before, after) => Some (c :: before, after)
           | None => None
           end
  end.

End Text.

Import Text.

(** ** The [json] module: documents, [dumps] and [loads] *)

Module Json.

(** The values [json.loads] produces.  A float is carried by the
    literal that denotes it (what [float.__repr__] prints); no
    floating-point arithmetic is performed on documents. *)
#[local] Unset Elimination Schemes.
Inductive json : Type :=
| JNull
| JBool (b : bool)
| JInt (n : Z)
| JFloat (literal : str)
| JStr (s : str)
| JList (items : list json)
| JDict (entries : list (str * json)).
#[local] Set Elimination Schemes.

(** *** Dictionaries with text keys, in insertion order *)

Fixpoint dict_get {V} (key : str) (d : list (str * V)) : option V :=
  match d with
  | [] => None
  | (k, v) :: rest => if Text.eqb k key then Some v else dict_get key rest
  end.

Fixpoint dict_set {V} (key : str) (value : V) (d : list (str * V))
  : list (str * V) :=
  match d with
  | [] => [(key, value)]
  | (k, v) :: rest =>
      if Text.eqb k key then (k, value) :: rest
      else (k, v) :: dict_set key value rest
  end.

Fixpoint dict_del {V} (key : str) (d : list (str * V)) : list (str * V) :=
  match d with
  | [] => []
  | (k, v) :: rest =>
      if Text.eqb k key then rest else (k, v) :: dict_del key rest
  end.

(** [dict(pairs)]: a later pair with a known key replaces the value
    and keeps the position. *)
Definition dict_of_pairs {V} (pairs : list (str * V)) : list (str * V) :=
  fold_left (fun d kv => dict_set (fst kv) (snd kv) d) pairs [].

(** *** Integers *)

Definition digit_char (d : N) : N := (48 + d)%N.

Definition inspect {A} (a : A) : {b : A | a = b} := exist _ a eq_refl.

(** Decimal digits of a natural number, most significant first. *)
Equations? digits (n : N) : str by wf (N.to_nat n) lt :=
  digits n with inspect (N.ltb n 10) => {
    | exist _ true _ := [digit_char n];
    | exist _ false Hge := digits (n / 10) ++ [digit_char (n mod 10)] }.
Proof.
  apply N.ltb_ge in Hge.
  assert (n / 10 < n)%N by (apply N.div_lt; lia). lia.
Qed.

(** [int.__repr__]. *)
Definition int_repr (z : Z) : str :=
  if (z <? 0)%Z then 45%N :: digits (Z.to_N (- z)) else digits (Z.to_N z).

Definition is_digit (c : N) : bool := ((48 <=? c) && (c <=? 57))%N.

Definition digits_value (ds : str) : N :=
  fold_left (fun acc c => (10 * acc + (c - 48))%N) ds 0%N.

(** *** Strings: [encode_basestring_ascii] *)

Definition hex_char (d : N) : N :=
  if (d <? 10)%N then (48 + d)%N else (87 + d)%N.

(** ['\\u{0:04x}'.format(n)]. *)
Definition escape_u (n : N) : str :=
  [92; 117;
   hex_char (N.land (N.shiftr n 12) 15); hex_char (N.land (N.shiftr n 8) 15);
   hex_char (N.land (N.shiftr n 4) 15); hex_char (N.land n 15)]%N.

Definition escape_char (c : N) : str :=
  (if c =? 34 then [92; 34]
   else if c =? 92 then [92; 92]
   else if c =? 10 then [92; 110]
   else if c =? 13 then [92; 114]
   else if c =? 9 then [92; 116]
   else if c =? 12 then [92; 102]
   else if c =? 8 then [92; 98]
   else if (32 <=? c) && (c <=? 126) then [c]
   else if c <? 65536 then escape_u c
   else
     let v := c - 65536 in
     let s1 := N.lor 55296 (N.land (N.shiftr v 10) 1023) in
     let s2 := N.lor 56320 (N.land v 1023) in
     escape_u s1 ++ escape_u s2)%N.

Definition encode_basestring_ascii (s : str) : str :=
  34%N :: flat_map escape_char s ++ [34%N].

(** *** [dumps] with the default separators *)

Fixpoint dumps (v : json) : str :=
  match v with
  | JNull => text "null"
  | JBool true => text "true"
  | JBool false => text "false"
  | JInt n => int_repr n
  | JFloat literal => literal
  | JStr s => encode_basestring_ascii s
  | JList [] => text "[]"
  | JList (x :: xs) =>
      91%N :: dumps x
      ++ flat_map (fun y => text ", " ++ dumps y) xs ++ [93%N]
  | JDict [] => text "{}"
  | JDict ((k, x) :: kxs) =>
      123%N :: encode_basestring_ascii k ++ text ": " ++ dumps x
      ++ flat_map (fun kv => text ", " ++ encode_basestring_ascii (fst kv)
                             ++ text ": " ++ dumps (snd kv)) kxs
      ++ [125%N]
  end.

(** *** Scanning: strings *)

Definition is_ws (c : N) : bool :=
  ((c =? 32) || (c =? 9) || (c =? 10) || (c =? 13))%N.

Fixpoint skip_ws (s : str) : str :=
  match s with
  | c :: rest => if is_ws c then skip_ws rest else s
  | [] => []
  end.

Definition hex_value (c : N) : option N :=
  (if (48 <=? c) && (c <=? 57) then Some (c - 48)
   else if (97 <=? c) && (c <=? 102) then Some (c - 87)
   else if (65 <=? c) && (c <=? 70) then Some (c - 55)
   else None)%N.

Definition hex4 (h1 h2 h3 h4 : N) : option N :=
  match hex_value h1, hex_value h2, hex_value h3, hex_value h4 with
  | Some a, Some b, Some c, Some d =>
      Some (N.lor (N.shiftl (N.lor (N.shiftl (N.lor (N.shiftl a 4) b) 4) c) 4) d)
  | _, _, _, _ => None
  end.

Definition is_high_surrogate (c : N) : bool := ((55296 <=? c) && (c <=? 56319))%N.
Definition is_low_surrogate (c : N) : bool := ((56320 <=? c) && (c <=? 57343))%N.

Definition join_surrogates (c c2 : N) : N :=
  (65536 + N.lor (N.shiftl (c - 55296) 10) (c2 - 56320))%N.

(** The text after a backslash-u: four hex digits, and when they denote
    a high surrogate and a backslash-u escape of a low surrogate
    follows, the pair is joined. *)
Definition scan_u (s : str) : result (N * str) :=
  match s with
  | h1 :: h2 :: h3 :: h4 :: rest =>
      match hex4 h1 h2 h3 h4 with
      | None => Raise JSONDecodeError
      | Some c =>
          if is_high_surrogate c then
            match starts_with [92; 117]%N rest with
            | Some (g1 :: g2 :: g3 :: g4 :: rest2) =>
                match hex4 g1 g2 g3 g4 with
                | None => Raise JSONDecodeError
                | Some c2 =>
                    if is_low_surrogate c2
                    then Return (join_surrogates c c2, rest2)
                    else Return (c, rest)
                end
            | _ => Return (c, rest)
            end
          else Return (c, rest)
      end
  | _ => Raise JSONDecodeError
  end.

(** The [BACKSLASH] table. *)
Definition backslash (esc : N) : option N :=
  (if esc =? 34 then Some 34
   else if esc =? 92 then Some 92
   else if esc =? 47 then Some 47
   else if esc =? 98 then Some 8
   else if esc =? 102 then Some 12
   else if esc =? 110 then Some 10
   else if esc =? 114 then Some 13
   else if esc =? 116 then Some 9
   else None)%N.

(** [scanstring] in strict mode, started after the opening quote: the
    decoded text and what follows the closing quote.  One round of the
    loop per unit of [fuel]; every round consumes input, so the length
    of the input is enough. *)
Fixpoint scanstring_loop (fuel : nat) (s : str) : result (str * str) :=
  match fuel with
  | O => Raise JSONDecodeError
  | S fuel' =>
      match s with
      | [] => Raise JSONDecodeError
      | c :: rest =>
          if (c =? 34)%N then Return ([], rest)
          else if (c =? 92)%N then
            match rest with
            | [] => Raise JSONDecodeError
            | esc :: rest1 =>
                if (esc =? 117)%N then
                  bind (scan_u rest1) (fun cr =>
                  bind (scanstring_loop fuel' (snd cr)) (fun vr =>
                  Return (fst cr :: fst vr, snd vr)))
                else
                  match backslash esc with
                  | None => Raise JSONDecodeError
                  | Some ch =>
                      bind (scanstring_loop fuel' rest1) (fun vr =>
                      Return (ch :: fst vr, snd vr))
                  end
            end
          else if (c <? 32)%N then Raise JSONDecodeError
          else
            bind (scanstring_loop fuel' rest) (fun vr =>
            Return (c :: fst vr, snd vr))
      end
  end.

Definition scanstring (s : str) : result (str * str) :=
  scanstring_loop (List.length s) s.

(** *** Scanning: numbers *)

Fixpoint span_digits (s : str) : str * str :=
  match s with
  | c :: rest =>
      if is_digit c
      then (c :: fst (span_digits rest), snd (span_digits rest))
      else ([], s)
  | [] => ([], [])
  end.

(** [0|[1-9][0-9]*] *)
Definition match_integer (s : str) : option (str * str) :=
  match s with
  | c :: rest =>
      if (c =? 48)%N then Some ([c], rest)
      else if is_digit c
           then Some (c :: fst (span_digits rest), snd (span_digits rest))
           else None
  | [] => None
  end.

(** [(\.[0-9]+)?] *)
Definition match_frac (s : str) : str * str :=
  match s with
  | c :: rest =>
      if (c =? 46)%N then
        match span_digits rest with
        | ([], _) => ([], s)
        | (ds, r) => (c :: ds, r)
        end
      else ([], s)
  | [] => ([], [])
  end.

(** [([eE][-+]?[0-9]+)?] *)
Definition match_exp (s : str) : str * str :=
  match s with
  | c :: rest =>
      if ((c =? 101) || (c =? 69))%N then
        let signed :=
          match rest with
          | d :: rest1 =>
              if ((d =? 43) || (d =? 45))%N then ([d], rest1) else ([], rest)
          | [] => ([], rest)
          end in
        match span_digits (snd signed) with
        | ([], _) => ([], s)
        | (ds, r) => (c :: fst signed ++ ds, r)
        end
      else ([], s)
  | [] => ([], [])
  end.

Definition match_sign (s : str) : str * str :=
  match s with
  | c :: rest => if (c =? 45)%N then ([c], rest) else ([], s)
  | [] => ([], [])
  end.

(** [NUMBER_RE.match]: an integer without fraction and exponent, a
    float otherwise. *)
Definition match_number (s : str) : option (json * str) :=
  let (sign, s1) := match_sign s in
  match match_integer s1 with
  | None => None
  | Some (integer, s2) =>
      let (frac, s3) := match_frac s2 in
      let (exp, s4) := match_exp s3 in
      match frac, exp with
      | [], [] =>
          let n := Z.of_N (digits_value integer) in
          Some (JInt (match sign with [] => n | _ => (- n)%Z end), s4)
      | _, _ => Some (JFloat (sign ++ integer ++ frac ++ exp), s4)
      end
  end.

(** *** Scanning: values *)

Definition scan_constant (s : str) : result (json * str) :=
  match starts_with (text "null") s with
  | Some r => Return (JNull, r)
  | None =>
  match starts_with (text "true") s with
  | Some r => Return (JBool true, r)
  | None =>
  match starts_with (text "false") s with
  | Some r => Return (JBool false, r)
  | None =>
  match match_number s with
  | Some vr => Return vr
  | None =>
  match starts_with (text "NaN") s with
  | Some r => Return (JFloat (text "NaN"), r)
  | None =>
  match starts_with (text "Infinity") s with
  | Some r => Return (JFloat (text "Infinity"), r)
  | None =>
  match starts_with (text "-Infinity") s with
  | Some r => Return (JFloat (text "-Infinity"), r)
  | None => Raise JSONDecodeError
  end end end end end end end.

(** [scan_once], [JSONObject] and [JSONArray].  [object_pairs] starts
    after the opening quote of a key, [array_items] at a value. *)
Fixpoint scan_once (fuel : nat) (s : str) {struct fuel} : result (json * str) :=
  match fuel with
  | O => Raise JSONDecodeError
  | S fuel' =>
      match s with
      | [] => Raise JSONDecodeError
      | c :: rest =>
          if (c =? 34)%N then
            bind (scanstring rest) (fun vr => Return (JStr (fst vr), snd vr))
          else if (c =? 123)%N then
            match skip_ws rest with
            | d :: rest1 =>
                if (d =? 125)%N then Return (JDict [], rest1)
                else if (d =? 34)%N then
                  bind (object_pairs fuel' rest1) (fun pr =>
                  Return (JDict (dict_of_pairs (fst pr)), snd pr))
                else Raise JSONDecodeError
            | [] => Raise JSONDecodeError
            end
          else if (c =? 91)%N then
            match skip_ws rest with
            | d :: rest1 =>
                if (d =? 93)%N then Return (JList [], rest1)
                else
                  bind (array_items fuel' (d :: rest1)) (fun ir =>
                  Return (JList (fst ir), snd ir))
            | [] => Raise JSONDecodeError
            end
          else scan_constant s
      end
  end

with object_pairs (fuel : nat) (s : str) {struct fuel}
  : result (list (str * json) * str) :=
  match fuel with
  | O => Raise JSONDecodeError
  | S fuel' =>
      bind (scanstring s) (fun kr =>
      match skip_ws (snd kr) with
      | c :: s2 =>
          if (c =? 58)%N then
            bind (scan_once fuel' (skip_ws s2)) (fun vr =>
            match skip_ws (snd vr) with
            | d :: s4 =>
                if (d =? 125)%N then Return ([(fst kr, fst vr)], s4)
                else if (d =? 44)%N then
                  match skip_ws s4 with
                  | q :: s5 =>
                      if (q =? 34)%N then
                        bind (object_pairs fuel' s5) (fun pr =>
                        Return ((fst kr, fst vr) :: fst pr, snd pr))
                      else Raise JSONDecodeError
                  | [] => Raise JSONDecodeError
                  end
                else Raise JSONDecodeError
            | [] => Raise JSONDecodeError
            end)
          else Raise JSONDecodeError
      | [] => Raise JSONDecodeError
      end)
  end

with array_items (fuel : nat) (s : str) {struct fuel}
  : result (list json * str) :=
  match fuel with
  | O => Raise JSONDecodeError
  | S fuel' =>
      bind (scan_once fuel' s) (fun vr =>
      match skip_ws (snd vr) with
      | c :: s2 =>
          if (c =? 93)%N then Return ([fst vr], s2)
          else if (c =? 44)%N then
            bind (array_items fuel' (skip_ws s2)) (fun ir =>
            Return (fst vr :: fst ir, snd ir))
          else Raise JSONDecodeError
      | [] => Raise JSONDecodeError
      end)
  end.

(** Every call consumes input before it calls deeper twice, so this
    much fuel is never used up. *)
Definition fuel_for (s : str) : nat := (2 * List.length s + 2)%nat.

(** [json.loads] on a [str]. *)
Definition loads (s : str) : result json :=
  match starts_with [65279%N] s with
  | Some _ => Raise JSONDecodeError
  | None =>
      let s0 := skip_ws s in
      bind (scan_once (fuel_for s0) s0) (fun vr =>
      match skip_ws (snd vr) with
      | [] => Return (fst vr)
      | _ :: _ => Raise JSONDecodeError
      end)
  end.

End Json.

(** ** The message server ([MarkingSystemTCPServer]) *)

Module Server.

Import Json.
Local Open Scope py_scope.

(** *** Python values at run time *)

Definition type_name (v : json) : string :=
  match v with
  | JNull => "NoneType"
  | JBool _ => "bool"
  | JInt _ => "int"
  | JFloat _ => "float"
  | JStr _ => "str"
  | JList _ => "list"
  | JDict _ => "dict"
  end.

Fixpoint mantissa (literal : str) : str :=
  match literal with
  | c :: rest => if ((c =? 101) || (c =? 69))%N then [] else c :: mantissa rest
  | [] => []
  end.

(** Truth value.  A float literal is false when its mantissa has only
    zero digits (a non-zero literal that underflows to zero is not
    told apart). *)
Definition truth (v : json) : bool :=
  match v with
  | JNull => false
  | JBool b => b
  | JInt n => negb (n =? 0)%Z
  | JFloat literal =>
      match literal with
      | c :: _ =>
          if ((c =? 78) || (c =? 73))%N then true
          else existsb (fun d => (49 <=? d) && (d <=? 57) || (d =? 73))%N
                       (mantissa literal)
      | [] => false
      end
  | JStr s => match s with [] => false | _ => true end
  | JList items => match items with [] => false | _ => true end
  | JDict entries => match entries with [] => false | _ => true end
  end.

(** [obj.get(key, default)]: only a dictionary has the method. *)
Definition py_get (obj : json) (key : string) (default : json) : result json :=
  match obj with
  | JDict entries =>
      Return (match dict_get (text key) entries with
              | Some v => v
              | None => default
              end)
  | _ => Raise (AttributeError (type_name obj) "get")
  end.

(** [list(obj.keys())]. *)
Definition py_keys (obj : json) : result (list str) :=
  match obj with
  | JDict entries => Return (List.map fst entries)
  | _ => Raise (AttributeError (type_name obj) "keys")
  end.

(** [str(e)] for the exceptions the handlers catch. *)
Definition exn_text (e : exn) : str :=
  match e with
  | AttributeError t a =>
      text "'" ++ text t ++ text "' object has no attribute '" ++ text a ++ text "'"
  | _ => []
  end.

(** *** Messages *)

Record NetworkMessage : Type := {
  message_id : str;
  timestamp : str;
  message_type : str;
  payload : json;
  client_id : str
}.

Definition with_client_id (c : str) (m : NetworkMessage) : NetworkMessage :=
  {| message_id := message_id m; timestamp := timestamp m;
     message_type := message_type m; payload := payload m; client_id := c |}.

(** [dataclasses.asdict]. *)
Definition asdict (m : NetworkMessage) : json :=
  JDict [ (text "message_id", JStr (message_id m));
          (text "timestamp", JStr (timestamp m));
          (text "message_type", JStr (message_type m));
          (text "payload", payload m);
          (text "client_id", JStr (client_id m)) ].

Definition field_names : list str :=
  [ text "message_id"; text "timestamp"; text "message_type";
    text "payload"; text "client_id" ].

(** What the first two statements of [_process_message] make of a line.
    The dataclass does not check its field types; the embedding covers
    the envelopes whose text fields hold text, and sets the others
    apart as [Untyped]. *)
Inductive decoded : Type :=
| Envelope (m : NetworkMessage)
| Rejected (e : exn)
| Untyped.

(** The dataclass constructor applied to the unpacked dictionary:
    required keys must be present and no other key is accepted. *)
Definition construct (message_dict : json) : decoded :=
  match message_dict with
  | JDict entries =>
      if forallb (fun kv => existsb (Text.eqb (fst kv)) field_names) entries
      then
        match dict_get (text "message_id") entries,
              dict_get (text "timestamp") entries,
              dict_get (text "message_type") entries,
              dict_get (text "payload") entries with
        | Some i, Some t, Some y, Some p =>
            match i, t, y,
                  match dict_get (text "client_id") entries with
                  | Some c => c
                  | None => JStr []
                  end with
            | JStr i', JStr t', JStr y', JStr c' =>
                Envelope {| message_id := i'; timestamp := t';
                            message_type := y'; payload := p; client_id := c' |}
            | _, _, _, _ => Untyped
            end
        | _, _, _, _ => Rejected TypeError
        end
      else Rejected TypeError
  | _ => Rejected TypeError
  end.

Definition decode (message_data : str) : decoded :=
  match loads message_data with
  | Raise e => Rejected e
  | Return message_dict => construct message_dict
  end.

(** [json.dumps(asdict(message)) + '\n'] *)
Definition encode (m : NetworkMessage) : str := dumps (asdict m) ++ [10%N].

(** What the reader of [_handle_client] and the first two statements of
    [_process_message] make of the first complete line of a buffer: the
    line is cut at the newline, stripped and decoded; the rest stays. *)
Definition first_message (buffer : str) : option (decoded * str) :=
  match split_once 10%N buffer with
  | Some (line, rest) => Some (decode (strip line), rest)
  | None => None
  end.

(** *** Server state *)

(** A client socket: the peer decides which send fails. *)
Record client_socket : Type := {
  fails_at : nat -> bool;
  attempts : nat;
  sent : list str;      (* what was written, oldest first *)
  closed : bool
}.

Record client_info : Type := {
  socket : client_socket;
  address : str * Z;
  connected_at : str;
  last_activity : str
}.

Definition with_socket (k : client_socket) (c : client_info) : client_info :=
  {| socket := k; address := address c; connected_at := connected_at c;
     last_activity := last_activity c |}.

(** [self.system_status]; [client_count] is absent until the monitor
    first stores it. *)
Record status : Type := {
  controller_status : str;
  hardware_connected : bool;
  marks_completed : Z;
  error_count : Z;
  uptime : json;
  last_update : str;
  client_count : option Z
}.

Definition status_doc (st : status) : json :=
  JDict ([ (text "controller_status", JStr (controller_status st));
           (text "hardware_connected", JBool (hardware_connected st));
           (text "marks_completed", JInt (marks_completed st));
           (text "error_count", JInt (error_count st));
           (text "uptime", uptime st);
           (text "last_update", JStr (last_update st)) ]
         ++ match client_count st with
            | Some n => [(text "client_count", JInt n)]
            | None => []
            end).

(** The wall clock, by successive readings. *)
Record time_source : Type := {
  isoformat : nat -> str;              (* datetime.now().isoformat() *)
  epoch : nat -> Z;                    (* int(time.time()) *)
  epoch_repr : nat -> str;             (* time.time(), as a float literal *)
  elapsed_repr : nat -> nat -> str     (* difference of two readings *)
}.

Inductive log_entry : Type :=
| Registered_handler (message_type : str)
| Received_message (message_type client_id : str)
| No_handler (message_type : str)
| Invalid_json (client_id : str) (e : exn)
| Processing_error (client_id : str) (e : exn)
| Send_failed (client_id : str) (e : exn)
| Broadcast_failed (client_id : str) (e : exn)
| Client_disconnected (client_id : str)
| Configuration_update (keys : list str)
| Shutdown_received
| Marking_handler_error (e : exn).

Record world : Type := {
  clients : list (str * client_info);
  system_status : status;
  is_running : bool;
  stop_timers : nat;                 (* pending [Timer(1.0, stop_server)] *)
  log : list log_entry;              (* oldest first *)
  readings : nat;                    (* clock readings taken so far *)
  time : time_source;
  broadcasts : nat;                  (* calls of [broadcast_message], for the proofs *)
  plc_interface : Plc.plc            (* the fieldbus master of main.py *)
}.

Definition set_clients (c : list (str * client_info)) (w : world) : world :=
  {| clients := c; system_status := system_status w; is_running := is_running w;
     stop_timers := stop_timers w; log := log w; readings := readings w;
     time := time w; broadcasts := broadcasts w; plc_interface := plc_interface w |}.

Definition set_status (st : status) (w : world) : world :=
  {| clients := clients w; system_status := st; is_running := is_running w;
     stop_timers := stop_timers w; log := log w; readings := readings w;
     time := time w; broadcasts := broadcasts w; plc_interface := plc_interface w |}.

Definition set_plc (p : Plc.plc) (w : world) : world :=
  {| clients := clients w; system_status := system_status w;
     is_running := is_running w; stop_timers := stop_timers w; log := log w;
     readings := readings w; time := time w; broadcasts := broadcasts w; plc_interface := p |}.

Definition add_timer (w : world) : world :=
  {| clients := clients w; system_status := system_status w;
     is_running := is_running w; stop_timers := S (stop_timers w);
     log := log w; readings := readings w; time := time w; broadcasts := broadcasts w;
     plc_interface := plc_interface w |}.

Definition logged (e : log_entry) (w : world) : world :=
  {| clients := clients w; system_status := system_status w;
     is_running := is_running w; stop_timers := stop_timers w;
     log := log w ++ [e]; readings := readings w; time := time w; broadcasts := broadcasts w;
     plc_interface := plc_interface w |}.

Definition read_clock (w : world) : world :=
  {| clients := clients w; system_status := system_status w;
     is_running := is_running w; stop_timers := stop_timers w;
     log := log w; readings := S (readings w); time := time w; broadcasts := broadcasts w;
     plc_interface := plc_interface w |}.

Definition count_broadcast (w : world) : world :=
  {| clients := clients w; system_status := system_status w;
     is_running := is_running w; stop_timers := stop_timers w;
     log := log w; readings := readings w; time := time w;
     broadcasts := S (broadcasts w); plc_interface := plc_interface w |}.

Definition M (A : Type) : Type := Py.M world A.

Definition logger (e : log_entry) : M unit := modify (logged e).

Definition now_isoformat : M str :=
  fun w => (Return (isoformat (time w) (readings w)), read_clock w).

Definition int_time : M Z :=
  fun w => (Return (epoch (time w) (readings w)), read_clock w).

Definition time_repr : M str :=
  fun w => (Return (epoch_repr (time w) (readings w)), read_clock w).

(** [time.time() - self.system_status.get("start_time", time.time())]:
    the key is never stored, so two readings are subtracted. *)
Definition time_since_start : M json :=
  fun w =>
    (Return (JFloat (elapsed_repr (time w) (readings w) (S (readings w)))),
     read_clock (read_clock w)).

(** Running the fieldbus master inside the server process. *)
Definition on_plc {A} (m : Plc.M A) : M A :=
  fun w => (fst (m (plc_interface w)), set_plc (snd (m (plc_interface w))) w).

(** *** Handlers *)

Definition handler : Type := NetworkMessage -> M (option NetworkMessage).

Definition _create_error_response (request_id error_message : str)
  : M NetworkMessage :=
  ts <- now_isoformat ;;
  ret {| message_id := text "error_" ++ request_id;
         timestamp := ts;
         message_type := text "error_response";
         payload := JDict [(text "error", JStr error_message)];
         client_id := [] |}.

Definition _handle_status_request : handler :=
  fun message =>
    st <- gets system_status ;;
    count <- gets (fun w => Z.of_nat (List.length (clients w))) ;;
    server_uptime <- time_since_start ;;
    let response_payload :=
      JDict [ (text "system_status", status_doc st);
              (text "client_count", JInt count);
              (text "server_uptime", server_uptime) ] in
    ts <- now_isoformat ;;
    ret (Some {| message_id := text "response_" ++ message_id message;
                 timestamp := ts;
                 message_type := text "status_response";
                 payload := response_payload;
                 client_id := [] |}).

Definition count_mark (last : str) (st : status) : status :=
  {| controller_status := controller_status st;
     hardware_connected := hardware_connected st;
     marks_completed := marks_completed st + 1;
     error_count := error_count st;
     uptime := uptime st;
     last_update := last;
     client_count := client_count st |}.

Definition _handle_marking_request : handler :=
  fun message =>
    try_except
      (product_data <- lift (py_get (payload message) "product_data" (JDict [])) ;;
       serial_number <- lift (py_get product_data "serial_number" JNull) ;;
       if negb (truth serial_number) then
         response <- _create_error_response (message_id message)
                       (text "Missing required field: serial_number") ;;
         ret (Some response)
       else
         t <- int_time ;;
         completion_time <- now_isoformat ;;
         let marking_result :=
           JDict [ (text "success", JBool true);
                   (text "mark_id", JStr (text "mark_" ++ int_repr t));
                   (text "completion_time", JStr completion_time);
                   (text "product_data", product_data) ] in
         last <- now_isoformat ;;
         modify (fun w => set_status (count_mark last (system_status w)) w) ;;;
         ts <- now_isoformat ;;
         ret (Some {| message_id := text "response_" ++ message_id message;
                      timestamp := ts;
                      message_type := text "marking_response";
                      payload := marking_result;
                      client_id := [] |}))
      (fun e =>
         response <- _create_error_response (message_id message) (exn_text e) ;;
         ret (Some response)).

Definition _handle_configuration_update : handler :=
  fun message =>
    try_except
      (config_data <- lift (py_get (payload message) "configuration" (JDict [])) ;;
       keys <- lift (py_keys config_data) ;;
       logger (Configuration_update keys) ;;;
       ts <- now_isoformat ;;
       ret (Some {| message_id := text "response_" ++ message_id message;
                    timestamp := ts;
                    message_type := text "configuration_response";
                    payload := JDict [ (text "success", JBool true);
                                       (text "message", JStr (text "Configuration updated")) ];
                    client_id := [] |}))
      (fun e =>
         response <- _create_error_response (message_id message) (exn_text e) ;;
         ret (Some response)).

Definition reset_statistics (st : status) : status :=
  {| controller_status := controller_status st;
     hardware_connected := hardware_connected st;
     marks_completed := 0;
     error_count := 0;
     uptime := uptime st;
     last_update := last_update st;
     client_count := client_count st |}.

Definition is_text (s : string) (v : json) : bool :=
  match v with
  | JStr t => Text.eqb t (text s)
  | _ => false
  end.

Definition _handle_system_command : handler :=
  fun message =>
    command <- lift (py_get (payload message) "command" JNull) ;;
    (if is_text "shutdown" command then
       logger Shutdown_received ;;;
       modify add_timer
     else if is_text "reset_statistics" command then
       modify (fun w => set_status (reset_statistics (system_status w)) w)
     else ret tt) ;;;
    ts <- now_isoformat ;;
    ret (Some {| message_id := text "response_" ++ message_id message;
                 timestamp := ts;
                 message_type := text "command_response";
                 payload := JDict [ (text "success", JBool true);
                                    (text "command", command) ];
                 client_id := [] |}).

Definition _handle_heartbeat : handler :=
  fun message =>
    ts <- now_isoformat ;;
    server_time <- now_isoformat ;;
    ret (Some {| message_id := text "response_" ++ message_id message;
                 timestamp := ts;
                 message_type := text "heartbeat_response";
                 payload := JDict [(text "server_time", JStr server_time)];
                 client_id := [] |}).

(** *** The server object *)

Record MarkingSystemTCPServer : Type := {
  message_handlers : list (str * handler);
  self : world
}.

Definition register_handler (message_type : string) (h : handler)
    (srv : MarkingSystemTCPServer) : MarkingSystemTCPServer :=
  {| message_handlers := dict_set (text message_type) h (message_handlers srv);
     self := logged (Registered_handler (text message_type)) (self srv) |}.

Definition _register_default_handlers (srv : MarkingSystemTCPServer)
  : MarkingSystemTCPServer :=
  register_handler "heartbeat" _handle_heartbeat
    (register_handler "system_command" _handle_system_command
      (register_handler "configuration_update" _handle_configuration_update
        (register_handler "marking_request" _handle_marking_request
          (register_handler "status_request" _handle_status_request srv)))).

(** *** Sending *)

(** [socket.send(data)]. *)
Definition socket_send (data : str) (k : client_socket)
  : result unit * client_socket :=
  if closed k then (Raise SocketError, k)
  else if fails_at k (attempts k) then
    (Raise SocketError,
     {| fails_at := fails_at k; attempts := S (attempts k);
        sent := sent k; closed := false |})
  else
    (Return tt,
     {| fails_at := fails_at k; attempts := S (attempts k);
        sent := sent k ++ [data]; closed := false |}).

Definition _disconnect_client (client_id : str) : M unit :=
  fun w =>
    match dict_get client_id (clients w) with
    | Some _ =>
        (Return tt,
         logged (Client_disconnected client_id)
                (set_clients (dict_del client_id (clients w)) w))
    | None => (Return tt, w)
    end.

Definition _send_response (client_id : str) (response : NetworkMessage) : M unit :=
  try_except
    (fun w =>
       match dict_get client_id (clients w) with
       | Some info =>
           let message_json := encode response in
           (fst (socket_send message_json (socket info)),
            set_clients
              (dict_set client_id
                 (with_socket (snd (socket_send message_json (socket info))) info)
                 (clients w)) w)
       | None => (Return tt, w)
       end)
    (fun e =>
       logger (Send_failed client_id e) ;;;
       _disconnect_client client_id).

(** The [for] loop of [broadcast_message] over the client dictionary:
    the entries after the sends, the clients whose send raised, and the
    errors logged. *)
Fixpoint broadcast_loop (message_json : str) (cs : list (str * client_info))
  : list (str * client_info) * list str * list log_entry :=
  match cs with
  | [] => ([], [], [])
  | (client_id, info) :: rest =>
      let '(rest', disconnected, errors) := broadcast_loop message_json rest in
      let info' := with_socket (snd (socket_send message_json (socket info))) info in
      match fst (socket_send message_json (socket info)) with
      | Return _ => ((client_id, info') :: rest', disconnected, errors)
      | Raise e =>
          ((client_id, info') :: rest',
           client_id :: disconnected,
           Broadcast_failed client_id e :: errors)
      end
  end.

Fixpoint disconnect_all (ids : list str) : M unit :=
  match ids with
  | [] => ret tt
  | client_id :: rest => _disconnect_client client_id ;;; disconnect_all rest
  end.

Definition broadcast_message (message : NetworkMessage) : M unit :=
  modify count_broadcast ;;;
  let message_json := encode message in
  cs <- gets clients ;;
  let '(cs', disconnected_clients, errors) := broadcast_loop message_json cs in
  modify (set_clients cs') ;;;
  modify (fun w => fold_left (fun w' e => logged e w') errors w) ;;;
  disconnect_all disconnected_clients.

Definition refresh_status (up : json) (count : Z) (st : status) : status :=
  {| controller_status := controller_status st;
     hardware_connected := hardware_connected st;
     marks_completed := marks_completed st;
     error_count := error_count st;
     uptime := up;
     last_update := last_update st;
     client_count := Some count |}.

(** One round of the [while self.is_running] loop of [_monitor_system],
    up to the thirty-second sleep. *)
Definition _monitor_system_round : M unit :=
  up <- time_since_start ;;
  count <- gets (fun w => Z.of_nat (List.length (clients w))) ;;
  modify (fun w => set_status (refresh_status up count (system_status w)) w) ;;;
  t <- int_time ;;
  ts <- now_isoformat ;;
  st <- gets system_status ;;
  let status_update :=
    {| message_id := text "status_update_" ++ int_repr t;
       timestamp := ts;
       message_type := text "status_broadcast";
       payload := JDict [(text "system_status", status_doc st)];
       client_id := [] |} in
  cs <- gets clients ;;
  match cs with
  | [] => ret tt
  | _ :: _ => broadcast_message status_update
  end.

(** *** Receiving *)

(** The two [except] clauses of [_process_message]. *)
Definition failure_entry (client_id : str) (e : exn) : log_entry :=
  match e with
  | JSONDecodeError => Invalid_json client_id e
  | _ => Processing_error client_id e
  end.

Definition _process_message (message_data client_id : str)
    (srv : MarkingSystemTCPServer) : option MarkingSystemTCPServer :=
  match decode message_data with
  | Untyped => None
  | Rejected e =>
      Some {| message_handlers := message_handlers srv;
              self := logged (failure_entry client_id e) (self srv) |}
  | Envelope message0 =>
      let message := with_client_id client_id message0 in
      let body : M unit :=
        logger (Received_message (message_type message) client_id) ;;;
        match dict_get (message_type message) (message_handlers srv) with
        | Some handler =>
            response <- handler message ;;
            match response with
            | Some r => _send_response client_id r
            | None => ret tt
            end
        | None =>
            logger (No_handler (message_type message)) ;;;
            error_response <-
              _create_error_response (message_id message)
                (text "Unknown message type: " ++ message_type message) ;;
            _send_response client_id error_response
        end in
      Some {| message_handlers := message_handlers srv;
              self := snd (try_except body
                             (fun e => logger (failure_entry client_id e))
                             (self srv)) |}
  end.

(** The inner loop of [_handle_client]: every complete line of the
    buffer is stripped and, unless blank, processed; the rest stays in
    the buffer.  One line per unit of [fuel]. *)
Fixpoint process_buffer (fuel : nat) (buffer client_id : str)
    (srv : MarkingSystemTCPServer) : option (MarkingSystemTCPServer * str) :=
  match fuel with
  | O => Some (srv, buffer)
  | S fuel' =>
      match split_once 10%N buffer with
      | None => Some (srv, buffer)
      | Some (line, buffer') =>
          match strip line with
          | [] => process_buffer fuel' buffer' client_id srv
          | _ :: _ =>
              match _process_message (strip line) client_id srv with
              | Some srv' => process_buffer fuel' buffer' client_id srv'
              | None => None
              end
          end
      end
  end.

(** [buffer += data] and the inner loop. *)
Definition receive (data buffer client_id : str) (srv : MarkingSystemTCPServer)
  : option (MarkingSystemTCPServer * str) :=
  process_buffer (List.length (buffer ++ data)) (buffer ++ data) client_id srv.

(** *** The marking handler of main.py *)

(** [plc_marking_handler], which [_integrate_plc_with_server] registers
    in place of the built-in one.  The server class has no
    [_create_response] method, so the success branch raises. *)
Definition plc_marking_handler : handler :=
  fun message =>
    try_except
      (product_data <- lift (py_get (payload message) "product_data" (JDict [])) ;;
       success <- on_plc Plc.execute_marking_sequence ;;
       if success then
         lift (Raise (AttributeError "MarkingSystemTCPServer" "_create_response"))
       else
         response <- _create_error_response (message_id message)
                       (text "PLC marking sequence failed") ;;
         ret (Some response))
      (fun e =>
         logger (Marking_handler_error e) ;;;
         response <- _create_error_response (message_id message)
                       (text "Hardware error: " ++ exn_text e) ;;
         ret (Some response)).

Definition _integrate_plc_with_server (srv : MarkingSystemTCPServer)
  : MarkingSystemTCPServer :=
  register_handler "marking_request" plc_marking_handler srv.

(** *** A sample server *)

Definition sample_time : time_source :=
  {| isoformat := fun _ => text "2024-01-01T00:00:00";
     epoch := fun _ => 1704067200%Z;
     epoch_repr := fun _ => text "1704067200.0";
     elapsed_repr := fun _ _ => text "0.0" |}.

Definition initial_status : status :=
  {| controller_status := text "ready";
     hardware_connected := true;
     marks_completed := 0;
     error_count := 0;
     uptime := JInt 0;
     last_update := text "2024-01-01T00:00:00";
     client_count := None |}.

Definition healthy_socket : client_socket :=
  {| fails_at := fun _ => false; attempts := 0%nat; sent := []; closed := false |}.

Definition broken_socket : client_socket :=
  {| fails_at := fun _ => true; attempts := 0%nat; sent := []; closed := false |}.

Definition client_on (k : client_socket) (port : Z) : client_info :=
  {| socket := k; address := (text "10.0.0.7", port);
     connected_at := text "2024-01-01T00:00:00";
     last_activity := text "1704067200.0" |}.

Definition world_with (cs : list (str * client_info)) : world :=
  {| clients := cs; system_status := initial_status; is_running := true;
     stop_timers := 0%nat; log := []; readings := 0%nat; time := sample_time; broadcasts := 0%nat;
     plc_interface := Plc.fresh_plc |}.

(** What [__init__] builds, here with the given clients connected. *)
Definition new_server (w : world) : MarkingSystemTCPServer :=
  _register_default_handlers {| message_handlers := []; self := w |}.

Definition three_clients : list (str * client_info) :=
  [ (text "client_1_5001", client_on healthy_socket 5001);
    (text "client_1_5002", client_on broken_socket 5002);
    (text "client_1_5003", client_on healthy_socket 5003) ].

Definition one_client : list (str * client_info) :=
  [ (text "client_1_5001", client_on healthy_socket 5001) ].

Definition sample_message (type : string) (p : json) : NetworkMessage :=
  {| message_id := text "req1"; timestamp := text "T";
     message_type := text type; payload := p; client_id := [] |}.

(** Lines a client may send, written with an apostrophe where the line
    has a double quote. *)
Definition wire_text (s : string) : str :=
  List.map (fun c => if (c =? 39)%N then 34%N else c) (text s).

Definition heartbeat_line : str :=
  wire_text "{'message_id': 'req1', 'timestamp': 'T', 'message_type': 'heartbeat', 'payload': {}}".

Definition incomplete_line : str :=
  wire_text "{'message_id': 'req1', 'message_type': 'heartbeat'}".

Definition garbled_line : str := wire_text "{'message_id': 'req1', ".

Fixpoint distinct_keys {V} (d : list (str * V)) : bool :=
  match d with
  | [] => true
  | (k, _) :: rest =>
      match dict_get k rest with
      | Some _ => false
      | None => distinct_keys rest
      end
  end.

Definition is_dict (v : json) : bool :=
  match v with JDict _ => true | _ => false end.

(** Whether [socket.send] on the client's socket would return. *)
Definition accepts_send (info : client_info) : bool :=
  negb (closed (socket info))
  && negb (fails_at (socket info) (attempts (socket info))).

(** Whether the lookup of the marking handler finds a serial number:
    the payload is a dictionary whose [product_data] is a dictionary
    with the key [serial_number]. *)
Definition has_serial_number (p : json) : bool :=
  match p with
  | JDict entries =>
      match dict_get (text "product_data") entries with
      | Some (JDict product_data) =>
          match dict_get (text "serial_number") product_data with
          | Some _ => true
          | None => false
          end
      | _ => false
      end
  | _ => false
  end.

End Server.

(** ** Valid messages *)

Module Codec.

Import Json Server.

(** Text is a sequence of Unicode code points in which no high
    surrogate is immediately followed by a low surrogate (such a pair is
    written like the single character it encodes in UTF-16). *)
Fixpoint valid_text (s : str) : bool :=
  match s with
  | [] => true
  | c :: rest =>
      (c <? 1114112)%N
      && negb (is_high_surrogate c
               && match rest with
                  | c' :: _ => is_low_surrogate c'
                  | [] => false
                  end)
      && valid_text rest
  end.

(** A literal that [NUMBER_RE] reads to its end as a float, or one of
    the two infinities as [json.dumps] writes them. *)
Definition float_literal (l : str) : bool :=
  match match_number l with
  | Some (JFloat _, []) => true
  | _ => false
  end.

Definition infinity_literal (l : str) : bool :=
  Text.eqb l (text "Infinity") || Text.eqb l (text "-Infinity").

(** A document: text is valid, a float is written as a number with a
    fraction or an exponent or is an infinity (not NaN, which is not
    equal to itself), and the keys of a dictionary are distinct. *)
Fixpoint well_formed (v : json) : bool :=
  match v with
  | JNull => true
  | JBool _ => true
  | JInt _ => true
  | JFloat l => float_literal l || infinity_literal l
  | JStr s => valid_text s
  | JList items => forallb well_formed items
  | JDict entries =>
      forallb (fun kv => valid_text (fst kv) && well_formed (snd kv)) entries
      && distinct_keys entries
  end.

Definition valid_message (m : NetworkMessage) : bool :=
  valid_text (message_id m) && valid_text (timestamp m)
  && valid_text (message_type m) && well_formed (payload m)
  && valid_text (client_id m).

(** The end of a value inside a document: nothing, or a comma, a closing
    bracket or a closing brace. *)
Definition delimited (rest : str) : bool :=
  match rest with
  | [] => true
  | c :: _ => ((c =? 44) || (c =? 93) || (c =? 125))%N
  end.

(** Calls of the scanner a document needs, one inside the other. *)
Fixpoint weight (v : json) : nat :=
  match v with
  | JList items => S (fold_right (fun x n => (S (weight x) + n)%nat) 0%nat items)
  | JDict entries =>
      S (fold_right (fun kv n => (S (weight (snd kv)) + n)%nat) 0%nat entries)
  | _ => 1%nat
  end.

(** *** Sample messages *)

(** A reply with every kind of value in its payload, a line feed, a
    quote, an accented letter, a character outside the basic plane and a
    lone surrogate in its text. *)
Definition rich_message : NetworkMessage :=
  {| message_id := text "response_req1";
     timestamp := text "2024-01-01T00:00:00";
     message_type := text "marking_response";
     payload :=
       JDict [ (text "success", JBool true);
               (text "count", JInt (-120));
               (text "ratio", JFloat (text "1.5e-07"));
               (text "limit", JFloat (text "Infinity"));
               (text "note", JStr [76; 49; 10; 34; 233; 128512; 55357]%N);
               (text "tags", JList [JNull; JList []; JDict []; JInt 0]);
               (text "product_data",
                JDict [(text "serial_number", JStr (text "SN-1"))]) ];
     client_id := text "client_1_5001" |}.

(** A message whose id is a high surrogate followed by a low one. *)
Definition paired_message : NetworkMessage :=
  {| message_id := [55357; 56832]%N;
     timestamp := text "T";
     message_type := text "heartbeat";
     payload := JDict [];
     client_id := [] |}.

Definition joined_message : NetworkMessage :=
  {| message_id := [128512]%N;
     timestamp := text "T";
     message_type := text "heartbeat";
     payload := JDict [];
     client_id := [] |}.

End Codec.
(** ** Bytes and text *)

Module Utf8.

(** A continuation byte, [10xxxxxx]. *)
Definition continuation (b : Z) : bool := (128 <=? b) && (b <=? 191).

Definition between (lo hi b : Z) : bool := (lo <=? b) && (b <=? hi).

Definition tail_bits (b : Z) : N := Z.to_N (b - 128).

(** [bytes.decode('utf-8')] with strict error handling: the text, or
    [None] where Python raises [UnicodeDecodeError] (a stray or missing
    continuation byte, an overlong form, a surrogate, a value beyond
    U+10FFFF, a sequence cut short by the end of the data). *)
Fixpoint decode (data : list Z) : option str :=
  match data with
  | [] => Some []
  | b0 :: rest =>
      if between 0 127 b0 then
        option_map (cons (Z.to_N b0)) (decode rest)
      else
        match rest with
        | [] => None
        | b1 :: rest1 =>
            if between 194 223 b0 then
              if continuation b1
              then option_map (cons (Z.to_N (b0 - 192) * 64 + tail_bits b1)%N)
                              (decode rest1)
              else None
            else
              match rest1 with
              | [] => None
              | b2 :: rest2 =>
                  if between 224 239 b0 then
                    if (if b0 =? 224 then between 160 191 b1
                        else if b0 =? 237 then between 128 159 b1
                        else continuation b1)
                       && continuation b2
                    then option_map
                           (cons (Z.to_N (b0 - 224) * 4096
                                  + tail_bits b1 * 64 + tail_bits b2)%N)
                           (decode rest2)
                    else None
                  else
                    match rest2 with
                    | [] => None
                    | b3 :: rest3 =>
                        if between 240 244 b0 then
                          if (if b0 =? 240 then between 144 191 b1
                              else if b0 =? 244 then between 128 143 b1
                              else continuation b1)
                             && continuation b2 && continuation b3
                          then option_map
                                 (cons (Z.to_N (b0 - 240) * 262144
                                        + tail_bits b1 * 4096
                                        + tail_bits b2 * 64 + tail_bits b3)%N)
                                 (decode rest3)
                          else None
                        else None
                    end
              end
        end
  end.

(** The bytes of a text of ASCII characters. *)
Definition ascii_bytes (s : str) : list Z := List.map Z.of_N s.

Definition is_ascii (data : list Z) : bool := forallb (between 0 127) data.

End Utf8.
(** ** Opening and closing the fieldbus link *)

Module Link.

Import Plc.
Local Open Scope py_scope.

(** [PLCConnectionType]. *)
Definition MODBUS_TCP : string := "modbus_tcp".
Definition MODBUS_RTU : string := "modbus_rtu".
Definition ETHERNET_IP : string := "ethernet_ip".

(** The entries of [config] that [_connect_modbus_tcp] reads beside
    those of [Plc.config]; [None] stands for an absent key.  The
    [timeout] entry is taken to be absent or a number that [settimeout]
    accepts: how long a call blocks is the peer's [takes]. *)
Record endpoint : Type := {
  host : option string;
  port : option Z
}.

(** What [socket.connect] finds at an address: a PLC, or nothing, and
    then the call raises [socket.error]. *)
Definition network : Type := string -> Z -> option peer.

(** A socket that is not connected, or was closed: every call on it
    raises. *)
Definition unconnected_socket : peer :=
  {| accepts := fun _ _ => false;
     answers := fun _ _ => None;
     takes := fun _ => 0%N |}.

Definition set_connection (c : option peer) (s : plc) : plc :=
  {| cfg := cfg s; connection := c; is_connected := is_connected s;
     io_count := io_count s; wire := wire s;
     clock := clock s; journal := journal s |}.

Definition set_is_connected (b : bool) (s : plc) : plc :=
  {| cfg := cfg s; connection := connection s; is_connected := b;
     io_count := io_count s; wire := wire s;
     clock := clock s; journal := journal s |}.

(** [self.connection.connect((host, port))]. *)
Definition socket_connect (net : network) (host : string) (port : Z) : M unit :=
  fun s => match net host port with
           | Some p => (Return tt, set_connection (Some p) s)
           | None => (Raise SocketError, s)
           end.

(** [try: body except socket.error: handler]. *)
Definition except_socket_error {A} (body handler : M A) : M A :=
  fun s => match body s with
           | (Raise SocketError, s') => handler s'
           | other => other
           end.

(** [config[key]]. *)
Definition subscript {A} (entry : option A) : result A :=
  match entry with
  | Some v => Return v
  | None => Raise KeyError
  end.

Definition _connect_modbus_tcp (net : network) (ep : endpoint) : M bool :=
  except_socket_error
    (modify (set_connection (Some unconnected_socket)) ;;;
     host <- lift (subscript (host ep)) ;;
     let port := match port ep with Some p => p | None => 502 end in
     socket_connect net host port ;;;
     modify (set_is_connected true) ;;;
     ret true)
    (ret false).

(** [connect]; the [protocol] entry is always present in [Plc.config]. *)
Definition connect (net : network) (ep : endpoint) : M bool :=
  try_except
    (fun s =>
       if String.eqb (protocol (cfg s)) MODBUS_TCP then _connect_modbus_tcp net ep s
       else if String.eqb (protocol (cfg s)) MODBUS_RTU then _connect_modbus_rtu s
       else (Return false, s))
    (fun _ => ret false).

(** [disconnect]: a socket object is true, [None] is not.  The closed
    socket stays in [self.connection]. *)
Definition disconnect : M unit :=
  fun s => match connection s with
           | Some _ =>
               (Return tt,
                set_is_connected false (set_connection (Some unconnected_socket) s))
           | None => (Return tt, s)
           end.

(** [with PLCInterface(config) as plc: body]: the result of [connect]
    is dropped, and [__exit__] runs whether or not [body] raised. *)
Definition __enter__ (net : network) (ep : endpoint) : M unit :=
  connect net ep ;;; ret tt.

Definition __exit__ : M unit := disconnect.

Definition with_statement {A} (net : network) (ep : endpoint) (body : M A) : M A :=
  fun s =>
    match __enter__ net ep s with
    | (Raise e, s1) => (Raise e, s1)
    | (Return _, s1) =>
        match body s1 with
        | (r, s2) => (r, snd (__exit__ s2))
        end
    end.

(** *** main.py: the periodic health check *)

Fixpoint status_get {V} (key : string) (d : list (string * V)) : option V :=
  match d with
  | [] => None
  | (k, v) :: rest => if String.eqb k key then Some v else status_get key rest
  end.

(** [status.get("status") == "disconnected"] *)
Definition reports_disconnected (status : list (string * status_value)) : bool :=
  match status_get "status" status with
  | Some (VStr s) => String.eqb s "disconnected"
  | _ => false
  end.

Definition _periodic_health_check (net : network) (ep : endpoint) : M unit :=
  fun s =>
    if is_connected s then
      try_except
        (status <- get_system_status ;;
         if reports_disconnected status then connect net ep ;;; ret tt
         else ret tt)
        (fun _ => ret tt)
        s
    else (Return tt, s).

(** *** Sample links *)

Definition rtu_plc : plc :=
  {| cfg := {| protocol := MODBUS_RTU; unit_id := Some 1;
               analog_scale := []; analog_offset := [] |};
     connection := None; is_connected := false; io_count := 0%nat;
     wire := []; clock := 0%N; journal := [] |}.

Definition ethernet_ip_plc : plc :=
  {| cfg := {| protocol := ETHERNET_IP; unit_id := Some 1;
               analog_scale := []; analog_offset := [] |};
     connection := None; is_connected := false; io_count := 0%nat;
     wire := []; clock := 0%N; journal := [] |}.

(** The endpoint of [SYSTEM_CONFIG] and a network on which it answers. *)
Definition sample_endpoint : endpoint :=
  {| host := Some "192.168.1.100"; port := Some 502 |}.

Definition plant_network : network :=
  fun host port =>
    if String.eqb host "192.168.1.100" && (port =? 502) then Some willing_peer
    else None.

Definition empty_network : network := fun _ _ => None.

End Link.
(** ** Connections coming and going *)

Module Lifecycle.

Import Json Server.
Local Open Scope py_scope.

Definition set_is_running (b : bool) (w : world) : world :=
  {| clients := clients w; system_status := system_status w; is_running := b;
     stop_timers := stop_timers w; log := log w; readings := readings w;
     time := time w; broadcasts := broadcasts w; plc_interface := plc_interface w |}.

(** The bookkeeping of [start_server] for one accepted connection, from
    the return of [accept] to the table entry: the identifier is built
    from the whole seconds of the clock and the port of the peer. *)
Definition accept_client (client_socket : client_socket) (client_address : str * Z)
  : M str :=
  t <- int_time ;;
  let client_id :=
    text "client_" ++ int_repr t ++ text "_" ++ int_repr (snd client_address) in
  connected_at <- now_isoformat ;;
  last_activity <- time_repr ;;
  modify (fun w =>
            set_clients
              (dict_set client_id
                 {| socket := client_socket; address := client_address;
                    connected_at := connected_at; last_activity := last_activity |}
                 (clients w)) w) ;;;
  ret client_id.

(** [stop_server] up to the end of its loop: the flag is cleared and
    every tracked client is disconnected, over a copy of the keys.  The
    statements after the loop close the listening socket, which [world]
    does not hold. *)
Definition stop_server_clients : M unit :=
  modify (set_is_running false) ;;;
  client_ids <- gets (fun w => List.map fst (clients w)) ;;
  disconnect_all client_ids.

(** *** The reader of one connection *)

Definition with_last_activity (t : str) (c : client_info) : client_info :=
  {| socket := socket c; address := address c; connected_at := connected_at c;
     last_activity := t |}.

(** [self.clients[client_id]["last_activity"] = time.time()]: the clock
    is read first, then the table is indexed. *)
Definition touch (client_id : str) : M unit :=
  fun w =>
    let now := epoch_repr (time w) (readings w) in
    let w1 := read_clock w in
    match dict_get client_id (clients w1) with
    | Some info =>
        (Return tt,
         set_clients
           (dict_set client_id (with_last_activity now info) (clients w1)) w1)
    | None => (Raise KeyError, w1)
    end.

(** How the loop of [_handle_client] was left. *)
Inductive ending : Type :=
| Server_stopped       (* [self.is_running] was false *)
| Peer_closed          (* [recv] returned no data *)
| Undecodable          (* [decode] raised UnicodeDecodeError *)
| Untracked.           (* the table had no entry for the client: KeyError *)

Definition finally_disconnect (client_id : str) (srv : MarkingSystemTCPServer)
  : MarkingSystemTCPServer :=
  {| message_handlers := message_handlers srv;
     self := snd (_disconnect_client client_id (self srv)) |}.

(** [_handle_client] on the chunks that the successive calls of [recv]
    return (none of them raising [socket.error]); [buffer] is the text
    kept from the earlier chunks.  The result is the server, the buffer
    and how the loop ended, with the [finally] clause run; the ending is
    [None] while the thread waits for more data.  As for
    [process_buffer], there is no result when a line has fields that
    the embedding does not type. *)
Fixpoint _handle_client (chunks : list (list Z)) (buffer client_id : str)
    (srv : MarkingSystemTCPServer)
  : option (MarkingSystemTCPServer * str * option ending) :=
  if negb (is_running (self srv)) then
    Some (finally_disconnect client_id srv, buffer, Some Server_stopped)
  else
    match chunks with
    | [] => Some (srv, buffer, None)
    | [] :: _ => Some (finally_disconnect client_id srv, buffer, Some Peer_closed)
    | (_ :: _) as raw :: later =>
        match Utf8.decode raw with
        | None => Some (finally_disconnect client_id srv, buffer, Some Undecodable)
        | Some data =>
            match receive data buffer client_id srv with
            | None => None
            | Some (srv1, buffer1) =>
                match touch client_id (self srv1) with
                | (Return _, w2) =>
                    _handle_client later buffer1 client_id
                      {| message_handlers := message_handlers srv1; self := w2 |}
                | (Raise _, w2) =>
                    Some (finally_disconnect client_id
                            {| message_handlers := message_handlers srv1; self := w2 |},
                          buffer1, Some Untracked)
                end
            end
        end
    end.

End Lifecycle.
(** ** The network monitor ([IndustrialNetworkMonitor]) *)

Module Monitor.

Import Json.

(** *** Modbus headers *)

(** [data[i:j]] *)
Definition slice (i j : nat) (data : list Z) : list Z :=
  firstn (j - i) (skipn i data).

(** [data[i]] *)
Definition index (data : list Z) (i : nat) : result Z :=
  match nth_error data i with
  | Some b => Return b
  | None => Raise IndexError
  end.

(** [str(e)] for the two exceptions the header parser could meet. *)
Definition error_text (e : exn) : str :=
  match e with
  | StructError => text "unpack requires a buffer of 2 bytes"
  | IndexError => text "index out of range"
  | _ => []
  end.

Definition function_names : list (Z * string) :=
  [ (1, "Read Coils");
    (2, "Read Discrete Inputs");
    (3, "Read Holding Registers");
    (4, "Read Input Registers");
    (5, "Write Single Coil");
    (6, "Write Single Register");
    (15, "Write Multiple Coils");
    (16, "Write Multiple Registers") ].

Definition _get_modbus_function_name (function_code : Z) : str :=
  match Plc.lookup function_code function_names with
  | Some name => text name
  | None => text "Unknown (" ++ int_repr function_code ++ text ")"
  end.

Definition modbus_error (message : str) : json :=
  JDict [ (text "protocol", JStr (text "modbus")); (text "error", JStr message) ].

Definition _parse_modbus_packet (data : list Z) : json :=
  if (List.length data <? 8)%nat then modbus_error (text "packet too short")
  else
    match
      bind (Struct.unpack_H (slice 0 2 data)) (fun transaction_id =>
      bind (Struct.unpack_H (slice 2 4 data)) (fun protocol_id =>
      bind (Struct.unpack_H (slice 4 6 data)) (fun length =>
      bind (index data 6) (fun unit_id =>
      bind (index data 7) (fun function_code =>
      Return
        (JDict [ (text "protocol", JStr (text "modbus"));
                 (text "transaction_id", JInt transaction_id);
                 (text "protocol_id", JInt protocol_id);
                 (text "length", JInt length);
                 (text "unit_id", JInt unit_id);
                 (text "function_code", JInt function_code);
                 (text "function_name",
                  JStr (_get_modbus_function_name function_code)) ]))))))
    with
    | Return fields => fields
    | Raise e => modbus_error (error_text e)
    end.

(** *** Packet contents *)

(** [str.isprintable]: for ASCII the characters from the space to the
    tilde; beyond ASCII the answer is that of the Unicode database,
    which is the parameter [unicode_printable]. *)
Definition isprintable (unicode_printable : N -> bool) (s : str) : bool :=
  forallb (fun c => if (c <? 128)%N then (32 <=? c)%N && (c <=? 126)%N
                    else unicode_printable c) s.

(** [bytes.hex] *)
Definition hex (data : list Z) : str :=
  flat_map (fun b => [hex_char (Z.to_N b / 16); hex_char (Z.to_N b mod 16)]) data.

Definition ascii_preview (data : list Z) : str :=
  List.map (fun b => if (32 <=? b) && (b <=? 126) then Z.to_N b else 46%N)
           (firstn 32 data).

Definition binary_content (data : list Z) : json :=
  JDict [ (text "content_type", JStr (text "binary"));
          (text "hex_data", JStr (hex data));
          (text "ascii_preview", JStr (ascii_preview data)) ].

Definition is_zero_pair (b : list Z) : bool :=
  match b with
  | [x; y] => (x =? 0) && (y =? 0)
  | _ => false
  end.

(** [_decode_packet_content]: [None] is Python's [None], returned when
    the JSON branch raises. *)
Definition _decode_packet_content (unicode_printable : N -> bool) (data : list Z)
  : option json :=
  match data with
  | 123 :: _ =>
      match Utf8.decode data with
      | Some s =>
          match loads s with
          | Return document => Some document
          | Raise _ => None
          end
      | None => None
      end
  | _ =>
      if (8 <=? List.length data)%nat && is_zero_pair (slice 2 4 data)
      then Some (_parse_modbus_packet data)
      else
        match Utf8.decode data with
        | Some s =>
            if isprintable unicode_printable s
            then Some (JDict [ (text "content_type", JStr (text "text"));
                               (text "data", JStr s) ])
            else Some (binary_content data)
        | None => Some (binary_content data)
        end
  end.

(** *** Packets, filters and statistics *)

Record NetworkPacket : Type := {
  timestamp : N;                  (* [time.time()], in milliseconds *)
  source_ip : str;
  dest_ip : str;
  source_port : Z;
  dest_port : option Z;           (* [self.capture_port] may be [None] *)
  protocol : str;
  payload_size : Z;
  raw_data : list Z;
  decoded_content : option json
}.

(** The values a filter is given: [None], a number or a text. *)
Inductive filter_value : Type :=
| FNone
| FInt (n : Z)
| FStr (s : str).

Definition truthy (v : filter_value) : bool :=
  match v with
  | FNone => false
  | FInt n => negb (n =? 0)
  | FStr s => match s with [] => false | _ => true end
  end.

(** [self.filters] *)
Record filter_table : Type := {
  port_filter : filter_value;
  ip_filter : filter_value;
  protocol_filter : filter_value;
  content_filter : filter_value
}.

Definition no_filters : filter_table :=
  {| port_filter := FNone; ip_filter := FNone;
     protocol_filter := FNone; content_filter := FNone |}.

(** [port == value] and [text == value] *)
Definition port_equals (port : option Z) (v : filter_value) : bool :=
  match port, v with
  | Some p, FInt n => p =? n
  | None, FNone => true
  | _, _ => false
  end.

Definition text_equals (s : str) (v : filter_value) : bool :=
  match v with
  | FStr t => Text.eqb s t
  | _ => false
  end.

Definition _passes_filters (f : filter_table) (packet : NetworkPacket) : bool :=
  if truthy (port_filter f) && negb (port_equals (dest_port packet) (port_filter f))
  then false
  else if truthy (ip_filter f)
          && negb (text_equals (source_ip packet) (ip_filter f)
                   || text_equals (dest_ip packet) (ip_filter f))
  then false
  else if truthy (protocol_filter f)
          && negb (text_equals (protocol packet) (protocol_filter f))
  then false
  else true.

(** [self.filters[filter_type] = value] when the key is one of the table. *)
Definition store_filter (filter_type : string) (value : filter_value) (f : filter_table)
  : filter_table :=
  if String.eqb filter_type "port_filter" then
    {| port_filter := value; ip_filter := ip_filter f;
       protocol_filter := protocol_filter f; content_filter := content_filter f |}
  else if String.eqb filter_type "ip_filter" then
    {| port_filter := port_filter f; ip_filter := value;
       protocol_filter := protocol_filter f; content_filter := content_filter f |}
  else if String.eqb filter_type "protocol_filter" then
    {| port_filter := port_filter f; ip_filter := ip_filter f;
       protocol_filter := value; content_filter := content_filter f |}
  else if String.eqb filter_type "content_filter" then
    {| port_filter := port_filter f; ip_filter := ip_filter f;
       protocol_filter := protocol_filter f; content_filter := value |}
  else f.

(** One entry of [connection_summary]. *)
Record stats : Type := {
  packet_count : Z;
  total_bytes : Z;
  first_seen : option N;
  last_seen : option N
}.

(** The default of the [defaultdict]. *)
Definition new_stats : stats :=
  {| packet_count := 0; total_bytes := 0; first_seen := None; last_seen := None |}.

Record monitor : Type := {
  interface : str;
  capture_port : option Z;
  is_monitoring : bool;
  captured_packets : list NetworkPacket;
  connection_summary : list (str * stats);
  protocol_stats : list (str * Z);
  filters : filter_table
}.

(** [__init__] *)
Definition new_monitor (interface : str) (capture_port : option Z) : monitor :=
  {| interface := interface; capture_port := capture_port;
     is_monitoring := false; captured_packets := [];
     connection_summary := []; protocol_stats := [];
     filters := no_filters |}.

Definition port_repr (port : option Z) : str :=
  match port with
  | Some p => int_repr p
  | None => text "None"
  end.

Definition connection_key (packet : NetworkPacket) : str :=
  source_ip packet ++ text ":" ++ int_repr (source_port packet) ++ text "->"
  ++ dest_ip packet ++ text ":" ++ port_repr (dest_port packet).

(** [d[key]] on a [defaultdict]. *)
Definition get_or {V} (key : str) (d : list (str * V)) (default : V) : V :=
  match dict_get key d with
  | Some v => v
  | None => default
  end.

Definition _update_connection_stats (packet : NetworkPacket) (m : monitor) : monitor :=
  let connection_key := connection_key packet in
  let stats := get_or connection_key (connection_summary m) new_stats in
  let stats' :=
    {| packet_count := packet_count stats + 1;
       total_bytes := total_bytes stats + payload_size packet;
       first_seen := match first_seen stats with
                     | None => Some (timestamp packet)
                     | Some t => Some t
                     end;
       last_seen := Some (timestamp packet) |} in
  {| interface := interface m; capture_port := capture_port m;
     is_monitoring := is_monitoring m; captured_packets := captured_packets m;
     connection_summary := dict_set connection_key stats' (connection_summary m);
     protocol_stats :=
       dict_set (protocol packet)
         (get_or (protocol packet) (protocol_stats m) 0 + 1) (protocol_stats m);
     filters := filters m |}.

Definition append_packet (packet : NetworkPacket) (m : monitor) : monitor :=
  {| interface := interface m; capture_port := capture_port m;
     is_monitoring := is_monitoring m;
     captured_packets := captured_packets m ++ [packet];
     connection_summary := connection_summary m;
     protocol_stats := protocol_stats m;
     filters := filters m |}.

(** The body of the loop of [_handle_monitored_connection] for one
    non-empty [recv]: the packet record is built, its content decoded,
    and the packet is stored and counted if it passes the filters. *)
Definition record_data (unicode_printable : N -> bool) (now : N)
    (client_address : str * Z) (data : list Z) (m : monitor) : monitor :=
  let packet :=
    {| timestamp := now;
       source_ip := fst client_address;
       dest_ip := interface m;
       source_port := snd client_address;
       dest_port := capture_port m;
       protocol := text "TCP";
       payload_size := Z.of_nat (List.length data);
       raw_data := data;
       decoded_content := _decode_packet_content unicode_printable data |} in
  if _passes_filters (filters m) packet
  then _update_connection_stats packet (append_packet packet m)
  else m.

(** One received chunk, not empty: when, from whom, and what. *)
Record arrival : Type := {
  at_time : N;
  from : str * Z;
  bytes : list Z
}.

Definition record_all (unicode_printable : N -> bool) (arrivals : list arrival)
    (m : monitor) : monitor :=
  fold_left (fun m' a => record_data unicode_printable (at_time a) (from a) (bytes a) m')
            arrivals m.

Definition set_filter (filter_type : string) (value : filter_value)
    (m : monitor) : monitor :=
  {| interface := interface m; capture_port := capture_port m;
     is_monitoring := is_monitoring m; captured_packets := captured_packets m;
     connection_summary := connection_summary m;
     protocol_stats := protocol_stats m;
     filters := store_filter filter_type value (filters m) |}.

(** *** Samples *)

Definition ascii_only : N -> bool := fun _ => false.

End Monitor.

(** * Properties of the fieldbus master *)

Module PlcFacts.

Import Plc.

(** The format string has eight items and the call passes seven values:
    [struct.pack] refuses before producing any byte. *)
Lemma request_format_items :
  option_map (@List.length Struct.code) (Struct.parse_format ">HHHBBBHH") = Some 8%nat
  /\ option_map Struct.calcsize (Struct.parse_format ">HHHBBBHH") = Some 13%nat.
Proof. split; reflexivity. Qed.

(** C1 (code defect). The specified frame is twelve bytes: transaction
    id, protocol id 0, length, unit id, function code, address,
    quantity/value.  [_build_modbus_request] never builds it: for every
    configuration, function code, address and value the call to
    [struct.pack] raises [struct.error]. *)
Theorem build_modbus_request_raises (c : config) (function_code address value : Z) :
  _build_modbus_request c function_code address value = Raise StructError.
Proof. reflexivity. Qed.

(** With one [B] fewer the same seven values give the specified layout. *)
Lemma seven_item_format_layout (u fc a v : Z) :
  0 <= u <= 255 -> 0 <= fc <= 255 -> 0 <= a <= 65535 -> 0 <= v <= 65535 ->
  Struct.pack ">HHHBBHH" [1; 0; 6; u; fc; a; v]
  = Return [0; 1; 0; 0; 0; 6; u; fc;
            Z.shiftr a 8; Z.land a 255; Z.shiftr v 8; Z.land v 255].
Proof.
  intros Hu Hfc Ha Hv.
  unfold Struct.pack. cbn [Struct.parse_format Struct.codes_of Struct.code_of_ascii].
  cbn -[Z.shiftr Z.land Z.leb].
  repeat match goal with
         | |- context [(0 <=? ?x) && (?x <=? ?m)] =>
             replace ((0 <=? x) && (x <=? m)) with true
               by (symmetry; apply andb_true_iff; split; apply Z.leb_le; lia)
         end.
  reflexivity.
Qed.

(** Every discrete read ends in the error result, and nothing reaches
    the socket. *)
Lemma read_discrete_input_none (address : Z) (s : plc) :
  read_discrete_input address s = (Return None, note (Read_discrete address) s).
Proof.
  unfold read_discrete_input. cbn.
  destruct (is_connected s); reflexivity.
Qed.

Lemma write_discrete_output_false (address : Z) (value : bool) (s : plc) :
  write_discrete_output address value s
  = (Return false, note (Write_discrete address value) s).
Proof.
  unfold write_discrete_output. cbn.
  destruct (is_connected s); destruct value; reflexivity.
Qed.

Lemma execute_marking_sequence_stops (s : plc) :
  execute_marking_sequence s = (Return false, note (Read_discrete 0) s).
Proof.
  unfold execute_marking_sequence, try_except, bindM.
  rewrite read_discrete_input_none. reflexivity.
Qed.

(** C8 (code defect). [_parse_discrete_response] accepts a nine-byte
    response and then indexes its tenth byte, which raises; and on a
    connected link whose PLC answers with a well-formed ten-byte response
    [read_discrete_input] still returns [None], without sending. *)
Theorem read_discrete_input_fails_on_good_response :
  _parse_discrete_response [0; 1; 0; 0; 0; 3; 1; 2; 1] = Raise IndexError
  /\ _parse_discrete_response input_on_response = Return (Some true)
  /\ is_connected connected_plc = true
  /\ fst (read_discrete_input 0 connected_plc) = Return None
  /\ wire (snd (read_discrete_input 0 connected_plc)) = [].
Proof. repeat split; reflexivity. Qed.

(** C6 (code defect). On a connected link whose PLC would report every
    input on, the sequence returns failure at once: the clock has not
    moved, no write was attempted and nothing was sent. *)
Theorem execute_marking_sequence_never_waits :
  fst (execute_marking_sequence connected_plc) = Return false
  /\ clock (snd (execute_marking_sequence connected_plc)) = clock connected_plc
  /\ journal (snd (execute_marking_sequence connected_plc)) = [Read_discrete 0]
  /\ wire (snd (execute_marking_sequence connected_plc)) = [].
Proof. rewrite execute_marking_sequence_stops. repeat split. Qed.

(** C7. If the product-present input reads false, or it reads true and
    the system-ready input then reads false, the sequence returns failure,
    attempts no write and sends nothing. *)
Theorem precheck_failure_writes_nothing (s : plc) :
  reads_true 0 s = false
  \/ reads_true 1 (snd (read_discrete_input 0 s)) = false ->
  fst (execute_marking_sequence s) = Return false
  /\ writes (journal (snd (execute_marking_sequence s))) = writes (journal s)
  /\ wire (snd (execute_marking_sequence s)) = wire s.
Proof.
  intros Hpre.
  unfold execute_marking_sequence, try_except, bindM.
  unfold reads_true in Hpre.
  destruct (read_discrete_input 0 s) as [[product_present|e0] s0] eqn:H0.
  - pose proof (read_discrete_input_none 0 s) as E0. rewrite H0 in E0.
    injection E0 as -> ->. cbn.
    repeat split. unfold writes. rewrite filter_app. cbn. apply app_nil_r.
  - pose proof (read_discrete_input_none 0 s) as E0. rewrite H0 in E0.
    discriminate E0.
Qed.

Lemma precheck_failure_writes_nothing_witness :
  (reads_true 0 connected_plc = false
   \/ reads_true 1 (snd (read_discrete_input 0 connected_plc)) = false)
  /\ fst (execute_marking_sequence connected_plc) = Return false
  /\ writes (journal (snd (execute_marking_sequence connected_plc)))
     = writes (journal connected_plc)
  /\ wire (snd (execute_marking_sequence connected_plc)) = wire connected_plc.
Proof.
  split.
  - left. reflexivity.
  - apply (precheck_failure_writes_nothing connected_plc). left. reflexivity.
Defined.

(** C10. On a disconnected link [get_system_status] returns exactly
    the one-entry document with status "disconnected" and leaves the link
    state as it was: no read is attempted and nothing is sent. *)
Theorem get_system_status_disconnected (s : plc) :
  is_connected s = false ->
  get_system_status s = (Return [("status", VStr "disconnected")], s).
Proof.
  intros Hdown. unfold get_system_status. rewrite Hdown. reflexivity.
Qed.

Lemma get_system_status_disconnected_witness :
  is_connected fresh_plc = false
  /\ get_system_status fresh_plc
     = (Return [("status", VStr "disconnected")], fresh_plc).
Proof.
  split; [ reflexivity | apply (get_system_status_disconnected fresh_plc); reflexivity ].
Defined.

End PlcFacts.

(** * Properties of the message server *)

Module ServerFacts.

Import Json Server.

(** ** Text and dictionaries *)

Lemma text_eqb_refl (a : str) : Text.eqb a a = true.
Proof.
  induction a as [|x a IH]; cbn; [ reflexivity | ].
  rewrite N.eqb_refl. exact IH.
Qed.

Lemma text_eqb_eq (a b : str) : Text.eqb a b = true <-> a = b.
Proof.
  split.
  - revert b. induction a as [|x a IH]; intros [|y b] H; cbn in H;
      try discriminate; [ reflexivity | ].
    apply andb_true_iff in H. destruct H as [Hx Hab].
    apply N.eqb_eq in Hx. subst y. f_equal. apply IH. exact Hab.
  - intros <-. apply text_eqb_refl.
Qed.

Lemma text_eqb_neq (a b : str) : Text.eqb a b = false <-> a <> b.
Proof.
  split.
  - intros H E. apply text_eqb_eq in E. congruence.
  - intros H. destruct (Text.eqb a b) eqn:E; [ | reflexivity ].
    apply text_eqb_eq in E. contradiction.
Qed.

Lemma dict_get_set_same {V} (k : str) (v : V) (d : list (str * V)) :
  dict_get k (dict_set k v d) = Some v.
Proof.
  induction d as [|[k' v'] d IH]; cbn.
  - rewrite text_eqb_refl. reflexivity.
  - destruct (Text.eqb k' k) eqn:E; cbn; rewrite E; [ reflexivity | exact IH ].
Qed.

Lemma dict_get_set_other {V} (k k' : str) (v : V) (d : list (str * V)) :
  k <> k' -> dict_get k' (dict_set k v d) = dict_get k' d.
Proof.
  intros Hne. induction d as [|[k0 v0] d IH]; cbn.
  - destruct (Text.eqb k k') eqn:E; [ | reflexivity ].
    apply text_eqb_eq in E. contradiction.
  - destruct (Text.eqb k0 k) eqn:E; cbn.
    + apply text_eqb_eq in E. subst k0.
      destruct (Text.eqb k k') eqn:E'; [ | reflexivity ].
      apply text_eqb_eq in E'. contradiction.
    + rewrite IH. reflexivity.
Qed.

Lemma dict_get_del_same {V} (k : str) (d : list (str * V)) :
  distinct_keys d = true -> dict_get k (dict_del k d) = None.
Proof.
  induction d as [|[k0 v0] d IH]; cbn; intros Hd; [ reflexivity | ].
  destruct (dict_get k0 d) eqn:Hk0; [ discriminate | ].
  destruct (Text.eqb k0 k) eqn:E; cbn.
  - apply text_eqb_eq in E. subst k0. exact Hk0.
  - rewrite E. apply IH. exact Hd.
Qed.

Lemma dict_get_del_other {V} (k k' : str) (d : list (str * V)) :
  k <> k' -> dict_get k' (dict_del k d) = dict_get k' d.
Proof.
  intros Hne. induction d as [|[k0 v0] d IH]; cbn; [ reflexivity | ].
  destruct (Text.eqb k0 k) eqn:E; cbn.
  - apply text_eqb_eq in E. subst k0.
    destruct (Text.eqb k k') eqn:E'; [ | reflexivity ].
    apply text_eqb_eq in E'. contradiction.
  - rewrite IH. reflexivity.
Qed.

Lemma distinct_keys_del {V} (k : str) (d : list (str * V)) :
  distinct_keys d = true -> distinct_keys (dict_del k d) = true.
Proof.
  induction d as [|[k0 v0] d IH]; cbn; intros Hd; [ reflexivity | ].
  destruct (dict_get k0 d) eqn:Hk0; [ discriminate | ].
  destruct (Text.eqb k0 k) eqn:E; cbn; [ exact Hd | ].
  rewrite dict_get_del_other, Hk0; [ apply IH; exact Hd | ].
  intros ->. rewrite text_eqb_refl in E. discriminate.
Qed.

(** ** Response identifiers *)

Definition is_error_of (m resp : NetworkMessage) : Prop :=
  message_type resp = text "error_response"
  /\ message_id resp = text "error_" ++ message_id m.

Definition is_success_of (kind : string) (m resp : NetworkMessage) : Prop :=
  message_type resp = text kind
  /\ message_id resp = text "response_" ++ message_id m.

Lemma create_error_response_run (r msg : str) (w : world) :
  _create_error_response r msg w
  = (Return {| message_id := text "error_" ++ r;
               timestamp := isoformat (time w) (readings w);
               message_type := text "error_response";
               payload := JDict [(text "error", JStr msg)];
               client_id := [] |},
     read_clock w).
Proof. reflexivity. Qed.

Lemma status_request_ids m w resp w' :
  _handle_status_request m w = (Return (Some resp), w') ->
  is_success_of "status_response" m resp /\ clients w' = clients w.
Proof.
  intros H. cbv [_handle_status_request bindM gets ret time_since_start now_isoformat] in H.
  cbn in H. injection H as <- <-. repeat split.
Qed.

Lemma heartbeat_ids m w resp w' :
  _handle_heartbeat m w = (Return (Some resp), w') ->
  is_success_of "heartbeat_response" m resp /\ clients w' = clients w.
Proof.
  intros H. cbv [_handle_heartbeat bindM ret now_isoformat] in H.
  cbn in H. injection H as <- <-. repeat split.
Qed.

Lemma marking_request_ids m w resp w' :
  _handle_marking_request m w = (Return (Some resp), w') ->
  (is_error_of m resp \/ is_success_of "marking_response" m resp)
  /\ clients w' = clients w.
Proof.
  intros H.
  cbv [_handle_marking_request try_except bindM lift ret modify
       _create_error_response now_isoformat int_time] in H.
  destruct (py_get (payload m) "product_data" (JDict [])) as [product_data|e].
  - destruct (py_get product_data "serial_number" JNull) as [serial|e].
    + destruct (truth serial); cbn in H; injection H as <- <-;
        split; try reflexivity; [ right | left ]; split; reflexivity.
    + cbn in H. injection H as <- <-.
      split; [ left; split; reflexivity | reflexivity ].
  - cbn in H. injection H as <- <-.
    split; [ left; split; reflexivity | reflexivity ].
Qed.

Lemma configuration_update_ids m w resp w' :
  _handle_configuration_update m w = (Return (Some resp), w') ->
  (is_error_of m resp \/ is_success_of "configuration_response" m resp)
  /\ clients w' = clients w.
Proof.
  intros H.
  cbv [_handle_configuration_update try_except bindM lift ret modify logger
       _create_error_response now_isoformat] in H.
  destruct (py_get (payload m) "configuration" (JDict [])) as [config_data|e].
  - destruct (py_keys config_data) as [keys|e]; cbn in H; injection H as <- <-;
      split; try reflexivity; [ right | left ]; split; reflexivity.
  - cbn in H. injection H as <- <-.
    split; [ left; split; reflexivity | reflexivity ].
Qed.

Lemma system_command_ids m w resp w' :
  _handle_system_command m w = (Return (Some resp), w') ->
  is_success_of "command_response" m resp /\ clients w' = clients w.
Proof.
  intros H.
  cbv [_handle_system_command bindM lift ret modify logger now_isoformat] in H.
  destruct (py_get (payload m) "command" JNull) as [command|e]; [ | discriminate ].
  destruct (is_text "shutdown" command);
    [ | destruct (is_text "reset_statistics" command) ];
    cbn in H; injection H as <- <-; repeat split.
Qed.

Lemma builtin_handlers_are (w0 : world) (ty : str) (h : handler) :
  In (ty, h) (message_handlers (new_server w0)) ->
  (ty, h) = (text "status_request", _handle_status_request)
  \/ (ty, h) = (text "marking_request", _handle_marking_request)
  \/ (ty, h) = (text "configuration_update", _handle_configuration_update)
  \/ (ty, h) = (text "system_command", _handle_system_command)
  \/ (ty, h) = (text "heartbeat", _handle_heartbeat).
Proof.
  cbn. intros [H|[H|[H|[H|[H|[]]]]]]; rewrite <- H; auto 6.
Qed.

Lemma builtin_handler_response (w0 : world) ty h m w resp w' :
  In (ty, h) (message_handlers (new_server w0)) ->
  h m w = (Return (Some resp), w') ->
  (is_error_of m resp
   \/ exists kind, is_success_of kind m resp /\ text kind <> text "error_response")
  /\ clients w' = clients w.
Proof.
  intros Hin Hrun.
  apply builtin_handlers_are in Hin.
  destruct Hin as [E|[E|[E|[E|E]]]]; injection E as -> ->.
  - apply status_request_ids in Hrun. destruct Hrun as [Hs Hc].
    split; [ right; exists "status_response"; split; [ exact Hs | discriminate ] | exact Hc ].
  - apply marking_request_ids in Hrun. destruct Hrun as [[He|Hs] Hc].
    + split; [ left; exact He | exact Hc ].
    + split; [ right; exists "marking_response"; split; [ exact Hs | discriminate ] | exact Hc ].
  - apply configuration_update_ids in Hrun. destruct Hrun as [[He|Hs] Hc].
    + split; [ left; exact He | exact Hc ].
    + split; [ right; exists "configuration_response"; split; [ exact Hs | discriminate ] | exact Hc ].
  - apply system_command_ids in Hrun. destruct Hrun as [Hs Hc].
    split; [ right; exists "command_response"; split; [ exact Hs | discriminate ] | exact Hc ].
  - apply heartbeat_ids in Hrun. destruct Hrun as [Hs Hc].
    split; [ right; exists "heartbeat_response"; split; [ exact Hs | discriminate ] | exact Hc ].
Qed.

(** C2. Whenever a built-in handler (status_request, marking_request,
    configuration_update, system_command, heartbeat) returns a response
    to a request with id r, the response is either an error response with
    id "error_" r or a response of a success type with id "response_" r;
    and the error response built for an unknown message type has id
    "error_" r. *)
Theorem response_id_correlates :
  (forall (w0 : world) (ty : str) (h : handler) (m : NetworkMessage)
          (w : world) (resp : NetworkMessage) (w' : world),
      In (ty, h) (message_handlers (new_server w0)) ->
      h m w = (Return (Some resp), w') ->
      (message_type resp = text "error_response"
       /\ message_id resp = text "error_" ++ message_id m)
      \/ (message_type resp <> text "error_response"
          /\ message_id resp = text "response_" ++ message_id m))
  /\ (forall (m : NetworkMessage) (w : world) (resp : NetworkMessage) (w' : world),
         _create_error_response (message_id m)
           (text "Unknown message type: " ++ message_type m) w
         = (Return resp, w') ->
         message_type resp = text "error_response"
         /\ message_id resp = text "error_" ++ message_id m).
Proof.
  split.
  - intros w0 ty h m w resp w' Hin Hrun.
    destruct (builtin_handler_response w0 ty h m w resp w' Hin Hrun)
      as [[He|[kind [[Hk Hi] Hne]]] _].
    + left. exact He.
    + right. split; [ rewrite Hk; exact Hne | exact Hi ].
  - intros m w resp w' H. rewrite create_error_response_run in H.
    injection H as <- <-. split; reflexivity.
Qed.

Lemma response_id_correlates_witness :
  In (text "heartbeat", _handle_heartbeat)
     (message_handlers (new_server (world_with one_client)))
  /\ (exists resp w',
         _handle_heartbeat (sample_message "heartbeat" (JDict [])) (world_with one_client)
         = (Return (Some resp), w')
         /\ ((message_type resp = text "error_response"
              /\ message_id resp = text "error_req1")
             \/ (message_type resp <> text "error_response"
                 /\ message_id resp = text "response_req1")))
  /\ (exists resp w',
         _create_error_response (text "req1") (text "Unknown message type: ping")
           (world_with one_client)
         = (Return resp, w')
         /\ message_type resp = text "error_response"
         /\ message_id resp = text "error_req1").
Proof.
  assert (Hin : In (text "heartbeat", _handle_heartbeat)
                   (message_handlers (new_server (world_with one_client))))
    by (cbn; do 4 right; left; reflexivity).
  split; [ exact Hin | split ].
  - eexists. eexists. split; [ reflexivity | ].
    exact (proj1 response_id_correlates (world_with one_client) _ _
             (sample_message "heartbeat" (JDict [])) (world_with one_client) _ _
             Hin eq_refl).
  - eexists. eexists. split; [ reflexivity | ].
    exact (proj2 response_id_correlates (sample_message "ping" (JDict []))
             (world_with one_client) _ _ eq_refl).
Defined.

(** ** The marking handler *)

Definition validation_error : json :=
  JDict [(text "error", JStr (text "Missing required field: serial_number"))].

(** The product data the handler looks into: the [product_data] entry
    of a dictionary payload, an empty dictionary when it is absent. *)
Definition product_data_of (p : json) : option json :=
  match p with
  | JDict entries =>
      match dict_get (text "product_data") entries with
      | Some v => Some v
      | None => Some (JDict [])
      end
  | _ => None
  end.

(** C5. When the lookup of the marking handler finds no serial number,
    the handler returns an error response with id "error_" r, leaves the
    completed-marks counter and the rest of the status untouched, and does
    nothing to the fieldbus master or to any client socket: only the clock
    is read for the time stamp.  When the product data is a dictionary the
    response carries the validation message. *)
Theorem marking_request_without_serial_number (m : NetworkMessage) (w : world) :
  has_serial_number (payload m) = false ->
  exists resp w',
    _handle_marking_request m w = (Return (Some resp), w')
    /\ message_type resp = text "error_response"
    /\ message_id resp = text "error_" ++ message_id m
    /\ (exists reason, payload resp = JDict [(text "error", JStr reason)])
    /\ (forall d, product_data_of (payload m) = Some (JDict d) ->
                  payload resp = validation_error)
    /\ system_status w' = system_status w
    /\ plc_interface w' = plc_interface w
    /\ clients w' = clients w
    /\ w' = read_clock w.
Proof.
  intros Hmiss.
  cbv [_handle_marking_request try_except bindM lift ret modify
       _create_error_response now_isoformat int_time py_get].
  destruct (payload m) as [ | b | n | l | s | items | entries ];
    try (cbn; eexists; eexists; repeat split; try (eexists; reflexivity);
         intros d Hd; discriminate Hd).
  cbn in Hmiss |- *.
  destruct (dict_get _ entries) as [pd|] eqn:Hpd.
  - destruct pd as [ | b | n | l | s | items | product_data ];
      try (cbn; eexists; eexists; repeat split; try (eexists; reflexivity);
           intros d Hd; discriminate Hd).
    cbn. destruct (dict_get _ product_data); [ discriminate | ].
    cbn. eexists. eexists. repeat split. eexists; reflexivity.
  - cbn. eexists. eexists. repeat split. eexists; reflexivity.
Qed.

Lemma marking_request_without_serial_number_witness :
  has_serial_number (JDict [(text "product_data", JDict [(text "part", JStr (text "P1"))])]) = false
  /\ exists resp w',
       _handle_marking_request
         (sample_message "marking_request"
            (JDict [(text "product_data", JDict [(text "part", JStr (text "P1"))])]))
         (world_with one_client)
       = (Return (Some resp), w')
       /\ message_id resp = text "error_req1"
       /\ payload resp = validation_error
       /\ marks_completed (system_status w') = 0.
Proof.
  split; [ reflexivity | ].
  destruct (marking_request_without_serial_number
              (sample_message "marking_request"
                 (JDict [(text "product_data", JDict [(text "part", JStr (text "P1"))])]))
              (world_with one_client) eq_refl)
    as (resp & w' & Hrun & _ & Hid & _ & Hval & Hst & _).
  exists resp, w'. split; [ exact Hrun | ]. split; [ exact Hid | ].
  split; [ apply (Hval [(text "part", JStr (text "P1"))]); reflexivity | ].
  rewrite Hst. reflexivity.
Defined.

(** The handler main.py registers in its place always answers with an
    error response, and nothing reaches the fieldbus either: the marking
    sequence stops at its first read. *)
Lemma plc_marking_handler_always_error (m : NetworkMessage) (w : world) :
  exists resp w',
    plc_marking_handler m w = (Return (Some resp), w')
    /\ message_type resp = text "error_response"
    /\ message_id resp = text "error_" ++ message_id m
    /\ system_status w' = system_status w
    /\ Plc.wire (plc_interface w') = Plc.wire (plc_interface w)
    /\ Plc.writes (Plc.journal (plc_interface w'))
       = Plc.writes (Plc.journal (plc_interface w)).
Proof.
  cbv [plc_marking_handler try_except bindM lift ret logger modify on_plc
       _create_error_response now_isoformat].
  destruct (py_get (payload m) "product_data" (JDict [])) as [pd|e].
  - rewrite PlcFacts.execute_marking_sequence_stops. cbn.
    eexists. eexists. repeat split.
    unfold Plc.writes. cbn. rewrite filter_app. cbn. apply app_nil_r.
  - cbn. eexists. eexists. repeat split.
Qed.

(** ** Broadcasting *)

Definition after_send (j : str) (ci : str * client_info) : str * client_info :=
  (fst ci, with_socket (snd (socket_send j (socket (snd ci)))) (snd ci)).

Definition refuses (ci : str * client_info) : bool := negb (accepts_send (snd ci)).

Lemma socket_send_accepted (j : str) (info : client_info) :
  accepts_send info = true ->
  fst (socket_send j (socket info)) = Return tt
  /\ sent (snd (socket_send j (socket info))) = sent (socket info) ++ [j].
Proof.
  unfold accepts_send, socket_send. intros H.
  apply andb_true_iff in H. destruct H as [Hc Hf].
  apply negb_true_iff in Hc, Hf. rewrite Hc, Hf. split; reflexivity.
Qed.

Lemma socket_send_refused (j : str) (info : client_info) :
  accepts_send info = false ->
  fst (socket_send j (socket info)) = Raise SocketError.
Proof.
  unfold accepts_send, socket_send. intros H.
  destruct (closed (socket info)); [ reflexivity | ].
  destruct (fails_at (socket info) (attempts (socket info))); [ reflexivity | discriminate ].
Qed.

Lemma broadcast_loop_entries (j : str) (cs : list (str * client_info)) :
  fst (fst (broadcast_loop j cs)) = List.map (after_send j) cs
  /\ snd (fst (broadcast_loop j cs)) = List.map fst (filter refuses cs).
Proof.
  induction cs as [|[k info] cs [IH1 IH2]]; [ split; reflexivity | ].
  cbn [broadcast_loop].
  destruct (broadcast_loop j cs) as [[rest' disconnected] errors].
  cbn in IH1, IH2. subst rest' disconnected.
  cbn [filter].
  change (refuses (k, info)) with (negb (accepts_send info)).
  destruct (accepts_send info) eqn:Ha.
  - destruct (socket_send_accepted j info Ha) as [-> _]. split; reflexivity.
  - rewrite (socket_send_refused j info Ha). split; reflexivity.
Qed.

Lemma dict_del_absent {V} (k : str) (d : list (str * V)) :
  dict_get k d = None -> dict_del k d = d.
Proof.
  induction d as [|[k0 v0] d IH]; cbn; [ reflexivity | ].
  destruct (Text.eqb k0 k); [ discriminate | ].
  intros H. rewrite (IH H). reflexivity.
Qed.

Lemma disconnect_client_clients (k : str) (w : world) :
  fst (_disconnect_client k w) = Return tt
  /\ clients (snd (_disconnect_client k w)) = dict_del k (clients w)
  /\ broadcasts (snd (_disconnect_client k w)) = broadcasts w.
Proof.
  unfold _disconnect_client.
  destruct (dict_get k (clients w)) eqn:Hk; cbn; repeat split.
  rewrite (dict_del_absent _ _ Hk). reflexivity.
Qed.

Lemma disconnect_all_clients (ids : list str) (w : world) :
  fst (disconnect_all ids w) = Return tt
  /\ clients (snd (disconnect_all ids w))
     = fold_left (fun d k => dict_del k d) ids (clients w)
  /\ broadcasts (snd (disconnect_all ids w)) = broadcasts w.
Proof.
  revert w. induction ids as [|k ids IH]; intros w; [ repeat split | ].
  cbn [disconnect_all]. unfold bindM.
  destruct (disconnect_client_clients k w) as (Hr & Hc & Hb).
  destruct (_disconnect_client k w) as [r w1]. cbn in Hr, Hc, Hb. subst r.
  destruct (IH w1) as (Hr' & Hc' & Hb').
  cbn [fold_left]. rewrite <- Hc, <- Hb. repeat split; assumption.
Qed.

Lemma dict_get_after_dels {V} (ids : list str) (d : list (str * V)) (k : str) :
  distinct_keys d = true ->
  dict_get k (fold_left (fun d' k' => dict_del k' d') ids d)
  = if existsb (fun k' => Text.eqb k' k) ids then None else dict_get k d.
Proof.
  revert d. induction ids as [|k0 ids IH]; intros d Hd; [ reflexivity | ].
  cbn [fold_left existsb].
  rewrite (IH _ (distinct_keys_del k0 d Hd)).
  destruct (Text.eqb k0 k) eqn:E; cbn [orb].
  - apply text_eqb_eq in E. subst k0.
    rewrite (dict_get_del_same k d Hd).
    destruct (existsb _ ids); reflexivity.
  - apply text_eqb_neq in E. rewrite (dict_get_del_other k0 k d E). reflexivity.
Qed.

Lemma dict_get_member {V} (k : str) (v : V) (d : list (str * V)) :
  distinct_keys d = true -> In (k, v) d -> dict_get k d = Some v.
Proof.
  induction d as [|[k0 v0] d IH]; cbn; intros Hd Hin; [ contradiction | ].
  destruct (dict_get k0 d) eqn:Hk0; [ discriminate | ].
  destruct Hin as [E|Hin].
  - injection E as -> ->. rewrite text_eqb_refl. reflexivity.
  - pose proof (IH Hd Hin) as Hget.
    destruct (Text.eqb k0 k) eqn:E; [ | exact Hget ].
    apply text_eqb_eq in E. subst k0. congruence.
Qed.

Lemma dict_get_after_send (j : str) (k : str) (cs : list (str * client_info)) :
  dict_get k (List.map (after_send j) cs)
  = option_map (fun info => with_socket (snd (socket_send j (socket info))) info)
               (dict_get k cs).
Proof.
  induction cs as [|[k0 info] cs IH]; cbn; [ reflexivity | ].
  destruct (Text.eqb k0 k); [ reflexivity | exact IH ].
Qed.

Lemma distinct_keys_after_send (j : str) (cs : list (str * client_info)) :
  distinct_keys (List.map (after_send j) cs) = distinct_keys cs.
Proof.
  induction cs as [|[k0 info] cs IH]; cbn; [ reflexivity | ].
  rewrite dict_get_after_send. destruct (dict_get k0 cs); cbn; [ reflexivity | exact IH ].
Qed.

Lemma refused_keys_absent (k : str) (cs : list (str * client_info)) :
  dict_get k cs = None ->
  existsb (fun k' => Text.eqb k' k) (List.map fst (filter refuses cs)) = false.
Proof.
  induction cs as [|[k0 info] cs IH]; cbn; [ reflexivity | ].
  destruct (Text.eqb k0 k) eqn:E; [ discriminate | ].
  intros H. destruct (refuses (k0, info)); cbn; [ rewrite E | ]; apply IH; exact H.
Qed.

Lemma refused_keys_member (k : str) (info : client_info) (cs : list (str * client_info)) :
  distinct_keys cs = true -> In (k, info) cs ->
  existsb (fun k' => Text.eqb k' k) (List.map fst (filter refuses cs))
  = negb (accepts_send info).
Proof.
  induction cs as [|[k0 info0] cs IH]; cbn [distinct_keys In]; intros Hd Hin;
    [ contradiction | ].
  destruct (dict_get k0 cs) eqn:Hk0; [ discriminate | ].
  destruct Hin as [E|Hin].
  - injection E as -> ->. cbn [filter].
    change (refuses (k, info)) with (negb (accepts_send info)).
    destruct (accepts_send info); cbn.
    + apply refused_keys_absent. exact Hk0.
    + rewrite text_eqb_refl. reflexivity.
  - assert (Hne : Text.eqb k0 k = false).
    { apply text_eqb_neq. intros ->.
      rewrite (dict_get_member k info cs Hd Hin) in Hk0. discriminate. }
    cbn [filter]. destruct (refuses (k0, info0)); cbn; [ rewrite Hne; cbn | ];
      apply IH; assumption.
Qed.

Lemma logged_all_keeps (errors : list log_entry) (w0 : world) :
  clients (fold_left (fun w' e => logged e w') errors w0) = clients w0
  /\ broadcasts (fold_left (fun w' e => logged e w') errors w0) = broadcasts w0.
Proof.
  revert w0. induction errors as [|e errors IH]; intros w0; [ split; reflexivity | ].
  cbn [fold_left]. destruct (IH (logged e w0)) as [-> ->]. split; reflexivity.
Qed.

Lemma broadcast_message_run (message : NetworkMessage) (w : world) :
  fst (broadcast_message message w) = Return tt
  /\ clients (snd (broadcast_message message w))
     = fold_left (fun d k => dict_del k d)
         (List.map fst (filter refuses (clients w)))
         (List.map (after_send (encode message)) (clients w))
  /\ broadcasts (snd (broadcast_message message w)) = S (broadcasts w).
Proof.
  unfold broadcast_message. generalize (encode message). intros j.
  unfold bindM, modify, gets. cbn.
  destruct (broadcast_loop_entries j (clients w)) as [H1 H2].
  destruct (broadcast_loop j (clients w)) as [[cs' disconnected] errors].
  cbn in H1, H2. subst cs' disconnected.
  match goal with
  | |- context [disconnect_all ?ids ?w0] =>
      destruct (disconnect_all_clients ids w0) as (Hr & Hc & Hb);
      destruct (disconnect_all ids w0) as [r w1]
  end.
  cbn in Hr, Hc, Hb |- *. subst r. rewrite Hc, Hb.
  destruct (logged_all_keeps errors
              (set_clients (List.map (after_send j) (clients w)) (count_broadcast w)))
    as [-> ->].
  repeat split.
Qed.

Lemma text_eqb_sym (a b : str) : Text.eqb a b = Text.eqb b a.
Proof.
  destruct (Text.eqb a b) eqn:E.
  - apply text_eqb_eq in E. subst b. symmetry. apply text_eqb_refl.
  - symmetry. apply text_eqb_neq. apply text_eqb_neq in E. congruence.
Qed.

Lemma dels_keep_head {V} (ids : list str) (k : str) (v : V) (d : list (str * V)) :
  existsb (fun k' => Text.eqb k' k) ids = false ->
  fold_left (fun d' k' => dict_del k' d') ids ((k, v) :: d)
  = (k, v) :: fold_left (fun d' k' => dict_del k' d') ids d.
Proof.
  revert d. induction ids as [|k0 ids IH]; intros d H; [ reflexivity | ].
  cbn [existsb] in H. apply orb_false_iff in H. destruct H as [Hk Hids].
  cbn [fold_left dict_del]. rewrite text_eqb_sym, Hk. apply IH. exact Hids.
Qed.

(** After a broadcast the tracked connections are exactly those whose
    send returned, each with the message appended to what it was sent. *)
Lemma broadcast_message_clients (message : NetworkMessage) (w : world) :
  distinct_keys (clients w) = true ->
  clients (snd (broadcast_message message w))
  = List.map (after_send (encode message))
      (filter (fun ci => accepts_send (snd ci)) (clients w)).
Proof.
  intros Hd. destruct (broadcast_message_run message w) as (_ & -> & _).
  generalize (encode message). intros j.
  induction (clients w) as [|[k info] cs IH]; [ reflexivity | ].
  cbn [distinct_keys] in Hd.
  destruct (dict_get k cs) eqn:Hk; [ discriminate | ].
  cbn [filter List.map snd].
  change (refuses (k, info)) with (negb (accepts_send info)).
  destruct (accepts_send info); cbn [negb List.map fold_left].
  - change (after_send j (k, info))
      with (k, with_socket (snd (socket_send j (socket info))) info).
    rewrite dels_keep_head by (apply refused_keys_absent; exact Hk).
    rewrite (IH Hd). reflexivity.
  - change (after_send j (k, info))
      with (k, with_socket (snd (socket_send j (socket info))) info).
    cbn [dict_del fst]. rewrite text_eqb_refl. apply IH. exact Hd.
Qed.

(** C9. A broadcast to connections with distinct identities reaches
    every connection whose send returns: it stays tracked and the message
    is appended to what it was sent; a connection whose send raises is no
    longer tracked afterwards, whatever its place among the others.  A
    monitor round with no connection tracked does not call
    [broadcast_message]; with a connection tracked it calls it once. *)
Theorem broadcast_survives_failed_sends :
  (forall (message : NetworkMessage) (w : world) (cid : str) (info : client_info),
      distinct_keys (clients w) = true ->
      In (cid, info) (clients w) ->
      (accepts_send info = true ->
       exists info',
         dict_get cid (clients (snd (broadcast_message message w))) = Some info'
         /\ sent (socket info') = sent (socket info) ++ [encode message])
      /\ (accepts_send info = false ->
          dict_get cid (clients (snd (broadcast_message message w))) = None))
  /\ (forall (message : NetworkMessage) (w : world),
         distinct_keys (clients w) = true ->
         List.map fst (clients (snd (broadcast_message message w)))
         = List.map fst (filter (fun ci => accepts_send (snd ci)) (clients w)))
  /\ (forall w : world,
         clients w = [] ->
         broadcasts (snd (_monitor_system_round w)) = broadcasts w
         /\ clients (snd (_monitor_system_round w)) = []
         /\ log (snd (_monitor_system_round w)) = log w)
  /\ (forall w : world,
         clients w <> [] ->
         broadcasts (snd (_monitor_system_round w)) = S (broadcasts w)).
Proof.
  split; [ | split; [ | split ] ].
  - intros message w cid info Hd Hin.
    destruct (broadcast_message_run message w) as (_ & Hc & _).
    rewrite Hc.
    rewrite dict_get_after_dels by (rewrite distinct_keys_after_send; exact Hd).
    rewrite (refused_keys_member cid info (clients w) Hd Hin).
    rewrite dict_get_after_send, (dict_get_member cid info (clients w) Hd Hin).
    split; intros Ha; rewrite Ha; cbn.
    + eexists. split; [ reflexivity | ].
      cbn. apply socket_send_accepted. exact Ha.
    + reflexivity.
  - intros message w Hd. rewrite (broadcast_message_clients message w Hd).
    rewrite map_map. reflexivity.
  - intros w Hw. unfold _monitor_system_round, bindM, gets, modify, ret,
      time_since_start, int_time, now_isoformat. cbn. rewrite Hw. cbn.
    repeat split. exact Hw.
  - intros w Hw. unfold _monitor_system_round, bindM, gets, modify, ret,
      time_since_start, int_time, now_isoformat. cbn.
    destruct (clients w) as [|c cs] eqn:Hcs; [ contradiction | ].
    match goal with
    | |- context [broadcast_message ?m ?w0] =>
        destruct (broadcast_message_run m w0) as (_ & _ & Hb); rewrite Hb
    end.
    reflexivity.
Qed.

Lemma broadcast_survives_failed_sends_witness :
  distinct_keys three_clients = true
  /\ In (text "client_1_5003", client_on healthy_socket 5003) three_clients
  /\ accepts_send (client_on broken_socket 5002) = false
  /\ (exists info',
         dict_get (text "client_1_5003")
           (clients (snd (broadcast_message (sample_message "status_broadcast" (JDict []))
                            (world_with three_clients))))
         = Some info'
         /\ sent (socket info') = [encode (sample_message "status_broadcast" (JDict []))])
  /\ dict_get (text "client_1_5002")
       (clients (snd (broadcast_message (sample_message "status_broadcast" (JDict []))
                        (world_with three_clients))))
     = None
  /\ broadcasts (snd (_monitor_system_round (world_with []))) = 0%nat
  /\ broadcasts (snd (_monitor_system_round (world_with three_clients))) = 1%nat.
Proof.
  destruct broadcast_survives_failed_sends as (Hsend & _ & Hnone & Hsome).
  assert (Hd : distinct_keys (clients (world_with three_clients)) = true) by reflexivity.
  split; [ exact Hd | ].
  split; [ cbn; tauto | ].
  split; [ reflexivity | ].
  split; [ | split; [ | split ] ].
  - apply (Hsend (sample_message "status_broadcast" (JDict []))
             (world_with three_clients) (text "client_1_5003")
             (client_on healthy_socket 5003) Hd).
    + cbn; tauto.
    + reflexivity.
  - apply (Hsend (sample_message "status_broadcast" (JDict []))
             (world_with three_clients) (text "client_1_5002")
             (client_on broken_socket 5002) Hd).
    + cbn; tauto.
    + reflexivity.
  - apply (Hnone (world_with [])). reflexivity.
  - apply (Hsome (world_with three_clients)). discriminate.
Defined.

(** ** Processing a line *)

Lemma dict_get_in {V} (k : str) (v : V) (d : list (str * V)) :
  dict_get k d = Some v -> In (k, v) d.
Proof.
  induction d as [|[k0 v0] d IH]; cbn; [ discriminate | ].
  destruct (Text.eqb k0 k) eqn:E.
  - apply text_eqb_eq in E. subst k0. intros H. injection H as ->. left. reflexivity.
  - intros H. right. apply IH. exact H.
Qed.

Lemma builtin_handler_returns (w0 : world) ty h (m : NetworkMessage) (w : world) :
  In (ty, h) (message_handlers (new_server w0)) ->
  (ty = text "system_command" -> is_dict (payload m) = true) ->
  exists resp w', h m w = (Return (Some resp), w').
Proof.
  intros Hin Hcmd. apply builtin_handlers_are in Hin.
  destruct Hin as [E|[E|[E|[E|E]]]]; injection E as -> ->.
  - cbv [_handle_status_request bindM gets ret time_since_start now_isoformat].
    eexists. eexists. reflexivity.
  - cbv [_handle_marking_request try_except bindM lift ret modify
         _create_error_response now_isoformat int_time].
    destruct (py_get (payload m) "product_data" (JDict [])) as [pd|e].
    + destruct (py_get pd "serial_number" JNull) as [serial|e].
      * destruct (truth serial); eexists; eexists; reflexivity.
      * eexists. eexists. reflexivity.
    + eexists. eexists. reflexivity.
  - cbv [_handle_configuration_update try_except bindM lift ret modify logger
         _create_error_response now_isoformat].
    destruct (py_get (payload m) "configuration" (JDict [])) as [config_data|e].
    + destruct (py_keys config_data) as [keys|e]; eexists; eexists; reflexivity.
    + eexists. eexists. reflexivity.
  - specialize (Hcmd eq_refl).
    cbv [_handle_system_command bindM lift ret modify logger now_isoformat py_get].
    destruct (payload m); try discriminate Hcmd.
    match goal with
    | |- context [is_text "shutdown" ?c] =>
        destruct (is_text "shutdown" c); [ | destruct (is_text "reset_statistics" c) ]
    end; eexists; eexists; reflexivity.
  - cbv [_handle_heartbeat bindM ret now_isoformat].
    eexists. eexists. reflexivity.
Qed.

Lemma send_response_accepted (cid : str) (resp : NetworkMessage)
    (info : client_info) (w : world) :
  dict_get cid (clients w) = Some info ->
  accepts_send info = true ->
  _send_response cid resp w
  = (Return tt,
     set_clients
       (dict_set cid
          (with_socket (snd (socket_send (encode resp) (socket info))) info)
          (clients w)) w).
Proof.
  intros Hget Ha. unfold _send_response, try_except. rewrite Hget.
  destruct (socket_send_accepted (encode resp) info Ha) as [-> _]. reflexivity.
Qed.

(** What a tracked, writable connection holds after a response. *)
Definition answered (cid : str) (info : client_info) (resp : NetworkMessage)
    (before after : world) : Prop :=
  (exists info',
      dict_get cid (clients after) = Some info'
      /\ sent (socket info') = sent (socket info) ++ [encode resp])
  /\ (forall other, other <> cid ->
                    dict_get other (clients after) = dict_get other (clients before)).

Lemma send_response_answers (cid : str) (resp : NetworkMessage)
    (info : client_info) (w0 w : world) :
  clients w = clients w0 ->
  dict_get cid (clients w0) = Some info ->
  accepts_send info = true ->
  answered cid info resp w0 (snd (_send_response cid resp w)).
Proof.
  intros Hc Hget Ha. rewrite <- Hc in Hget.
  rewrite (send_response_accepted cid resp info w Hget Ha). cbn [snd].
  split.
  - eexists. cbn. split; [ apply dict_get_set_same | ].
    cbn. apply socket_send_accepted. exact Ha.
  - intros other Hne. cbn. rewrite <- Hc.
    apply dict_get_set_other. congruence.
Qed.





(** The end-to-end example: a heartbeat line is answered by one line
    whose message id is "response_req1". *)
Example heartbeat_round_trip :
  exists srv' info' reply,
    receive (heartbeat_line ++ [10%N]) [] (text "client_1_5001")
      (new_server (world_with one_client)) = Some (srv', [])
    /\ dict_get (text "client_1_5001") (clients (self srv')) = Some info'
    /\ sent (socket info') = [reply]
    /\ decode (strip reply)
       = Envelope {| message_id := text "response_req1";
                     timestamp := text "2024-01-01T00:00:00";
                     message_type := text "heartbeat_response";
                     payload := JDict [(text "server_time",
                                        JStr (text "2024-01-01T00:00:00"))];
                     client_id := [] |}.
Proof.
  eexists. eexists. eexists.
  split; [ vm_compute; reflexivity | ].
  split; [ reflexivity | ].
  split; [ reflexivity | ].
  vm_compute. reflexivity.
Qed.

End ServerFacts.

(** * The message codec *)

Module CodecFacts.

Import Json Server Codec.
Import ServerFacts.

(** ** Induction on documents *)

Section JsonInduction.

Variable P : json -> Prop.
Hypothesis HNull : P JNull.
Hypothesis HBool : forall b, P (JBool b).
Hypothesis HInt : forall n, P (JInt n).
Hypothesis HFloat : forall l, P (JFloat l).
Hypothesis HStr : forall s, P (JStr s).
Hypothesis HList : forall items, Forall P items -> P (JList items).
Hypothesis HDict :
  forall entries, Forall (fun kv => P (snd kv)) entries -> P (JDict entries).

Fixpoint json_induction (v : json) : P v :=
  match v with
  | JNull => HNull
  | JBool b => HBool b
  | JInt n => HInt n
  | JFloat l => HFloat l
  | JStr s => HStr s
  | JList items =>
      HList items
        ((fix all (l : list json) : Forall P l :=
            match l with
            | [] => Forall_nil P
            | x :: r => Forall_cons x (json_induction x) (all r)
            end) items)
  | JDict entries =>
      HDict entries
        ((fix all (l : list (str * json)) : Forall (fun kv => P (snd kv)) l :=
            match l with
            | [] => Forall_nil _
            | kv :: r => Forall_cons kv (json_induction (snd kv)) (all r)
            end) entries)
  end.

End JsonInduction.

(** ** Hexadecimal escapes *)

Local Open Scope N_scope.

Lemma lor_shiftl_add (hi lo k : N) :
  lo < 2 ^ k -> N.lor (N.shiftl hi k) lo = hi * 2 ^ k + lo.
Proof.
  intros Hlo.
  assert (Hdis : N.land (N.shiftl hi k) lo = 0).
  { apply N.bits_inj_0. intros n. rewrite N.land_spec.
    destruct (N.lt_ge_cases n k) as [Hn|Hn].
    - rewrite N.shiftl_spec_low by exact Hn. reflexivity.
    - destruct (N.eq_dec lo 0) as [->|Hz].
      + rewrite N.bits_0. apply andb_false_r.
      + rewrite (N.bits_above_log2 lo n); [ apply andb_false_r | ].
        apply N.lt_le_trans with k; [ | exact Hn ].
        apply N.log2_lt_pow2; lia. }
  rewrite <- N.lxor_lor by exact Hdis.
  rewrite <- N.add_nocarry_lxor by exact Hdis.
  rewrite N.shiftl_mul_pow2. reflexivity.
Qed.

Lemma nibble (n k : N) : N.land (N.shiftr n k) 15 = (n / 2 ^ k) mod 16.
Proof.
  rewrite N.shiftr_div_pow2. change 15 with (N.ones 4).
  rewrite N.land_ones. reflexivity.
Qed.

Lemma hex_value_char (d : N) : d < 16 -> hex_value (hex_char d) = Some d.
Proof.
  intros H. unfold hex_char, hex_value.
  destruct (N.ltb_spec d 10).
  - replace ((48 <=? 48 + d) && (48 + d <=? 57))%bool with true.
    + f_equal. lia.
    + symmetry. apply andb_true_iff. split; apply N.leb_le; lia.
  - replace ((48 <=? 87 + d) && (87 + d <=? 57))%bool with false.
    + replace ((97 <=? 87 + d) && (87 + d <=? 102))%bool with true.
      * f_equal. lia.
      * symmetry. apply andb_true_iff. split; apply N.leb_le; lia.
    + symmetry. apply andb_false_iff. right. apply N.leb_gt. lia.
Qed.

Lemma hex4_digits (n : N) :
  n < 65536 ->
  hex4 (hex_char (N.land (N.shiftr n 12) 15)) (hex_char (N.land (N.shiftr n 8) 15))
       (hex_char (N.land (N.shiftr n 4) 15)) (hex_char (N.land n 15))
  = Some n.
Proof.
  intros Hn. unfold hex4.
  assert (Hlow : N.land n 15 = n mod 16)
    by (change 15 with (N.ones 4); apply N.land_ones).
  rewrite Hlow, !nibble.
  rewrite !hex_value_char by (apply N.mod_upper_bound; discriminate).
  f_equal.
  rewrite !lor_shiftl_add by (apply N.mod_upper_bound; discriminate).
  change (2 ^ 12) with 4096. change (2 ^ 8) with 256.
  change (2 ^ 4) with 16.
  zify. Z.to_euclidean_division_equations. lia.
Qed.

Definition hex_digits (n : N) : str :=
  [ hex_char (N.land (N.shiftr n 12) 15); hex_char (N.land (N.shiftr n 8) 15);
    hex_char (N.land (N.shiftr n 4) 15); hex_char (N.land n 15) ].

Lemma escape_u_digits (n : N) : escape_u n = 92 :: 117 :: hex_digits n.
Proof. reflexivity. Qed.

Lemma surrogates_of (c : N) :
  65536 <= c < 1114112 ->
  let v := c - 65536 in
  let s1 := N.lor 55296 (N.land (N.shiftr v 10) 1023) in
  let s2 := N.lor 56320 (N.land v 1023) in
  s1 = 55296 + v / 1024 /\ s2 = 56320 + v mod 1024 /\ v / 1024 < 1024.
Proof.
  intros Hc v s1 s2. subst s1 s2.
  assert (Hv : v < 1048576) by (subst v; lia).
  assert (Hhi : v / 1024 < 1024)
    by (apply N.Div0.div_lt_upper_bound; exact Hv).
  assert (H1 : N.land (N.shiftr v 10) 1023 = v / 1024).
  { rewrite N.shiftr_div_pow2. change 1023 with (N.ones 10).
    rewrite N.land_ones. change (2 ^ 10) with 1024.
    apply N.mod_small. exact Hhi. }
  assert (H2 : N.land v 1023 = v mod 1024).
  { change 1023 with (N.ones 10). apply N.land_ones. }
  rewrite H1, H2.
  change 55296 with (N.shiftl 54 10) at 1.
  change 56320 with (N.shiftl 55 10) at 1.
  rewrite lor_shiftl_add by exact Hhi.
  rewrite lor_shiftl_add by (apply N.mod_upper_bound; discriminate).
  split; [ reflexivity | split; [ reflexivity | exact Hhi ] ].
Qed.

Lemma scan_u_pair (c : N) (tail : str) :
  65536 <= c < 1114112 ->
  let v := c - 65536 in
  let s1 := N.lor 55296 (N.land (N.shiftr v 10) 1023) in
  let s2 := N.lor 56320 (N.land v 1023) in
  scan_u (hex_digits s1 ++ escape_u s2 ++ tail) = Return (c, tail).
Proof.
  intros Hc v s1 s2.
  destruct (surrogates_of c Hc) as (E1 & E2 & Hhi).
  fold v in E1, E2, Hhi. fold s1 in E1. fold s2 in E2.
  assert (Hlo : v mod 1024 < 1024) by (apply N.mod_upper_bound; discriminate).
  pose proof (N.div_mod v 1024 ltac:(discriminate)) as Hv.
  assert (Ev : c = 65536 + v) by (subst v; lia).
  clearbody s1 s2 v.
  remember (v / 1024) as q eqn:Eq. remember (v mod 1024) as r eqn:Er.
  clear Eq Er.
  assert (B1 : s1 < 65536) by lia.
  assert (B2 : s2 < 65536) by lia.
  rewrite escape_u_digits. unfold hex_digits.
  cbn [app scan_u]. rewrite (hex4_digits s1 B1).
  replace (is_high_surrogate s1) with true
    by (symmetry; unfold is_high_surrogate; apply andb_true_iff;
        split; apply N.leb_le; lia).
  cbn [starts_with]. rewrite !N.eqb_refl.
  rewrite (hex4_digits s2 B2).
  replace (is_low_surrogate s2) with true
    by (symmetry; unfold is_low_surrogate; apply andb_true_iff;
        split; apply N.leb_le; lia).
  unfold join_surrogates.
  replace (s1 - 55296) with q by lia.
  replace (s2 - 56320) with r by lia.
  rewrite lor_shiftl_add by exact Hlo.
  change (2 ^ 10) with 1024.
  replace (65536 + (q * 1024 + r)) with c by lia. reflexivity.
Qed.

(** ** Strings *)

(** Whether the scanner, having read a high surrogate, would join it
    with what follows. *)
Definition pairs_with_low (tail : str) : bool :=
  match starts_with [92; 117] tail with
  | Some (g1 :: g2 :: g3 :: g4 :: _) =>
      match hex4 g1 g2 g3 g4 with
      | Some c2 => is_low_surrogate c2
      | None => true
      end
  | _ => false
  end.

Lemma scan_u_unpaired (c : N) (tail : str) :
  c < 65536 ->
  (is_high_surrogate c = true -> pairs_with_low tail = false) ->
  scan_u (hex_digits c ++ tail) = Return (c, tail).
Proof.
  intros Hc Hp. unfold hex_digits. cbn [app scan_u].
  rewrite (hex4_digits c Hc).
  destruct (is_high_surrogate c); [ | reflexivity ].
  specialize (Hp eq_refl). unfold pairs_with_low in Hp.
  destruct (starts_with [92; 117] tail) as [[|g1 [|g2 [|g3 [|g4 r]]]]|];
    try reflexivity.
  destruct (hex4 g1 g2 g3 g4); [ | discriminate ].
  rewrite Hp. reflexivity.
Qed.

Lemma scanstring_step (c : N) (fuel : nat) (tail : str) :
  c < 1114112 ->
  (is_high_surrogate c = true -> pairs_with_low tail = false) ->
  scanstring_loop (S fuel) (escape_char c ++ tail)
  = bind (scanstring_loop fuel tail) (fun vr => Return (c :: fst vr, snd vr)).
Proof.
  intros Hs Hp. unfold escape_char.
  destruct (c =? 34) eqn:E34; [ apply N.eqb_eq in E34; subst c; reflexivity | ].
  destruct (c =? 92) eqn:E92; [ apply N.eqb_eq in E92; subst c; reflexivity | ].
  destruct (c =? 10) eqn:E10; [ apply N.eqb_eq in E10; subst c; reflexivity | ].
  destruct (c =? 13) eqn:E13; [ apply N.eqb_eq in E13; subst c; reflexivity | ].
  destruct (c =? 9) eqn:E9; [ apply N.eqb_eq in E9; subst c; reflexivity | ].
  destruct (c =? 12) eqn:E12; [ apply N.eqb_eq in E12; subst c; reflexivity | ].
  destruct (c =? 8) eqn:E8; [ apply N.eqb_eq in E8; subst c; reflexivity | ].
  destruct ((32 <=? c) && (c <=? 126))%bool eqn:Eprint.
  - apply andb_true_iff in Eprint. destruct Eprint as [Hlo Hhi].
    apply N.leb_le in Hlo.
    cbn [app scanstring_loop]. rewrite E34, E92.
    replace (c <? 32) with false by (symmetry; apply N.ltb_ge; exact Hlo).
    reflexivity.
  - destruct (c <? 65536) eqn:Ebmp.
    + apply N.ltb_lt in Ebmp.
      rewrite escape_u_digits.
      change ((92 :: 117 :: hex_digits c) ++ tail)
        with (92 :: 117 :: (hex_digits c ++ tail)).
      cbn [scanstring_loop].
      change (92 =? 34) with false. change (92 =? 92) with true.
      change (117 =? 117) with true. cbv iota.
      rewrite (scan_u_unpaired c tail Ebmp Hp). reflexivity.
    + apply N.ltb_ge in Ebmp.
      assert (Hc : 65536 <= c < 1114112) by (split; assumption).
      cbv zeta. rewrite (escape_u_digits (N.lor 55296 _)).
      rewrite <- !app_assoc.
      match goal with
      | |- scanstring_loop _ ((92 :: 117 :: ?d) ++ ?rest) = _ =>
          change ((92 :: 117 :: d) ++ rest) with (92 :: 117 :: (d ++ rest))
      end.
      cbn [scanstring_loop].
      change (92 =? 34) with false. change (92 =? 92) with true.
      change (117 =? 117) with true. cbv iota.
      rewrite (scan_u_pair c tail Hc). reflexivity.
Qed.

(** The escape of a code point that is not a low surrogate does not
    look like the second half of a pair. *)
Lemma escape_not_low (c : N) (more : str) :
  c < 1114112 -> is_low_surrogate c = false ->
  pairs_with_low (escape_char c ++ more) = false.
Proof.
  intros Hs Hl. unfold escape_char.
  destruct (c =? 34) eqn:E34; [ reflexivity | ].
  destruct (c =? 92) eqn:E92; [ reflexivity | ].
  destruct (c =? 10) eqn:E10; [ reflexivity | ].
  destruct (c =? 13) eqn:E13; [ reflexivity | ].
  destruct (c =? 9) eqn:E9; [ reflexivity | ].
  destruct (c =? 12) eqn:E12; [ reflexivity | ].
  destruct (c =? 8) eqn:E8; [ reflexivity | ].
  destruct ((32 <=? c) && (c <=? 126))%bool eqn:Eprint.
  - unfold pairs_with_low. cbn [app starts_with].
    rewrite (N.eqb_sym 92 c), E92. reflexivity.
  - destruct (c <? 65536) eqn:Ebmp.
    + apply N.ltb_lt in Ebmp. unfold pairs_with_low, escape_u.
      cbn [app starts_with]. rewrite !N.eqb_refl.
      rewrite (hex4_digits c Ebmp). exact Hl.
    + apply N.ltb_ge in Ebmp.
      assert (Hc : 65536 <= c < 1114112) by (split; assumption).
      destruct (surrogates_of c Hc) as (E1 & _ & Hhi).
      cbv zeta in E1 |- *.
      set (s1 := N.lor 55296 (N.land (N.shiftr (c - 65536) 10) 1023)) in *.
      clearbody s1.
      revert Hhi E1. generalize ((c - 65536) / 1024). intros q Hhi E1.
      unfold pairs_with_low. rewrite <- app_assoc. unfold escape_u at 1.
      cbn [app starts_with]. rewrite !N.eqb_refl.
      rewrite (hex4_digits s1) by lia.
      unfold is_low_surrogate. apply andb_false_iff. left. apply N.leb_gt. lia.
Qed.

Lemma escape_char_nonempty (c : N) : (1 <= List.length (escape_char c))%nat.
Proof.
  unfold escape_char.
  repeat match goal with
         | |- context [if ?b then _ else _] => destruct b
         end; cbn; lia.
Qed.

Lemma escaped_not_low (s rest : str) :
  valid_text s = true ->
  match s with
  | c' :: _ => is_low_surrogate c' = false
  | [] => True
  end ->
  pairs_with_low (flat_map escape_char s ++ 34 :: rest) = false.
Proof.
  destruct s as [|c' s]; intros Hv Hl; [ reflexivity | ].
  cbn [valid_text] in Hv. apply andb_true_iff in Hv. destruct Hv as [Hv _].
  apply andb_true_iff in Hv. destruct Hv as [Hc _]. apply N.ltb_lt in Hc.
  cbn [flat_map]. rewrite <- app_assoc. apply escape_not_low; assumption.
Qed.

Lemma scanstring_loop_escaped (s : str) (fuel : nat) (rest : str) :
  valid_text s = true ->
  (List.length s < fuel)%nat ->
  scanstring_loop fuel (flat_map escape_char s ++ 34 :: rest) = Return (s, rest).
Proof.
  revert fuel. induction s as [|c s IH]; intros fuel Hv Hfuel.
  - destruct fuel as [|fuel]; [ cbn in Hfuel; lia | ]. reflexivity.
  - destruct fuel as [|fuel]; [ cbn in Hfuel; lia | ].
    cbn [valid_text] in Hv. apply andb_true_iff in Hv. destruct Hv as [Hv Hs].
    apply andb_true_iff in Hv. destruct Hv as [Hc Hpair]. apply N.ltb_lt in Hc.
    cbn [flat_map]. rewrite <- app_assoc.
    rewrite (scanstring_step c fuel _ Hc).
    + rewrite IH; [ reflexivity | exact Hs | cbn in Hfuel; lia ].
    + intros Hhigh. rewrite Hhigh in Hpair. cbn [andb] in Hpair.
      apply negb_true_iff in Hpair.
      apply escaped_not_low; [ exact Hs | ].
      destruct s; [ exact I | exact Hpair ].
Qed.

Lemma escaped_length (s : str) :
  (List.length s <= List.length (flat_map escape_char s))%nat.
Proof.
  induction s as [|c s IH]; [ cbn; lia | ].
  cbn [flat_map]. rewrite length_app. cbn [List.length].
  pose proof (escape_char_nonempty c). lia.
Qed.

(** Reading back an encoded string. *)
Lemma scanstring_escaped (s rest : str) :
  valid_text s = true ->
  scanstring (flat_map escape_char s ++ 34 :: rest) = Return (s, rest).
Proof.
  intros Hv. unfold scanstring. apply scanstring_loop_escaped; [ exact Hv | ].
  rewrite length_app. cbn [List.length]. pose proof (escaped_length s). lia.
Qed.

(** ** Numbers *)

Lemma digits_unfold (n : N) :
  digits n
  = if n <? 10 then [digit_char n]
    else digits (n / 10) ++ [digit_char (n mod 10)].
Proof.
  funelim (digits n);
    match goal with H : (_ <? 10) = _ |- _ => rewrite H end; reflexivity.
Qed.

Lemma is_digit_char (d : N) : d < 10 -> is_digit (digit_char d) = true.
Proof.
  intros H. unfold is_digit, digit_char.
  apply andb_true_iff. split; apply N.leb_le; lia.
Qed.

Lemma digits_are_digits (n : N) : forallb is_digit (digits n) = true.
Proof.
  induction n as [n IH] using (well_founded_induction N.lt_wf_0).
  rewrite digits_unfold. destruct (N.ltb_spec n 10) as [Hlt|Hge].
  - cbn [forallb]. rewrite is_digit_char by exact Hlt. reflexivity.
  - rewrite forallb_app. rewrite IH by (apply N.div_lt; lia).
    cbn [forallb]. rewrite is_digit_char by (apply N.mod_upper_bound; discriminate).
    reflexivity.
Qed.

Lemma digits_value_snoc (ds : str) (c : N) :
  digits_value (ds ++ [c]) = 10 * digits_value ds + (c - 48).
Proof. unfold digits_value. rewrite fold_left_app. reflexivity. Qed.

Lemma digits_value_digits (n : N) : digits_value (digits n) = n.
Proof.
  induction n as [n IH] using (well_founded_induction N.lt_wf_0).
  rewrite digits_unfold. destruct (N.ltb_spec n 10) as [Hlt|Hge].
  - unfold digits_value, digit_char. cbn [fold_left]. lia.
  - rewrite digits_value_snoc. rewrite IH by (apply N.div_lt; lia).
    unfold digit_char. pose proof (N.div_mod n 10 ltac:(discriminate)) as Hn.
    revert Hn. generalize (n / 10), (n mod 10). intros q r Hn. lia.
Qed.

(** The first digit is zero only for zero itself. *)
Lemma digits_head (n : N) :
  exists c tl, digits n = c :: tl /\ is_digit c = true
               /\ ((c =? 48) = true -> tl = []).
Proof.
  induction n as [n IH] using (well_founded_induction N.lt_wf_0).
  rewrite digits_unfold. destruct (N.ltb_spec n 10) as [Hlt|Hge].
  - exists (digit_char n), []. split; [ reflexivity | ].
    split; [ apply is_digit_char; exact Hlt | reflexivity ].
  - assert (Hq : n / 10 < n) by (apply N.div_lt; lia).
    destruct (IH (n / 10) Hq) as (c & tl & E & Hd & Hz).
    exists c, (tl ++ [digit_char (n mod 10)]). rewrite E.
    split; [ reflexivity | ]. split; [ exact Hd | ].
    intros Hc. exfalso.
    pose proof (Hz Hc) as ->. apply N.eqb_eq in Hc. subst c.
    assert (Hn : 1 <= n / 10)
      by (apply N.div_le_lower_bound; [ discriminate | lia ]).
    rewrite digits_unfold in E.
    destruct (N.ltb_spec (n / 10) 10) as [Hlt'|Hge'].
    + injection E as E. unfold digit_char in E. lia.
    + apply (f_equal (@List.length N)) in E. rewrite length_app in E.
      cbn in E.
      destruct (digits (n / 10 / 10)) eqn:Ed; [ | cbn in E; lia ].
      pose proof (digits_value_digits (n / 10 / 10)) as Hval.
      rewrite Ed in Hval. cbn in Hval.
      assert (1 <= n / 10 / 10)
        by (apply N.div_le_lower_bound; [ discriminate | lia ]).
      lia.
Qed.

Lemma delimited_cases (rest : str) :
  delimited rest = true ->
  rest = [] \/ exists c tl, rest = c :: tl /\ (c = 44 \/ c = 93 \/ c = 125).
Proof.
  destruct rest as [|c tl]; [ left; reflexivity | ].
  cbn. intros H. right. exists c, tl. split; [ reflexivity | ].
  apply orb_true_iff in H. destruct H as [H|H].
  - apply orb_true_iff in H. destruct H as [H|H]; apply N.eqb_eq in H; auto.
  - apply N.eqb_eq in H. auto.
Qed.

Ltac by_delimiter H :=
  destruct (delimited_cases _ H) as [->|(?c & ?tl & -> & [->|[->| ->]])].

Lemma span_digits_app (a rest : str) :
  delimited rest = true ->
  span_digits (a ++ rest) = (fst (span_digits a), snd (span_digits a) ++ rest).
Proof.
  intros Hd. induction a as [|c a IH].
  - by_delimiter Hd; reflexivity.
  - cbn [app span_digits]. destruct (is_digit c); [ | reflexivity ].
    rewrite IH. reflexivity.
Qed.

Lemma match_integer_app (a rest : str) :
  delimited rest = true ->
  match_integer (a ++ rest)
  = match match_integer a with
    | Some (i, r) => Some (i, r ++ rest)
    | None => None
    end.
Proof.
  intros Hd. destruct a as [|c a].
  - by_delimiter Hd; reflexivity.
  - cbn [app match_integer]. destruct (c =? 48); [ reflexivity | ].
    destruct (is_digit c); [ | reflexivity ].
    rewrite (span_digits_app a rest Hd). reflexivity.
Qed.

Lemma match_frac_app (a rest : str) :
  delimited rest = true ->
  match_frac (a ++ rest) = (fst (match_frac a), snd (match_frac a) ++ rest).
Proof.
  intros Hd. destruct a as [|c a].
  - by_delimiter Hd; reflexivity.
  - cbn [app match_frac]. destruct (c =? 46); [ | reflexivity ].
    rewrite (span_digits_app a rest Hd).
    destruct (span_digits a) as [[|d ds] r]; reflexivity.
Qed.

Lemma match_exp_app (a rest : str) :
  delimited rest = true ->
  match_exp (a ++ rest) = (fst (match_exp a), snd (match_exp a) ++ rest).
Proof.
  intros Hd. destruct a as [|c a].
  - by_delimiter Hd; reflexivity.
  - cbn [app match_exp]. destruct ((c =? 101) || (c =? 69))%bool; [ | reflexivity ].
    destruct a as [|d a].
    + cbn [app snd fst]. 
      assert (E : span_digits rest = ([], rest)) by (by_delimiter Hd; reflexivity).
      by_delimiter Hd; reflexivity.
    + cbn [app]. destruct ((d =? 43) || (d =? 45))%bool; cbn [snd fst].
      * rewrite (span_digits_app a rest Hd).
        destruct (span_digits a) as [[|e ds] r]; reflexivity.
      * change (d :: a ++ rest) with ((d :: a) ++ rest).
        rewrite (span_digits_app (d :: a) rest Hd).
        destruct (span_digits (d :: a)) as [[|e ds] r]; reflexivity.
Qed.

Lemma match_sign_app (a rest : str) :
  delimited rest = true ->
  match_sign (a ++ rest) = (fst (match_sign a), snd (match_sign a) ++ rest).
Proof.
  intros Hd. destruct a as [|c a].
  - by_delimiter Hd; reflexivity.
  - cbn [app match_sign]. destruct (c =? 45); reflexivity.
Qed.

(** A number followed by a delimiter is matched as it is alone. *)
Lemma match_number_app (l rest : str) :
  delimited rest = true ->
  match_number (l ++ rest)
  = match match_number l with
    | Some (v, r) => Some (v, r ++ rest)
    | None => None
    end.
Proof.
  intros Hd. unfold match_number.
  rewrite (match_sign_app l rest Hd).
  destruct (match_sign l) as [sign s1]. cbn [fst snd].
  rewrite (match_integer_app s1 rest Hd).
  destruct (match_integer s1) as [[integer s2]|]; [ | reflexivity ].
  rewrite (match_frac_app s2 rest Hd).
  destruct (match_frac s2) as [frac s3]. cbn [fst snd].
  rewrite (match_exp_app s3 rest Hd).
  destruct (match_exp s3) as [exp s4]. cbn [fst snd].
  destruct frac; destruct exp; reflexivity.
Qed.

Lemma span_digits_all (l : str) :
  forallb is_digit l = true -> span_digits l = (l, []).
Proof.
  induction l as [|c l IH]; [ reflexivity | ].
  cbn [forallb span_digits]. intros H. apply andb_true_iff in H.
  destruct H as [Hc Hl]. rewrite Hc, (IH Hl). reflexivity.
Qed.

Lemma match_integer_digits (n : N) :
  match_integer (digits n) = Some (digits n, []).
Proof.
  pose proof (digits_are_digits n) as Hall.
  destruct (digits_head n) as (c & tl & E & Hd & Hz).
  rewrite E in Hall |- *. cbn [forallb] in Hall.
  apply andb_true_iff in Hall. destruct Hall as [_ Htl].
  cbn [match_integer]. destruct (c =? 48) eqn:Ec.
  - rewrite (Hz eq_refl). reflexivity.
  - rewrite Hd, (span_digits_all tl Htl). reflexivity.
Qed.

Lemma is_digit_bounds (c : N) : is_digit c = true -> 48 <= c <= 57.
Proof.
  unfold is_digit. intros H. apply andb_true_iff in H.
  destruct H as [H1 H2]. apply N.leb_le in H1, H2. lia.
Qed.

Lemma match_sign_digits (n : N) : match_sign (digits n) = ([], digits n).
Proof.
  destruct (digits_head n) as (c & tl & E & Hd & _). rewrite E.
  cbn [match_sign]. apply is_digit_bounds in Hd.
  replace (c =? 45) with false by (symmetry; apply N.eqb_neq; lia).
  reflexivity.
Qed.

Lemma match_number_int (z : Z) : match_number (int_repr z) = Some (JInt z, []).
Proof.
  unfold int_repr. destruct (Z.ltb_spec z 0) as [Hneg|Hpos].
  - unfold match_number. cbn [match_sign]. change (45 =? 45) with true. cbv iota.
    rewrite match_integer_digits. cbn [match_frac match_exp].
    rewrite digits_value_digits. do 2 f_equal. f_equal. lia.
  - unfold match_number. rewrite match_sign_digits, match_integer_digits.
    cbn [match_frac match_exp]. rewrite digits_value_digits.
    do 2 f_equal. f_equal. lia.
Qed.

Lemma match_number_head (s : str) (vr : json * str) :
  match_number s = Some vr ->
  exists c tl, s = c :: tl /\ (c = 45 \/ is_digit c = true).
Proof.
  destruct s as [|c tl]; [ discriminate | ].
  intros H. exists c, tl. split; [ reflexivity | ].
  unfold match_number in H. cbn [match_sign] in H.
  destruct (c =? 45) eqn:E45; [ left; apply N.eqb_eq; exact E45 | ].
  right. cbn [match_integer] in H.
  destruct (c =? 48) eqn:E48; [ apply N.eqb_eq in E48; subst c; reflexivity | ].
  destruct (is_digit c); [ reflexivity | discriminate ].
Qed.

(** [scan_once] on a number. *)
Lemma scan_once_number (fuel : nat) (s : str) (vr : json * str) :
  match_number s = Some vr -> scan_once (S fuel) s = Return vr.
Proof.
  intros H. destruct (match_number_head s vr H) as (c & tl & -> & Hc).
  assert (Hb : c = 45 \/ 48 <= c <= 57)
    by (destruct Hc as [Hc|Hc]; [ left; exact Hc | right; apply is_digit_bounds; exact Hc ]).
  cbn [scan_once].
  replace (c =? 34) with false by (symmetry; apply N.eqb_neq; lia).
  replace (c =? 123) with false by (symmetry; apply N.eqb_neq; lia).
  replace (c =? 91) with false by (symmetry; apply N.eqb_neq; lia).
  unfold scan_constant.
  change (text "null") with [110; 117; 108; 108].
  change (text "true") with [116; 114; 117; 101].
  change (text "false") with [102; 97; 108; 115; 101].
  cbn [starts_with].
  replace (110 =? c) with false by (symmetry; apply N.eqb_neq; lia).
  replace (116 =? c) with false by (symmetry; apply N.eqb_neq; lia).
  replace (102 =? c) with false by (symmetry; apply N.eqb_neq; lia).
  rewrite H. reflexivity.
Qed.

(** What [NUMBER_RE] consumes is made of number characters, and the
    rest is what it leaves. *)
Definition number_char (c : N) : bool :=
  (is_digit c || (c =? 45) || (c =? 43) || (c =? 46) || (c =? 101) || (c =? 69))%bool.

Definition consumed (s matched rest : str) : Prop :=
  s = matched ++ rest /\ forallb number_char matched = true.

Lemma number_char_digit (c : N) : is_digit c = true -> number_char c = true.
Proof. intros H. unfold number_char. rewrite H. reflexivity. Qed.

Lemma span_digits_consumed (s : str) :
  consumed s (fst (span_digits s)) (snd (span_digits s)).
Proof.
  induction s as [|c s [IH1 IH2]]; [ split; reflexivity | ].
  cbn [span_digits]. destruct (is_digit c) eqn:Hc; [ | split; reflexivity ].
  cbn [fst snd]. split.
  - cbn [app]. f_equal. exact IH1.
  - cbn [forallb]. rewrite (number_char_digit c Hc). exact IH2.
Qed.

Lemma match_integer_consumed (s i r : str) :
  match_integer s = Some (i, r) -> consumed s i r.
Proof.
  destruct s as [|c s]; [ discriminate | ]. cbn [match_integer].
  destruct (c =? 48) eqn:E48.
  - intros H. injection H as <- <-. apply N.eqb_eq in E48. subst c.
    split; reflexivity.
  - destruct (is_digit c) eqn:Hc; [ | discriminate ].
    intros H. injection H as <- <-.
    destruct (span_digits_consumed s) as [E1 E2]. split.
    + cbn [app]. f_equal. exact E1.
    + cbn [forallb]. rewrite (number_char_digit c Hc). exact E2.
Qed.

Lemma match_frac_consumed (s : str) :
  consumed s (fst (match_frac s)) (snd (match_frac s)).
Proof.
  destruct s as [|c s]; [ split; reflexivity | ]. cbn [match_frac].
  destruct (c =? 46) eqn:Ec; [ | split; reflexivity ].
  destruct (span_digits_consumed s) as [E1 E2].
  destruct (span_digits s) as [[|d ds] r]; [ split; reflexivity | ].
  cbn [fst snd] in *. split.
  - cbn [app]. f_equal. exact E1.
  - cbn [forallb] in E2 |- *. rewrite E2.
    unfold number_char. rewrite Ec. rewrite !orb_true_r. reflexivity.
Qed.

Lemma match_exp_consumed (s : str) :
  consumed s (fst (match_exp s)) (snd (match_exp s)).
Proof.
  destruct s as [|c s]; [ split; reflexivity | ]. cbn [match_exp].
  destruct ((c =? 101) || (c =? 69))%bool eqn:Ec; [ | split; reflexivity ].
  assert (Hc : number_char c = true).
  { unfold number_char. apply orb_true_iff in Ec. destruct Ec as [->| ->];
      rewrite ?orb_true_r; reflexivity. }
  destruct s as [|d s].
  - cbn. split; reflexivity.
  - destruct ((d =? 43) || (d =? 45))%bool eqn:Ed; cbn [fst snd].
    + assert (Hd : number_char d = true).
      { unfold number_char. apply orb_true_iff in Ed. destruct Ed as [->| ->];
          rewrite ?orb_true_r; reflexivity. }
      destruct (span_digits_consumed s) as [E1 E2].
      destruct (span_digits s) as [[|e ds] r]; [ split; reflexivity | ].
      cbn [fst snd] in *. split.
      * cbn [app]. do 2 f_equal. exact E1.
      * cbn [app forallb] in E2 |- *. rewrite Hc, Hd. exact E2.
    + destruct (span_digits_consumed (d :: s)) as [E1 E2].
      destruct (span_digits (d :: s)) as [[|e ds] r]; [ split; reflexivity | ].
      cbn [fst snd] in *. split.
      * cbn [app]. f_equal. exact E1.
      * cbn [app forallb] in E2 |- *. rewrite Hc. exact E2.
Qed.

Lemma match_sign_consumed (s : str) :
  consumed s (fst (match_sign s)) (snd (match_sign s)).
Proof.
  destruct s as [|c s]; [ split; reflexivity | ]. cbn [match_sign].
  destruct (c =? 45) eqn:Ec; [ | split; reflexivity ].
  split; [ reflexivity | ]. cbn [fst forallb]. unfold number_char.
  rewrite Ec. rewrite !orb_true_r. reflexivity.
Qed.

(** A float literal is the text that was matched. *)
Lemma match_number_float (s l r : str) :
  match_number s = Some (JFloat l, r) -> consumed s l r.
Proof.
  unfold match_number.
  destruct (match_sign_consumed s) as [S1 S2].
  destruct (match_sign s) as [sign s1]. cbn [fst snd] in S1, S2.
  destruct (match_integer s1) as [[integer s2]|] eqn:Hi; [ | discriminate ].
  destruct (match_integer_consumed s1 integer s2 Hi) as [I1 I2].
  destruct (match_frac_consumed s2) as [F1 F2].
  destruct (match_frac s2) as [frac s3]. cbn [fst snd] in F1, F2.
  destruct (match_exp_consumed s3) as [X1 X2].
  destruct (match_exp s3) as [exp s4]. cbn [fst snd] in X1, X2.
  assert (Hall : s = (sign ++ integer ++ frac ++ exp) ++ s4
                 /\ forallb number_char (sign ++ integer ++ frac ++ exp) = true).
  { split.
    - rewrite S1, I1, F1, X1. rewrite <- !app_assoc. reflexivity.
    - rewrite !forallb_app, S2, I2, F2, X2. reflexivity. }
  destruct frac as [|f frac]; [ destruct exp as [|x exp] | ];
    intros H; try discriminate H; injection H as <- <-; exact Hall.
Qed.

Lemma float_literal_matches (l : str) :
  float_literal l = true -> match_number l = Some (JFloat l, []).
Proof.
  unfold float_literal. destruct (match_number l) as [[v r]|] eqn:H; [ | discriminate ].
  destruct v; try discriminate. destruct r; [ | discriminate ]. intros _.
  destruct (match_number_float l literal [] H) as [E _].
  rewrite app_nil_r in E. rewrite <- E. reflexivity.
Qed.

Lemma float_cases (l : str) :
  (float_literal l || infinity_literal l)%bool = true ->
  float_literal l = true \/ l = text "Infinity" \/ l = text "-Infinity".
Proof.
  intros H. apply orb_true_iff in H. destruct H as [H|H]; [ left; exact H | right ].
  unfold infinity_literal in H. apply orb_true_iff in H.
  destruct H as [H|H]; apply text_eqb_eq in H; auto.
Qed.

Lemma float_literal_chars (l : str) :
  float_literal l = true -> forallb number_char l = true.
Proof.
  intros Hl. apply float_literal_matches in Hl.
  destruct (match_number_float l l [] Hl) as [_ H]. exact H.
Qed.

(** ** The shape of an encoded document *)

Fixpoint array_tail (xs : list json) (rest : str) : str :=
  match xs with
  | [] => 93 :: rest
  | y :: ys => 44 :: 32 :: dumps y ++ array_tail ys rest
  end.

Fixpoint object_tail (kxs : list (str * json)) (rest : str) : str :=
  match kxs with
  | [] => 125 :: rest
  | kv :: r =>
      44 :: 32 :: 34 :: flat_map escape_char (fst kv)
      ++ 34 :: 58 :: 32 :: dumps (snd kv) ++ object_tail r rest
  end.

Ltac flatten_app :=
  repeat first [ progress rewrite <- app_assoc | progress cbn [app] ].

Lemma array_tail_app (xs : list json) (rest : str) :
  (flat_map (fun y => text ", " ++ dumps y) xs ++ [93]) ++ rest = array_tail xs rest.
Proof.
  induction xs as [|y ys IH]; [ reflexivity | ].
  cbn [flat_map array_tail]. change (text ", ") with [44; 32].
  rewrite <- IH. flatten_app. reflexivity.
Qed.

Lemma dumps_list_app (x : json) (xs : list json) (rest : str) :
  dumps (JList (x :: xs)) ++ rest = 91 :: dumps x ++ array_tail xs rest.
Proof.
  change (dumps (JList (x :: xs)))
    with (91 :: dumps x ++ flat_map (fun y => text ", " ++ dumps y) xs ++ [93]).
  rewrite <- array_tail_app. flatten_app. reflexivity.
Qed.

Lemma object_tail_app (kxs : list (str * json)) (rest : str) :
  (flat_map (fun kv => text ", " ++ encode_basestring_ascii (fst kv)
                       ++ text ": " ++ dumps (snd kv)) kxs ++ [125]) ++ rest
  = object_tail kxs rest.
Proof.
  induction kxs as [|kv r IH]; [ reflexivity | ].
  cbn [flat_map object_tail]. unfold encode_basestring_ascii.
  change (text ", ") with [44; 32]. change (text ": ") with [58; 32].
  rewrite <- IH. unfold encode_basestring_ascii. flatten_app. reflexivity.
Qed.

Lemma dumps_dict_app (k : str) (x : json) (kxs : list (str * json)) (rest : str) :
  dumps (JDict ((k, x) :: kxs)) ++ rest
  = 123 :: 34 :: flat_map escape_char k
    ++ 34 :: 58 :: 32 :: dumps x ++ object_tail kxs rest.
Proof.
  change (dumps (JDict ((k, x) :: kxs)))
    with (123 :: encode_basestring_ascii k ++ text ": " ++ dumps x
          ++ flat_map (fun kv => text ", " ++ encode_basestring_ascii (fst kv)
                                 ++ text ": " ++ dumps (snd kv)) kxs
          ++ [125]).
  rewrite <- object_tail_app.
  unfold encode_basestring_ascii. change (text ": ") with [58; 32].
  flatten_app. reflexivity.
Qed.

(** The first character of an encoded document opens a value. *)
Definition opens_value (c : N) : bool :=
  (negb (is_ws c) && negb (c =? 93) && negb (c =? 125) && negb (c =? 65279)
   && negb (Text.is_space c))%bool.

Lemma dumps_head (v : json) :
  well_formed v = true ->
  exists c tl, dumps v = c :: tl /\ opens_value c = true.
Proof.
  destruct v as [ | [|] | n | l | s | [|x xs] | [|[k x] kxs] ]; intros Hw;
    try (eexists; eexists; split; [ reflexivity | reflexivity ]).
  - unfold dumps, int_repr. destruct (n <? 0)%Z.
    + eexists. eexists. split; reflexivity.
    + destruct (digits_head (Z.to_N n)) as (c & tl & E & Hd & _).
      exists c, tl. split; [ exact E | ]. apply is_digit_bounds in Hd.
      unfold opens_value, is_ws, Text.is_space.
      repeat match goal with
             | |- context [c =? ?k] =>
                 replace (c =? k) with false by (symmetry; apply N.eqb_neq; lia)
             | |- context [?k <=? c] =>
                 first [ replace (k <=? c) with true by (symmetry; apply N.leb_le; lia)
                       | replace (k <=? c) with false by (symmetry; apply N.leb_gt; lia) ]
             | |- context [c <=? ?k] =>
                 first [ replace (c <=? k) with true by (symmetry; apply N.leb_le; lia)
                       | replace (c <=? k) with false by (symmetry; apply N.leb_gt; lia) ]
             end.
      reflexivity.
  - cbn [well_formed] in Hw.
    destruct (float_cases l Hw) as [Hf|[-> | ->]];
      [ | eexists; eexists; split; reflexivity
        | eexists; eexists; split; reflexivity ].
    apply float_literal_matches in Hf.
    destruct (match_number_head l _ Hf) as (c & tl & E & Hc).
    exists c, tl. split; [ exact E | ].
    assert (Hb : c = 45 \/ 48 <= c <= 57)
      by (destruct Hc as [Hc|Hc]; [ left; exact Hc | right; apply is_digit_bounds; exact Hc ]).
    unfold opens_value, is_ws, Text.is_space.
    repeat match goal with
           | |- context [c =? ?k] =>
               replace (c =? k) with false by (symmetry; apply N.eqb_neq; lia)
           | |- context [?k <=? c] =>
               first [ replace (k <=? c) with true by (symmetry; apply N.leb_le; lia)
                     | replace (k <=? c) with false by (symmetry; apply N.leb_gt; lia) ]
           | |- context [c <=? ?k] =>
               first [ replace (c <=? k) with true by (symmetry; apply N.leb_le; lia)
                     | replace (c <=? k) with false by (symmetry; apply N.leb_gt; lia) ]
           end.
    reflexivity.
Qed.

Lemma skip_ws_opens (c : N) (tl : str) :
  opens_value c = true -> skip_ws (c :: tl) = c :: tl.
Proof.
  unfold opens_value. intros H. cbn [skip_ws].
  destruct (is_ws c); [ discriminate | reflexivity ].
Qed.

Lemma skip_ws_dumps (v : json) (rest : str) :
  well_formed v = true -> skip_ws (dumps v ++ rest) = dumps v ++ rest.
Proof.
  intros Hw. destruct (dumps_head v Hw) as (c & tl & -> & Hc).
  apply (skip_ws_opens c (tl ++ rest) Hc).
Qed.

(** ** Dictionaries built from distinct pairs *)

Lemma dict_get_middle {V} (k : str) (v : V) (a b : list (str * V)) :
  dict_get k (a ++ (k, v) :: b) <> None.
Proof.
  induction a as [|[k0 v0] a IH]; cbn.
  - rewrite text_eqb_refl. discriminate.
  - destruct (Text.eqb k0 k); [ discriminate | exact IH ].
Qed.

Lemma distinct_keys_absent {V} (k : str) (v : V) (a b : list (str * V)) :
  distinct_keys (a ++ (k, v) :: b) = true -> dict_get k a = None.
Proof.
  induction a as [|[k0 v0] a IH]; [ reflexivity | ].
  cbn [app distinct_keys dict_get].
  destruct (dict_get k0 (a ++ (k, v) :: b)) eqn:Hk0; [ discriminate | ].
  intros Hd. destruct (Text.eqb k0 k) eqn:E; [ | apply IH; exact Hd ].
  apply text_eqb_eq in E. subst k0. exfalso.
  exact (dict_get_middle k v a b Hk0).
Qed.

Lemma dict_set_absent {V} (k : str) (v : V) (d : list (str * V)) :
  dict_get k d = None -> dict_set k v d = d ++ [(k, v)].
Proof.
  induction d as [|[k0 v0] d IH]; [ reflexivity | ]. cbn.
  destruct (Text.eqb k0 k); [ discriminate | ].
  intros H. rewrite (IH H). reflexivity.
Qed.

Lemma dict_of_pairs_from {V} (pairs acc : list (str * V)) :
  distinct_keys (acc ++ pairs) = true ->
  fold_left (fun d kv => dict_set (fst kv) (snd kv) d) pairs acc = acc ++ pairs.
Proof.
  revert acc. induction pairs as [|[k v] pairs IH]; intros acc Hd.
  - rewrite app_nil_r. reflexivity.
  - cbn [fold_left fst snd].
    rewrite (dict_set_absent k v acc (distinct_keys_absent k v acc pairs Hd)).
    rewrite IH; rewrite <- app_assoc; [ reflexivity | exact Hd ].
Qed.

Lemma dict_of_pairs_distinct {V} (pairs : list (str * V)) :
  distinct_keys pairs = true -> dict_of_pairs pairs = pairs.
Proof. intros Hd. apply (dict_of_pairs_from pairs [] Hd). Qed.

(** ** Reading back an encoded document *)

Definition reads_back (v : json) : Prop :=
  forall (fuel : nat) (rest : str),
    (weight v <= fuel)%nat -> delimited rest = true ->
    scan_once fuel (dumps v ++ rest) = Return (v, rest).

Definition items_weight (xs : list json) : nat :=
  fold_right (fun x n => (S (weight x) + n)%nat) 0%nat xs.

Definition entries_weight (kxs : list (str * json)) : nat :=
  fold_right (fun kv n => (S (weight (snd kv)) + n)%nat) 0%nat kxs.

Lemma array_items_step (f : nat) (s : str) :
  array_items (S f) s
  = bind (scan_once f s) (fun vr =>
      match skip_ws (snd vr) with
      | c :: s2 =>
          if c =? 93 then Return ([fst vr], s2)
          else if c =? 44 then
            bind (array_items f (skip_ws s2)) (fun ir =>
            Return (fst vr :: fst ir, snd ir))
          else Raise JSONDecodeError
      | [] => Raise JSONDecodeError
      end).
Proof. reflexivity. Qed.

Lemma object_pairs_step (f : nat) (s : str) :
  object_pairs (S f) s
  = bind (scanstring s) (fun kr =>
      match skip_ws (snd kr) with
      | c :: s2 =>
          if c =? 58 then
            bind (scan_once f (skip_ws s2)) (fun vr =>
            match skip_ws (snd vr) with
            | d :: s4 =>
                if d =? 125 then Return ([(fst kr, fst vr)], s4)
                else if d =? 44 then
                  match skip_ws s4 with
                  | q :: s5 =>
                      if q =? 34 then
                        bind (object_pairs f s5) (fun pr =>
                        Return ((fst kr, fst vr) :: fst pr, snd pr))
                      else Raise JSONDecodeError
                  | [] => Raise JSONDecodeError
                  end
                else Raise JSONDecodeError
            | [] => Raise JSONDecodeError
            end)
          else Raise JSONDecodeError
      | [] => Raise JSONDecodeError
      end).
Proof. reflexivity. Qed.

Lemma delimited_array_tail (xs : list json) (rest : str) :
  delimited (array_tail xs rest) = true.
Proof. destruct xs; reflexivity. Qed.

Lemma delimited_object_tail (kxs : list (str * json)) (rest : str) :
  delimited (object_tail kxs rest) = true.
Proof. destruct kxs; reflexivity. Qed.

Lemma array_items_reads (xs : list json) :
  Forall (fun v => well_formed v = true -> reads_back v) xs ->
  forallb well_formed xs = true ->
  forall (x : json) (fuel : nat) (rest : str),
    well_formed x = true -> reads_back x ->
    (S (weight x) + items_weight xs <= fuel)%nat ->
    array_items fuel (dumps x ++ array_tail xs rest) = Return (x :: xs, rest).
Proof.
  induction xs as [|y ys IH]; intros Hall Hwf x fuel rest Hx Hrx Hfuel;
    (destruct fuel as [|f]; [ cbn in Hfuel; lia | ]);
    rewrite array_items_step;
    rewrite (Hrx f _ ltac:(cbn in Hfuel; lia) (delimited_array_tail _ rest));
    cbn [bind fst snd array_tail].
  - reflexivity.
  - change (skip_ws (44 :: 32 :: dumps y ++ array_tail ys rest))
      with (44 :: 32 :: dumps y ++ array_tail ys rest).
    change (44 =? 93) with false. change (44 =? 44) with true. cbv iota.
    change (skip_ws (32 :: dumps y ++ array_tail ys rest))
      with (skip_ws (dumps y ++ array_tail ys rest)).
    cbn [forallb] in Hwf. apply andb_true_iff in Hwf. destruct Hwf as [Hy Hys].
    rewrite (skip_ws_dumps y _ Hy).
    inversion Hall as [|? ? Py Pys]; subst.
    rewrite (IH Pys Hys y f rest Hy (Py Hy)); [ reflexivity | ].
    cbn [items_weight fold_right] in Hfuel |- *.
    fold (items_weight ys) in Hfuel |- *. lia.
Qed.

Lemma object_pairs_reads (kxs : list (str * json)) :
  Forall (fun kv => well_formed (snd kv) = true -> reads_back (snd kv)) kxs ->
  forallb (fun kv => valid_text (fst kv) && well_formed (snd kv))%bool kxs = true ->
  forall (k : str) (x : json) (fuel : nat) (rest : str),
    valid_text k = true -> well_formed x = true -> reads_back x ->
    (S (weight x) + entries_weight kxs <= fuel)%nat ->
    object_pairs fuel
      (flat_map escape_char k ++ 34 :: 58 :: 32 :: dumps x ++ object_tail kxs rest)
    = Return ((k, x) :: kxs, rest).
Proof.
  induction kxs as [|[k' y] kys IH]; intros Hall Hwf k x fuel rest Hk Hx Hrx Hfuel;
    (destruct fuel as [|f]; [ cbn in Hfuel; lia | ]);
    rewrite object_pairs_step;
    rewrite (scanstring_escaped k _ Hk);
    cbn [bind fst snd];
    match goal with
    | |- context [skip_ws (58 :: ?s)] => change (skip_ws (58 :: s)) with (58 :: s)
    end;
    change (58 =? 58) with true; cbv iota;
    match goal with
    | |- context [skip_ws (32 :: ?s)] => change (skip_ws (32 :: s)) with (skip_ws s)
    end;
    rewrite (skip_ws_dumps x _ Hx);
    rewrite (Hrx f _ ltac:(cbn in Hfuel; lia) (delimited_object_tail _ rest));
    cbn [bind fst snd object_tail].
  - reflexivity.
  - match goal with
    | |- context [skip_ws (44 :: ?s)] =>
        change (skip_ws (44 :: s)) with (44 :: s)
    end.
    change (44 =? 125) with false. change (44 =? 44) with true. cbv iota.
    match goal with
    | |- context [skip_ws (32 :: 34 :: ?s)] =>
        change (skip_ws (32 :: 34 :: s)) with (34 :: s)
    end.
    change (34 =? 34) with true. cbv iota.
    cbn [forallb fst snd] in Hwf. apply andb_true_iff in Hwf.
    destruct Hwf as [Hky Hkys]. apply andb_true_iff in Hky. destruct Hky as [Hk' Hy].
    inversion Hall as [|? ? Py Pys]; subst. cbn [snd] in Py.
    rewrite (IH Pys Hkys k' y f rest Hk' Hy (Py Hy)); [ reflexivity | ].
    cbn [entries_weight fold_right snd] in Hfuel |- *.
    fold (entries_weight kys) in Hfuel |- *. lia.
Qed.

Lemma scan_once_string (f : nat) (s : str) :
  scan_once (S f) (34 :: s)
  = bind (scanstring s) (fun vr => Return (JStr (fst vr), snd vr)).
Proof. reflexivity. Qed.

Lemma scan_once_array (f : nat) (s : str) :
  scan_once (S f) (91 :: s)
  = match skip_ws s with
    | d :: rest1 =>
        if d =? 93 then Return (JList [], rest1)
        else bind (array_items f (d :: rest1)) (fun ir =>
             Return (JList (fst ir), snd ir))
    | [] => Raise JSONDecodeError
    end.
Proof. reflexivity. Qed.

Lemma scan_once_object (f : nat) (s : str) :
  scan_once (S f) (123 :: s)
  = match skip_ws s with
    | d :: rest1 =>
        if d =? 125 then Return (JDict [], rest1)
        else if d =? 34 then
          bind (object_pairs f rest1) (fun pr =>
          Return (JDict (dict_of_pairs (fst pr)), snd pr))
        else Raise JSONDecodeError
    | [] => Raise JSONDecodeError
    end.
Proof. reflexivity. Qed.

(** Every well-formed document is read back from its encoding, whatever
    delimiter follows. *)
Lemma scan_once_dumps (v : json) : well_formed v = true -> reads_back v.
Proof.
  induction v as [ | b | n | l | s | items IH | entries IH ] using json_induction;
    intros Hw fuel rest Hfuel Hd;
    (destruct fuel as [|f]; [ cbn in Hfuel; lia | ]).
  - reflexivity.
  - destruct b; reflexivity.
  - apply scan_once_number. rewrite (match_number_app _ rest Hd).
    change (dumps (JInt n)) with (int_repr n). rewrite match_number_int. reflexivity.
  - cbn [well_formed] in Hw.
    destruct (float_cases l Hw) as [Hf|[-> | ->]]; [ | reflexivity | reflexivity ].
    apply scan_once_number. rewrite (match_number_app _ rest Hd).
    change (dumps (JFloat l)) with l.
    rewrite (float_literal_matches l Hf). reflexivity.
  - change (dumps (JStr s)) with (34 :: flat_map escape_char s ++ [34]).
    flatten_app. rewrite scan_once_string.
    rewrite (scanstring_escaped s rest Hw). reflexivity.
  - destruct items as [|x xs]; [ reflexivity | ].
    rewrite dumps_list_app, scan_once_array.
    cbn [well_formed forallb] in Hw. apply andb_true_iff in Hw.
    destruct Hw as [Hx Hxs].
    rewrite (skip_ws_dumps x _ Hx).
    destruct (dumps_head x Hx) as (c & tl & E & Hc).
    rewrite E. cbn [app].
    replace (c =? 93) with false.
    + change (c :: tl ++ array_tail xs rest) with ((c :: tl) ++ array_tail xs rest).
      rewrite <- E.
      inversion IH as [|? ? Px Pxs]; subst.
      rewrite (array_items_reads xs Pxs Hxs x f rest Hx (Px Hx)); [ reflexivity | ].
      cbn [weight] in Hfuel. fold (items_weight (x :: xs)) in Hfuel.
      cbn [items_weight fold_right] in Hfuel |- *. fold (items_weight xs) in Hfuel |- *.
      lia.
    + unfold opens_value in Hc. repeat (apply andb_true_iff in Hc; destruct Hc as [Hc ?]).
      symmetry. apply negb_true_iff. assumption.
  - destruct entries as [|[k x] kxs]; [ reflexivity | ].
    rewrite dumps_dict_app, scan_once_object.
    match goal with
    | |- context [skip_ws (34 :: ?t)] => change (skip_ws (34 :: t)) with (34 :: t)
    end.
    change (34 =? 125) with false. change (34 =? 34) with true. cbv iota.
    cbn [well_formed] in Hw. apply andb_true_iff in Hw. destruct Hw as [Hall Hdist].
    pose proof Hall as Hall'.
    cbn [forallb fst snd] in Hall. apply andb_true_iff in Hall.
    destruct Hall as [Hkx Hkxs]. apply andb_true_iff in Hkx. destruct Hkx as [Hk Hx].
    inversion IH as [|? ? Px Pxs]; subst. cbn [snd] in Px.
    rewrite (object_pairs_reads kxs Pxs Hkxs k x f rest Hk Hx (Px Hx)).
    + cbn [bind fst snd]. rewrite (dict_of_pairs_distinct _ Hdist). reflexivity.
    + cbn [weight] in Hfuel. fold (entries_weight ((k, x) :: kxs)) in Hfuel.
      cbn [entries_weight fold_right snd] in Hfuel |- *.
      fold (entries_weight kxs) in Hfuel |- *. lia.
Qed.

(** ** Fuel *)

Lemma int_repr_nonempty (n : Z) : (1 <= List.length (int_repr n))%nat.
Proof.
  unfold int_repr. destruct (n <? 0)%Z; [ cbn; lia | ].
  destruct (digits_head (Z.to_N n)) as (c & tl & -> & _). cbn. lia.
Qed.

Definition fits (v : json) : Prop :=
  well_formed v = true -> (weight v <= List.length (dumps v))%nat.

Lemma array_tail_length (xs : list json) (rest : str) :
  Forall fits xs -> forallb well_formed xs = true ->
  (S (items_weight xs) <= List.length (array_tail xs rest))%nat.
Proof.
  induction xs as [|y ys IH]; intros Hall Hwf; [ cbn; lia | ].
  cbn [forallb] in Hwf. apply andb_true_iff in Hwf. destruct Hwf as [Hy Hys].
  inversion Hall as [|? ? Py Pys]; subst.
  cbn [array_tail items_weight fold_right List.length]. fold (items_weight ys).
  rewrite length_app. pose proof (Py Hy). pose proof (IH Pys Hys). lia.
Qed.

Lemma object_tail_length (kxs : list (str * json)) (rest : str) :
  Forall (fun kv => fits (snd kv)) kxs ->
  forallb (fun kv => valid_text (fst kv) && well_formed (snd kv))%bool kxs = true ->
  (S (entries_weight kxs) <= List.length (object_tail kxs rest))%nat.
Proof.
  induction kxs as [|[k y] kys IH]; intros Hall Hwf; [ cbn; lia | ].
  cbn [forallb fst snd] in Hwf. apply andb_true_iff in Hwf. destruct Hwf as [Hky Hkys].
  apply andb_true_iff in Hky. destruct Hky as [_ Hy].
  inversion Hall as [|? ? Py Pys]; subst. cbn [snd] in Py.
  cbn [object_tail entries_weight fold_right List.length fst snd].
  fold (entries_weight kys).
  rewrite length_app. cbn [List.length]. rewrite length_app.
  pose proof (Py Hy). pose proof (IH Pys Hkys). lia.
Qed.

Lemma weight_fits (v : json) : fits v.
Proof.
  induction v as [ | b | n | l | s | items IH | entries IH ] using json_induction;
    intros Hw.
  - cbn. lia.
  - destruct b; cbn; lia.
  - pose proof (int_repr_nonempty n). exact H.
  - cbn [well_formed] in Hw.
    destruct (float_cases l Hw) as [Hf|[-> | ->]]; [ | cbn; lia | cbn; lia ].
    apply float_literal_matches in Hf.
    destruct (match_number_head l _ Hf) as (c & tl & -> & _). cbn. lia.
  - cbn. lia.
  - destruct items as [|x xs]; [ cbn; lia | ].
    rewrite <- (app_nil_r (dumps (JList (x :: xs)))). rewrite dumps_list_app.
    cbn [well_formed forallb] in Hw. apply andb_true_iff in Hw. destruct Hw as [Hx Hxs].
    inversion IH as [|? ? Px Pxs]; subst.
    cbn [weight List.length]. fold (items_weight (x :: xs)).
    cbn [items_weight fold_right]. fold (items_weight xs).
    rewrite length_app.
    pose proof (Px Hx). pose proof (array_tail_length xs [] Pxs Hxs). lia.
  - destruct entries as [|[k x] kxs]; [ cbn; lia | ].
    rewrite <- (app_nil_r (dumps (JDict ((k, x) :: kxs)))). rewrite dumps_dict_app.
    cbn [well_formed] in Hw. apply andb_true_iff in Hw. destruct Hw as [Hall _].
    cbn [forallb fst snd] in Hall. apply andb_true_iff in Hall.
    destruct Hall as [Hkx Hkxs]. apply andb_true_iff in Hkx. destruct Hkx as [_ Hx].
    inversion IH as [|? ? Px Pxs]; subst. cbn [snd] in Px.
    cbn [weight List.length]. fold (entries_weight ((k, x) :: kxs)).
    cbn [entries_weight fold_right snd]. fold (entries_weight kxs).
    rewrite length_app. cbn [List.length]. rewrite length_app.
    pose proof (Px Hx). pose proof (object_tail_length kxs [] Pxs Hkxs). lia.
Qed.

(** [json.loads] undoes [json.dumps] on every well-formed document; the
    fuel given by [fuel_for] is enough. *)
Lemma loads_dumps (v : json) : well_formed v = true -> loads (dumps v) = Return v.
Proof.
  intros Hw. unfold loads.
  destruct (dumps_head v Hw) as (c & tl & E & Hc).
  assert (Hbom : starts_with [65279] (dumps v) = None).
  { rewrite E. cbn [starts_with]. unfold opens_value in Hc.
    repeat (apply andb_true_iff in Hc; destruct Hc as [Hc ?]).
    match goal with H : negb (c =? 65279) = true |- _ =>
      apply negb_true_iff in H; rewrite N.eqb_sym, H end.
    reflexivity. }
  rewrite Hbom.
  rewrite <- (app_nil_r (dumps v)) at 1 2. rewrite (skip_ws_dumps v [] Hw).
  rewrite (scan_once_dumps v Hw _ [] ) ; [ reflexivity | | reflexivity ].
  rewrite app_nil_r. unfold fuel_for. pose proof (weight_fits v Hw). lia.
Qed.

(** ** The encoding is one line of printable ASCII *)

Definition printable (c : N) : bool := ((32 <=? c) && (c <=? 126))%bool.

Lemma printable_bounds (c : N) : 32 <= c <= 126 -> printable c = true.
Proof.
  intros H. unfold printable. apply andb_true_iff. split; apply N.leb_le; lia.
Qed.

Lemma hex_char_printable (d : N) : d < 16 -> printable (hex_char d) = true.
Proof.
  intros H. apply printable_bounds. unfold hex_char.
  destruct (N.ltb_spec d 10); lia.
Qed.

Lemma low_nibble_bound (x : N) : N.land x 15 < 16.
Proof.
  change 15 with (N.ones 4). rewrite N.land_ones.
  apply N.mod_upper_bound. discriminate.
Qed.

Lemma escape_u_printable (n : N) : forallb printable (escape_u n) = true.
Proof.
  unfold escape_u. cbn [forallb].
  rewrite !hex_char_printable by apply low_nibble_bound. reflexivity.
Qed.

Lemma escape_char_printable (c : N) : forallb printable (escape_char c) = true.
Proof.
  unfold escape_char.
  repeat match goal with
         | |- context [if ?b then _ else _] =>
             let E := fresh "E" in destruct b eqn:E; [ try reflexivity | ]
         end.
  - cbn [forallb]. unfold printable. rewrite E6. reflexivity.
  - apply escape_u_printable.
  - cbv zeta. rewrite forallb_app, !escape_u_printable. reflexivity.
Qed.

Lemma escaped_printable (s : str) :
  forallb printable (flat_map escape_char s) = true.
Proof.
  induction s as [|c s IH]; [ reflexivity | ].
  cbn [flat_map]. rewrite forallb_app, escape_char_printable, IH. reflexivity.
Qed.

Lemma number_char_printable (c : N) : number_char c = true -> printable c = true.
Proof.
  unfold number_char. intros H.
  repeat (apply orb_true_iff in H; destruct H as [H|H]);
    try (apply N.eqb_eq in H; subst c; reflexivity).
  apply printable_bounds. apply is_digit_bounds in H. lia.
Qed.

Lemma forallb_weaken {A} (p q : A -> bool) (l : list A) :
  (forall x, p x = true -> q x = true) ->
  forallb p l = true -> forallb q l = true.
Proof.
  intros Hpq. induction l as [|x l IH]; [ reflexivity | ].
  cbn [forallb]. intros H. apply andb_true_iff in H. destruct H as [Hx Hl].
  rewrite (Hpq x Hx), (IH Hl). reflexivity.
Qed.

Lemma int_repr_printable (n : Z) : forallb printable (int_repr n) = true.
Proof.
  unfold int_repr.
  assert (H : forall m, forallb printable (digits m) = true).
  { intros m. apply (forallb_weaken is_digit); [ | apply digits_are_digits ].
    intros c Hc. apply printable_bounds. apply is_digit_bounds in Hc. lia. }
  destruct (n <? 0)%Z; [ cbn [forallb]; rewrite H; reflexivity | apply H ].
Qed.

Definition one_line (v : json) : Prop :=
  well_formed v = true -> forallb printable (dumps v) = true.

Lemma array_tail_printable (xs : list json) :
  Forall one_line xs -> forallb well_formed xs = true ->
  forallb printable (array_tail xs []) = true.
Proof.
  induction xs as [|y ys IH]; intros Hall Hwf; [ reflexivity | ].
  cbn [forallb] in Hwf. apply andb_true_iff in Hwf. destruct Hwf as [Hy Hys].
  inversion Hall as [|? ? Py Pys]; subst.
  cbn [array_tail forallb]. rewrite forallb_app, (Py Hy), (IH Pys Hys). reflexivity.
Qed.

Lemma object_tail_printable (kxs : list (str * json)) :
  Forall (fun kv => one_line (snd kv)) kxs ->
  forallb (fun kv => valid_text (fst kv) && well_formed (snd kv))%bool kxs = true ->
  forallb printable (object_tail kxs []) = true.
Proof.
  induction kxs as [|[k y] kys IH]; intros Hall Hwf; [ reflexivity | ].
  cbn [forallb fst snd] in Hwf. apply andb_true_iff in Hwf. destruct Hwf as [Hky Hkys].
  apply andb_true_iff in Hky. destruct Hky as [_ Hy].
  inversion Hall as [|? ? Py Pys]; subst. cbn [snd] in Py.
  cbn [object_tail forallb fst snd].
  rewrite forallb_app, escaped_printable. cbn [forallb].
  rewrite forallb_app, (Py Hy), (IH Pys Hkys). reflexivity.
Qed.

Lemma dumps_one_line (v : json) : one_line v.
Proof.
  induction v as [ | b | n | l | s | items IH | entries IH ] using json_induction;
    intros Hw.
  - reflexivity.
  - destruct b; reflexivity.
  - apply int_repr_printable.
  - cbn [well_formed] in Hw.
    destruct (float_cases l Hw) as [Hf|[-> | ->]]; [ | reflexivity | reflexivity ].
    apply (forallb_weaken number_char); [ apply number_char_printable | ].
    apply float_literal_chars. exact Hf.
  - change (dumps (JStr s)) with (34 :: flat_map escape_char s ++ [34]).
    cbn [forallb]. rewrite forallb_app, escaped_printable. reflexivity.
  - destruct items as [|x xs]; [ reflexivity | ].
    rewrite <- (app_nil_r (dumps (JList (x :: xs)))). rewrite dumps_list_app.
    cbn [well_formed forallb] in Hw. apply andb_true_iff in Hw. destruct Hw as [Hx Hxs].
    inversion IH as [|? ? Px Pxs]; subst.
    cbn [forallb]. rewrite forallb_app, (Px Hx), (array_tail_printable xs Pxs Hxs).
    reflexivity.
  - destruct entries as [|[k x] kxs]; [ reflexivity | ].
    rewrite <- (app_nil_r (dumps (JDict ((k, x) :: kxs)))). rewrite dumps_dict_app.
    cbn [well_formed] in Hw. apply andb_true_iff in Hw. destruct Hw as [Hall _].
    cbn [forallb fst snd] in Hall. apply andb_true_iff in Hall.
    destruct Hall as [Hkx Hkxs]. apply andb_true_iff in Hkx. destruct Hkx as [_ Hx].
    inversion IH as [|? ? Px Pxs]; subst. cbn [snd] in Px.
    cbn [forallb]. rewrite forallb_app, escaped_printable. cbn [forallb].
    rewrite forallb_app, (Px Hx), (object_tail_printable kxs Pxs Hkxs). reflexivity.
Qed.

Lemma split_once_line (a : str) :
  forallb printable a = true -> split_once 10 (a ++ [10]) = Some (a, []).
Proof.
  induction a as [|c a IH]; [ reflexivity | ].
  cbn [forallb app split_once]. intros H. apply andb_true_iff in H.
  destruct H as [Hc Ha]. rewrite (IH Ha).
  unfold printable in Hc. apply andb_true_iff in Hc. destruct Hc as [Hc _].
  apply N.leb_le in Hc.
  replace (c =? 10) with false by (symmetry; apply N.eqb_neq; lia).
  reflexivity.
Qed.

Lemma strip_bracketed (c d : N) (mid : str) :
  Text.is_space c = false -> Text.is_space d = false ->
  strip (c :: mid ++ [d]) = c :: mid ++ [d].
Proof.
  intros Hc Hd. unfold strip. cbn [lstrip]. rewrite Hc.
  assert (E : rev (c :: mid ++ [d]) = d :: rev (c :: mid)).
  { change (c :: mid ++ [d]) with ((c :: mid) ++ [d]). apply rev_unit. }
  rewrite E. cbn [lstrip]. rewrite Hd. rewrite <- E. apply rev_involutive.
Qed.

Lemma dumps_dict_braces (kx : str * json) (kxs : list (str * json)) :
  exists mid, dumps (JDict (kx :: kxs)) = 123 :: mid ++ [125].
Proof.
  destruct kx as [k x]. eexists.
  change (dumps (JDict ((k, x) :: kxs)))
    with (123 :: encode_basestring_ascii k ++ text ": " ++ dumps x
          ++ flat_map (fun kv => text ", " ++ encode_basestring_ascii (fst kv)
                                 ++ text ": " ++ dumps (snd kv)) kxs
          ++ [125]).
  f_equal. rewrite !app_assoc. reflexivity.
Qed.

(** ** The round trip *)

Lemma construct_asdict (m : NetworkMessage) : construct (asdict m) = Envelope m.
Proof. destruct m. reflexivity. Qed.

Lemma asdict_well_formed (m : NetworkMessage) :
  valid_message m = true -> well_formed (asdict m) = true.
Proof.
  unfold valid_message. intros H.
  repeat (apply andb_true_iff in H; destruct H as [H ?]).
  unfold asdict. cbn [well_formed forallb fst snd].
  repeat match goal with
         | Hv : _ = true |- _ => rewrite Hv; clear Hv
         end.
  reflexivity.
Qed.

(** C4 (as amended). For every message whose payload is a well-formed
    document and in whose text no high surrogate is immediately followed
    by a low surrogate, the line the sender writes is one complete line
    and the receiver's cut, strip and decode return that same message,
    with nothing left in the buffer; [json.loads] returns the dictionary
    that [json.dumps] was given. *)
Theorem decode_encode_round_trip (m : NetworkMessage) :
  valid_message m = true ->
  first_message (encode m) = Some (Envelope m, [])
  /\ loads (dumps (asdict m)) = Return (asdict m).
Proof.
  intros Hv. pose proof (asdict_well_formed m Hv) as Hw.
  pose proof (loads_dumps (asdict m) Hw) as Hloads.
  split; [ | exact Hloads ].
  unfold first_message, encode.
  rewrite (split_once_line _ (dumps_one_line (asdict m) Hw)).
  destruct (dumps_dict_braces (text "message_id", JStr (message_id m))
              [ (text "timestamp", JStr (timestamp m));
                (text "message_type", JStr (message_type m));
                (text "payload", payload m);
                (text "client_id", JStr (client_id m)) ]) as [mid Emid].
  change (JDict _) with (asdict m) in Emid.
  rewrite Emid. rewrite (strip_bracketed 123 125 mid eq_refl eq_refl).
  rewrite <- Emid. unfold decode. rewrite Hloads, construct_asdict. reflexivity.
Qed.

Lemma decode_encode_round_trip_witness :
  valid_message rich_message = true
  /\ first_message (encode rich_message) = Some (Envelope rich_message, []).
Proof.
  split; [ reflexivity | ].
  exact (proj1 (decode_encode_round_trip rich_message eq_refl)).
Defined.

(** C4 as stated fails: this message has all its fields and is written
    as one line without a newline inside, yet what is decoded from the
    line has another message id, the single character U+1F600. *)
Lemma surrogate_pair_is_joined :
  forallb (fun c => negb (c =? 10)) (dumps (asdict paired_message)) = true
  /\ first_message (encode paired_message) = Some (Envelope joined_message, [])
  /\ joined_message <> paired_message.
Proof.
  split; [ vm_compute; reflexivity | ].
  split; [ vm_compute; reflexivity | ].
  intros H. discriminate H.
Qed.

End CodecFacts.
(** * Further properties of the fieldbus master *)

Module PlcMore.

Import Plc Link.

(** ** Register responses *)

Lemma lor_shiftl_byte (hi lo : Z) :
  0 <= lo <= 255 -> Z.lor (Z.shiftl hi 8) lo = 256 * hi + lo.
Proof.
  intros Hlo.
  assert (Hland : Z.land (Z.shiftl hi 8) lo = 0).
  { apply Z.bits_inj'. intros n Hn. rewrite Z.land_spec, Z.bits_0.
    destruct (Z.ltb_spec n 8) as [Hlt|Hge].
    - rewrite Z.shiftl_spec_low by exact Hlt. reflexivity.
    - destruct (Z.eq_dec lo 0) as [->|Hnz].
      + rewrite Z.bits_0. apply andb_false_r.
      + rewrite (Z.bits_above_log2 lo n); [ apply andb_false_r | lia | ].
        apply Z.log2_lt_pow2; [ lia | ].
        apply Z.lt_le_trans with (2 ^ 8); [ cbn; lia | ].
        apply Z.pow_le_mono_r; lia. }
  rewrite <- Z.lxor_lor by exact Hland.
  rewrite <- Z.add_nocarry_lxor by exact Hland.
  rewrite Z.shiftl_mul_pow2 by lia. change (2 ^ 8) with 256. lia.
Qed.

(** X1. For a response of bytes, [_parse_register_response] never
    raises: a response shorter than eleven bytes gives [None], and any
    other gives the big-endian value of its tenth and eleventh bytes, a
    number from 0 to 65535. *)
Theorem parse_register_response_value (response : list Z) :
  Forall (fun b => 0 <= b <= 255) response ->
  ((List.length response < 11)%nat
   /\ _parse_register_response response = Return None)
  \/ (exists hi lo,
         nth_error response 9 = Some hi
         /\ nth_error response 10 = Some lo
         /\ _parse_register_response response = Return (Some (256 * hi + lo))
         /\ 0 <= 256 * hi + lo <= 65535).
Proof.
  intros Hbytes. unfold _parse_register_response.
  destruct (List.length response <? 11)%nat eqn:Hlen.
  - left. apply Nat.ltb_lt in Hlen. split; [ exact Hlen | reflexivity ].
  - right. apply Nat.ltb_ge in Hlen.
    do 11 (destruct response as [|? response]; [ cbn in Hlen; lia | ]).
    repeat match goal with
           | H : Forall _ (_ :: _) |- _ => inversion H; clear H; subst
           end.
    eexists. eexists. split; [ reflexivity | ]. split; [ reflexivity | ].
    cbn -[Z.lor Z.shiftl Z.mul]. rewrite lor_shiftl_byte by assumption.
    split; [ reflexivity | lia ].
Qed.

Lemma parse_register_response_value_witness :
  Forall (fun b => 0 <= b <= 255) [0; 1; 0; 0; 0; 5; 1; 4; 2; 1; 44]
  /\ _parse_register_response [0; 1; 0; 0; 0; 5; 1; 4; 2; 1; 44] = Return (Some 300).
Proof.
  assert (Hb : Forall (fun b => 0 <= b <= 255) [0; 1; 0; 0; 0; 5; 1; 4; 2; 1; 44])
    by (repeat constructor; lia).
  split; [ exact Hb | ].
  destruct (parse_register_response_value _ Hb) as [[Hshort _]|(hi & lo & H9 & H10 & Hrun & _)].
  - cbn in Hshort. lia.
  - injection H9 as <-. injection H10 as <-. exact Hrun.
Defined.

(** ** Point operations *)

Lemma read_analog_input_none (address : Z) (s : plc) :
  read_analog_input address s = (Return None, note (Read_analog address) s).
Proof.
  unfold read_analog_input. cbn.
  destruct (is_connected s); reflexivity.
Qed.

(** X2. Whatever the state of the link, a discrete read, a discrete
    write and an analog read return their failure value ([None],
    [False], [None]) and make no socket call: nothing is sent and the
    count of socket calls stays as it was. *)
Theorem point_operations_never_send (s : plc) (address : Z) (value : bool) :
  (fst (read_discrete_input address s) = Return None
   /\ wire (snd (read_discrete_input address s)) = wire s
   /\ io_count (snd (read_discrete_input address s)) = io_count s)
  /\ (fst (write_discrete_output address value s) = Return false
      /\ wire (snd (write_discrete_output address value s)) = wire s
      /\ io_count (snd (write_discrete_output address value s)) = io_count s)
  /\ (fst (read_analog_input address s) = Return None
      /\ wire (snd (read_analog_input address s)) = wire s
      /\ io_count (snd (read_analog_input address s)) = io_count s).
Proof.
  rewrite PlcFacts.read_discrete_input_none,
    PlcFacts.write_discrete_output_false, read_analog_input_none.
  repeat split.
Qed.

(** ** The status snapshot of a connected link *)

Lemma get_system_status_run (s : plc) :
  is_connected s = true ->
  get_system_status s
  = (Return [ ("connection", VStr "connected");
              ("discrete_inputs",
               VDiscrete [ ("Product Present Sensor", None);
                           ("System Ready", None);
                           ("Emergency Stop", None);
                           ("Marking Complete", None) ]);
              ("analog_inputs",
               VAnalog [ ("Line Speed", None);
                         ("Print Quality Sensor", None) ]);
              ("last_update", VTime (clock s)) ],
     note (Read_analog 1) (note (Read_analog 0)
       (note (Read_discrete 3) (note (Read_discrete 2)
         (note (Read_discrete 1) (note (Read_discrete 0) s)))))).
Proof.
  intros Hup. unfold get_system_status. rewrite Hup.
  cbn [negb]. unfold bindM, time_time, gets.
  cbn [read_all_discrete discrete_inputs read_all_analog analog_inputs description].
  unfold bindM, ret.
  repeat rewrite PlcFacts.read_discrete_input_none.
  cbn iota beta.
  repeat (rewrite read_analog_input_none; cbn iota beta).
  reflexivity.
Qed.

(** X3. On a link marked connected [get_system_status] returns the
    four-entry document: the four discrete inputs and the two analog
    inputs are listed under their descriptions, each with the value
    [None], and [last_update] is the time of the call.  Six reads were
    attempted, in the order of the I/O map, and none was sent. *)
Theorem get_system_status_connected (s : plc) :
  is_connected s = true ->
  exists s',
    get_system_status s
    = (Return [ ("connection", VStr "connected");
                ("discrete_inputs",
                 VDiscrete [ ("Product Present Sensor", None);
                             ("System Ready", None);
                             ("Emergency Stop", None);
                             ("Marking Complete", None) ]);
                ("analog_inputs",
                 VAnalog [ ("Line Speed", None);
                           ("Print Quality Sensor", None) ]);
                ("last_update", VTime (clock s)) ], s')
    /\ journal s'
       = journal s ++ [ Read_discrete 0; Read_discrete 1; Read_discrete 2;
                        Read_discrete 3; Read_analog 0; Read_analog 1 ]
    /\ wire s' = wire s
    /\ io_count s' = io_count s.
Proof.
  intros Hup. eexists. split; [ apply get_system_status_run; exact Hup | ].
  cbn. repeat rewrite <- app_assoc. repeat split.
Qed.

Lemma get_system_status_connected_witness :
  is_connected connected_plc = true
  /\ exists s',
       fst (get_system_status connected_plc)
       = Return [ ("connection", VStr "connected");
                  ("discrete_inputs",
                   VDiscrete [ ("Product Present Sensor", None);
                               ("System Ready", None);
                               ("Emergency Stop", None);
                               ("Marking Complete", None) ]);
                  ("analog_inputs",
                   VAnalog [ ("Line Speed", None);
                             ("Print Quality Sensor", None) ]);
                  ("last_update", VTime 0%N) ]
       /\ snd (get_system_status connected_plc) = s'
       /\ wire s' = [].
Proof.
  split; [ reflexivity | ].
  destruct (get_system_status_connected connected_plc eq_refl)
    as (s' & Hrun & _ & Hwire & _).
  exists s'. rewrite Hrun. repeat split. exact Hwire.
Defined.

(** ** The polling loop of the marking sequence *)

Lemma await_complete_step (timeout : N) (s : plc) :
  await_complete timeout s
  = if (clock s <? timeout)%N then
      match read_discrete_input 3 s with
      | (Raise e, s1) => (Raise e, s1)
      | (Return marking_complete, s1) =>
          if truthy marking_complete then (Return true, s1)
          else await_complete timeout (advance 100 s1)
      end
    else (Return false, s).
Proof.
  funelim (await_complete timeout s).
  all: clear Heqcall.
  all: repeat match goal with H : sigmaI _ _ _ = _ |- _ => clear H end.
  all: repeat match goal with
              | H : (clock _ <? _)%N = _ |- _ => rewrite H; clear H
              | H : read_discrete_input _ _ = _ |- _ => rewrite H; clear H
              | H : truthy _ = _ |- _ => rewrite H; clear H
              end.
  all: reflexivity.
Qed.

(** One round of the loop: the read is entered, then the sleep. *)
Definition poll (s : plc) : plc := advance 100 (note (Read_discrete 3) s).

Lemma await_complete_polls (n : nat) (s : plc) :
  await_complete (clock s + 100 * N.of_nat n) s = (Return false, Nat.iter n poll s).
Proof.
  revert s. induction n as [|n IH]; intros s; rewrite await_complete_step.
  - replace (clock s <? clock s + 100 * N.of_nat 0)%N with false
      by (symmetry; apply N.ltb_ge; lia).
    reflexivity.
  - replace (clock s <? clock s + 100 * N.of_nat (S n))%N with true
      by (symmetry; apply N.ltb_lt; lia).
    rewrite PlcFacts.read_discrete_input_none. cbn [truthy].
    change (advance 100 (note (Read_discrete 3) s)) with (poll s).
    replace (clock s + 100 * N.of_nat (S n))%N
      with (clock (poll s) + 100 * N.of_nat n)%N by (cbn [poll advance note clock]; lia).
    rewrite IH. rewrite Nat.iter_succ_r. reflexivity.
Qed.

Lemma polls_state (n : nat) (s : plc) :
  clock (Nat.iter n poll s) = (clock s + 100 * N.of_nat n)%N
  /\ journal (Nat.iter n poll s) = journal s ++ repeat (Read_discrete 3) n
  /\ wire (Nat.iter n poll s) = wire s
  /\ io_count (Nat.iter n poll s) = io_count s.
Proof.
  induction n as [|n (Hc & Hj & Hw & Hi)].
  - cbn. rewrite app_nil_r. repeat split. lia.
  - change (Nat.iter (S n) poll s) with (poll (Nat.iter n poll s)).
    set (t := Nat.iter n poll s) in *.
    unfold poll. cbn [advance note clock journal wire io_count].
    split; [ rewrite Hc; lia | ].
    split; [ | split; assumption ].
    rewrite Hj, <- app_assoc. f_equal. symmetry. apply repeat_cons.
Qed.

(** X4. The polling loop of [execute_marking_sequence], entered with
    its ten-second deadline, is left by the deadline and never by
    [break]: every poll of the marking-complete input fails without a
    socket call, so on a clock that only the sleeps move the loop polls
    one hundred times, 100 ms apart, ends 10 s after it was entered,
    and sends nothing. *)
Theorem await_complete_times_out (s : plc) :
  exists s',
    await_complete (clock s + 10000) s = (Return false, s')
    /\ clock s' = (clock s + 10000)%N
    /\ journal s' = journal s ++ repeat (Read_discrete 3) 100
    /\ wire s' = wire s
    /\ io_count s' = io_count s.
Proof.
  exists (Nat.iter 100 poll s).
  destruct (polls_state 100 s) as (Hc & Hj & Hw & Hi).
  split; [ exact (await_complete_polls 100 s) | ].
  split; [ exact Hc | ]. split; [ exact Hj | ]. split; [ exact Hw | exact Hi ].
Qed.

(** ** Connecting and disconnecting *)

Lemma string_eqb_false (a b : string) : a <> b -> String.eqb a b = false.
Proof. intros H. apply String.eqb_neq. exact H. Qed.

(** X5. Over the serial protocol [connect] marks the link connected
    without creating a socket, and [disconnect], which acts only when
    there is a socket, then leaves it marked connected: a [with] block
    around any body that keeps the two attributes ends with
    [is_connected] still true. *)
Theorem rtu_link_stays_connected (net : network) (ep : endpoint) (s : plc) :
  protocol (cfg s) = MODBUS_RTU ->
  connection s = None ->
  connect net ep s = (Return true, set_is_connected true s)
  /\ disconnect (set_is_connected true s) = (Return tt, set_is_connected true s)
  /\ (forall (A : Type) (body : M A),
         connection (snd (body (set_is_connected true s))) = None ->
         is_connected (snd (body (set_is_connected true s))) = true ->
         is_connected (snd (with_statement net ep body s)) = true).
Proof.
  intros Hp Hc.
  assert (Hconnect : connect net ep s = (Return true, set_is_connected true s)).
  { unfold connect, try_except. rewrite Hp. reflexivity. }
  split; [ exact Hconnect | ].
  split.
  - unfold disconnect. cbn. rewrite Hc. reflexivity.
  - intros A body Hbc Hbi.
    unfold with_statement, __enter__, __exit__, bindM, ret. rewrite Hconnect.
    destruct (body (set_is_connected true s)) as [r s2]. cbn [snd] in *.
    unfold disconnect. rewrite Hbc. exact Hbi.
Qed.

Lemma rtu_link_stays_connected_witness :
  protocol (cfg rtu_plc) = MODBUS_RTU
  /\ connection rtu_plc = None
  /\ fst (connect empty_network sample_endpoint rtu_plc) = Return true
  /\ is_connected
       (snd (with_statement empty_network sample_endpoint get_system_status rtu_plc))
     = true.
Proof.
  destruct (rtu_link_stays_connected empty_network sample_endpoint rtu_plc
              eq_refl eq_refl) as (Hconnect & _ & Hwith).
  split; [ reflexivity | ]. split; [ reflexivity | ].
  split; [ rewrite Hconnect; reflexivity | ].
  apply Hwith; reflexivity.
Defined.

(** X6. [connect] on a configuration whose protocol is neither
    "modbus_tcp" nor "modbus_rtu" (the third member of
    [PLCConnectionType], "ethernet_ip", is one) returns [False] and
    leaves the interface as it was. *)
Theorem connect_rejects_other_protocols (net : network) (ep : endpoint) (s : plc) :
  protocol (cfg s) <> MODBUS_TCP ->
  protocol (cfg s) <> MODBUS_RTU ->
  connect net ep s = (Return false, s).
Proof.
  intros Htcp Hrtu. unfold connect, try_except.
  rewrite (string_eqb_false _ _ Htcp), (string_eqb_false _ _ Hrtu). reflexivity.
Qed.

Lemma connect_rejects_other_protocols_witness :
  protocol (cfg ethernet_ip_plc) = ETHERNET_IP
  /\ connect plant_network sample_endpoint ethernet_ip_plc
     = (Return false, ethernet_ip_plc).
Proof.
  split; [ reflexivity | ].
  apply (connect_rejects_other_protocols plant_network sample_endpoint ethernet_ip_plc);
    intros H; discriminate H.
Defined.

Definition port_of (ep : endpoint) : Z :=
  match port ep with Some p => p | None => 502 end.

Lemma connect_modbus_tcp_run (net : network) (ep : endpoint) (s : plc) :
  protocol (cfg s) = MODBUS_TCP ->
  connect net ep s
  = match host ep with
    | Some h =>
        match net h (port_of ep) with
        | Some p => (Return true, set_is_connected true (set_connection (Some p) s))
        | None => (Return false, set_connection (Some unconnected_socket) s)
        end
    | None => (Return false, set_connection (Some unconnected_socket) s)
    end.
Proof.
  intros Hp. unfold connect, try_except. rewrite Hp. cbn [String.eqb Ascii.eqb Bool.eqb MODBUS_TCP].
  change (String.eqb "modbus_tcp" "modbus_tcp") with true. cbn iota.
  unfold _connect_modbus_tcp, except_socket_error, bindM, modify, lift, ret,
    socket_connect, subscript, port_of.
  destruct (host ep) as [h|]; [ | reflexivity ].
  destruct (net h _) as [p|]; reflexivity.
Qed.

(** X7. Over Modbus TCP [connect] never raises.  It returns [True]
    exactly when the configuration names a host and the connection to it
    (at the configured port, 502 by default) is made, and the link is
    then marked connected on that socket.  When it returns [False] the
    [is_connected] mark is left as it was, even if it was set, while
    [self.connection] is a new socket that is not connected. *)
Theorem connect_modbus_tcp_outcome (net : network) (ep : endpoint) (s : plc) :
  protocol (cfg s) = MODBUS_TCP ->
  (fst (connect net ep s) = Return true
   /\ is_connected (snd (connect net ep s)) = true
   /\ exists h p, host ep = Some h /\ net h (port_of ep) = Some p
                  /\ connection (snd (connect net ep s)) = Some p)
  \/ (fst (connect net ep s) = Return false
      /\ is_connected (snd (connect net ep s)) = is_connected s
      /\ connection (snd (connect net ep s)) = Some unconnected_socket
      /\ (host ep = None
          \/ exists h, host ep = Some h /\ net h (port_of ep) = None)).
Proof.
  intros Hp. rewrite (connect_modbus_tcp_run net ep s Hp).
  destruct (host ep) as [h|] eqn:Hh.
  - destruct (net h (port_of ep)) as [p|] eqn:Hn.
    + left. repeat split. exists h, p. repeat split. exact Hn.
    + right. repeat split. right. exists h. split; [ reflexivity | exact Hn ].
  - right. repeat split. left. reflexivity.
Qed.

Lemma connect_modbus_tcp_outcome_witness :
  protocol (cfg fresh_plc) = MODBUS_TCP
  /\ fst (connect plant_network sample_endpoint fresh_plc) = Return true
  /\ fst (connect empty_network sample_endpoint connected_plc) = Return false
  /\ is_connected (snd (connect empty_network sample_endpoint connected_plc)) = true.
Proof.
  split; [ reflexivity | ].
  split.
  - destruct (connect_modbus_tcp_outcome plant_network sample_endpoint fresh_plc eq_refl)
      as [(Hr & _)|(_ & _ & _ & [Hh|(h & Hh & Hn)])].
    + exact Hr.
    + discriminate Hh.
    + injection Hh as <-. discriminate Hn.
  - split; reflexivity.
Defined.

(** X8. [disconnect] on an interface that holds a socket marks the
    link down; [get_system_status] then answers with the one-entry
    "disconnected" document without attempting a read, and a second
    [disconnect] changes nothing more. *)
Theorem disconnect_then_status (s : plc) (p : peer) :
  connection s = Some p ->
  is_connected (snd (disconnect s)) = false
  /\ get_system_status (snd (disconnect s))
     = (Return [("status", VStr "disconnected")], snd (disconnect s))
  /\ journal (snd (disconnect s)) = journal s
  /\ disconnect (snd (disconnect s)) = (Return tt, snd (disconnect s)).
Proof.
  intros Hc.
  assert (E : disconnect s
              = (Return tt,
                 set_is_connected false (set_connection (Some unconnected_socket) s)))
    by (unfold disconnect; rewrite Hc; reflexivity).
  rewrite E. cbn [snd]. repeat split.
Qed.

Lemma disconnect_then_status_witness :
  connection connected_plc = Some willing_peer
  /\ is_connected (snd (disconnect connected_plc)) = false
  /\ fst (get_system_status (snd (disconnect connected_plc)))
     = Return [("status", VStr "disconnected")].
Proof.
  destruct (disconnect_then_status connected_plc willing_peer eq_refl)
    as (Hdown & Hstatus & _).
  split; [ reflexivity | ]. split; [ exact Hdown | ].
  rewrite Hstatus. reflexivity.
Defined.

(** ** The periodic health check of main.py *)

Lemma connected_status_not_disconnected (s : plc) :
  is_connected s = true ->
  reports_disconnected
    (match fst (get_system_status s) with Return d => d | Raise _ => [] end) = false.
Proof.
  intros Hup. rewrite (get_system_status_run s Hup). reflexivity.
Qed.

(** X9. [_periodic_health_check] never reconnects: it consults
    [get_system_status] only when the link is marked connected, and the
    document returned then has no "status" entry, so the branch that
    calls [connect] is not taken.  Whatever the network, the check ends
    in the state the snapshot left, with the same socket and the same
    mark. *)
Theorem periodic_health_check_never_reconnects
    (net : network) (ep : endpoint) (s : plc) :
  fst (_periodic_health_check net ep s) = Return tt
  /\ snd (_periodic_health_check net ep s)
     = (if is_connected s then snd (get_system_status s) else s)
  /\ connection (snd (_periodic_health_check net ep s)) = connection s
  /\ is_connected (snd (_periodic_health_check net ep s)) = is_connected s.
Proof.
  unfold _periodic_health_check.
  destruct (is_connected s) eqn:Hup; [ | cbn; repeat split; exact Hup ].
  unfold try_except, bindM. rewrite (get_system_status_run s Hup).
  cbn. repeat split. exact Hup.
Qed.

End PlcMore.
(** * Further properties of the message server *)

Module ServerMore.

Import Json Server Lifecycle.
Import ServerFacts.

(** ** The marking handler *)

Definition is_float (v : json) : bool :=
  match v with JFloat _ => true | _ => false end.

(** X10. A marking request whose product data carries a serial number
    that is true (a non-empty text, a non-zero integer, ...) is answered
    with a marking response under the id "response_" r: it reports
    success, names the mark after the whole seconds of the clock and
    returns the product data as received.  The completed-marks counter
    goes up by exactly one; the error counter, the connections and the
    fieldbus master are left alone.  (A serial number that is a float
    is left out: [truth] does not decide a literal that underflows.) *)
Theorem marking_request_counts_one_mark (m : NetworkMessage) (w : world)
    (entries product_data : list (str * json)) (serial_number : json) :
  payload m = JDict entries ->
  dict_get (text "product_data") entries = Some (JDict product_data) ->
  dict_get (text "serial_number") product_data = Some serial_number ->
  truth serial_number = true ->
  is_float serial_number = false ->
  exists resp w',
    _handle_marking_request m w = (Return (Some resp), w')
    /\ message_id resp = text "response_" ++ message_id m
    /\ message_type resp = text "marking_response"
    /\ payload resp
       = JDict [ (text "success", JBool true);
                 (text "mark_id",
                  JStr (text "mark_" ++ int_repr (epoch (time w) (readings w))));
                 (text "completion_time",
                  JStr (isoformat (time w) (S (readings w))));
                 (text "product_data", JDict product_data) ]
    /\ marks_completed (system_status w') = marks_completed (system_status w) + 1
    /\ error_count (system_status w') = error_count (system_status w)
    /\ clients w' = clients w
    /\ plc_interface w' = plc_interface w.
Proof.
  intros Hp Hpd Hsn Htruth _.
  unfold _handle_marking_request, try_except, bindM, lift.
  rewrite Hp. cbn [py_get]. rewrite Hpd. cbn [py_get]. rewrite Hsn, Htruth.
  cbn. eexists. eexists. repeat split.
Qed.

Lemma marking_request_counts_one_mark_witness :
  exists resp w',
    _handle_marking_request
      (sample_message "marking_request"
         (JDict [(text "product_data",
                  JDict [(text "serial_number", JStr (text "AUTO2024001"))])]))
      (world_with one_client)
    = (Return (Some resp), w')
    /\ message_id resp = text "response_req1"
    /\ marks_completed (system_status w') = 1.
Proof.
  destruct (marking_request_counts_one_mark
              (sample_message "marking_request"
                 (JDict [(text "product_data",
                          JDict [(text "serial_number", JStr (text "AUTO2024001"))])]))
              (world_with one_client)
              [(text "product_data",
                JDict [(text "serial_number", JStr (text "AUTO2024001"))])]
              [(text "serial_number", JStr (text "AUTO2024001"))]
              (JStr (text "AUTO2024001"))
              eq_refl eq_refl eq_refl eq_refl eq_refl)
    as (resp & w' & Hrun & Hid & _ & _ & Hmarks & _).
  exists resp, w'. split; [ exact Hrun | ]. split; [ exact Hid | exact Hmarks ].
Defined.

(** X11. A serial number that is present but false (an empty text,
    zero, [false], [null], an empty list or dictionary) is treated as
    missing: the request is answered with the validation error under
    the id "error_" r and no mark is counted. *)
Theorem falsy_serial_number_is_missing (m : NetworkMessage) (w : world)
    (entries product_data : list (str * json)) (serial_number : json) :
  payload m = JDict entries ->
  dict_get (text "product_data") entries = Some (JDict product_data) ->
  dict_get (text "serial_number") product_data = Some serial_number ->
  truth serial_number = false ->
  exists resp,
    _handle_marking_request m w = (Return (Some resp), read_clock w)
    /\ message_id resp = text "error_" ++ message_id m
    /\ message_type resp = text "error_response"
    /\ payload resp = validation_error.
Proof.
  intros Hp Hpd Hsn Htruth.
  unfold _handle_marking_request, try_except, bindM, lift.
  rewrite Hp. cbn [py_get]. rewrite Hpd. cbn [py_get]. rewrite Hsn, Htruth.
  cbn. eexists. repeat split.
Qed.

Lemma falsy_serial_number_is_missing_witness :
  truth (JInt 0) = false
  /\ exists resp,
       _handle_marking_request
         (sample_message "marking_request"
            (JDict [(text "product_data", JDict [(text "serial_number", JInt 0)])]))
         (world_with one_client)
       = (Return (Some resp), read_clock (world_with one_client))
       /\ message_id resp = text "error_req1"
       /\ payload resp = validation_error.
Proof.
  split; [ reflexivity | ].
  destruct (falsy_serial_number_is_missing
              (sample_message "marking_request"
                 (JDict [(text "product_data", JDict [(text "serial_number", JInt 0)])]))
              (world_with one_client)
              [(text "product_data", JDict [(text "serial_number", JInt 0)])]
              [(text "serial_number", JInt 0)]
              (JInt 0) eq_refl eq_refl eq_refl eq_refl)
    as (resp & Hrun & Hid & _ & Hpay).
  exists resp. split; [ exact Hrun | ]. split; [ exact Hid | exact Hpay ].
Defined.

(** ** System commands *)

(** [message.payload.get("command")] on a dictionary payload. *)
Definition command_of (entries : list (str * json)) : json :=
  match dict_get (text "command") entries with
  | Some c => c
  | None => JNull
  end.

Lemma shutdown_is_not_reset (c : json) :
  is_text "shutdown" c = true -> is_text "reset_statistics" c = false.
Proof.
  destruct c; cbn [is_text]; try discriminate.
  intros H. apply text_eqb_eq in H. subst s. reflexivity.
Qed.

(** X12. Every system command with a dictionary payload is
    acknowledged as successful under the id "response_" r, with the
    command echoed ([null] when there is none), whether or not the
    command is one the server knows.  Only "reset_statistics" touches
    the status, setting both counters to zero; only "shutdown" schedules
    a stop, and the server is still running when the handler returns. *)
Theorem system_command_always_succeeds
    (m : NetworkMessage) (w : world) (entries : list (str * json)) :
  payload m = JDict entries ->
  exists resp w',
    _handle_system_command m w = (Return (Some resp), w')
    /\ message_id resp = text "response_" ++ message_id m
    /\ message_type resp = text "command_response"
    /\ payload resp = JDict [ (text "success", JBool true);
                              (text "command", command_of entries) ]
    /\ is_running w' = is_running w
    /\ clients w' = clients w
    /\ stop_timers w'
       = (if is_text "shutdown" (command_of entries)
          then S (stop_timers w) else stop_timers w)
    /\ system_status w'
       = (if is_text "reset_statistics" (command_of entries)
          then reset_statistics (system_status w) else system_status w).
Proof.
  intros Hp.
  unfold _handle_system_command, bindM, lift. rewrite Hp. cbn [py_get].
  fold (command_of entries).
  destruct (is_text "shutdown" (command_of entries)) eqn:Hs.
  - rewrite (shutdown_is_not_reset _ Hs). cbn. eexists. eexists. repeat split.
  - destruct (is_text "reset_statistics" (command_of entries));
      cbn; eexists; eexists; repeat split.
Qed.

Lemma system_command_always_succeeds_witness :
  exists resp w',
    _handle_system_command
      (sample_message "system_command" (JDict [(text "command", JStr (text "self_destruct"))]))
      (world_with one_client)
    = (Return (Some resp), w')
    /\ message_id resp = text "response_req1"
    /\ payload resp = JDict [ (text "success", JBool true);
                              (text "command", JStr (text "self_destruct")) ]
    /\ system_status w' = initial_status.
Proof.
  destruct (system_command_always_succeeds
              (sample_message "system_command"
                 (JDict [(text "command", JStr (text "self_destruct"))]))
              (world_with one_client)
              [(text "command", JStr (text "self_destruct"))] eq_refl)
    as (resp & w' & Hrun & Hid & _ & Hpay & _ & _ & _ & Hst).
  exists resp, w'. repeat split; assumption.
Defined.

Definition command_with_list_payload : str :=
  wire_text "{'message_id': 'req1', 'timestamp': 'T', 'message_type': 'system_command', 'payload': ['shutdown']}".

(** X13. A system command whose payload is not a dictionary is left
    without any response: the handler raises on [payload.get], the
    error is logged as a processing error, and neither the connections
    nor the status change. *)
Theorem system_command_needs_dictionary
    (w0 : world) (srv : MarkingSystemTCPServer) (line cid : str) (m : NetworkMessage) :
  message_handlers srv = message_handlers (new_server w0) ->
  decode line = Envelope m ->
  message_type m = text "system_command" ->
  is_dict (payload m) = false ->
  exists srv',
    _process_message line cid srv = Some srv'
    /\ clients (self srv') = clients (self srv)
    /\ system_status (self srv') = system_status (self srv)
    /\ log (self srv')
       = log (self srv)
         ++ [ Received_message (text "system_command") cid;
              Processing_error cid (AttributeError (type_name (payload m)) "get") ].
Proof.
  intros Hreg Hdec Hty Hnd.
  unfold _process_message. rewrite Hdec.
  cbn [message_type with_client_id message_id payload].
  rewrite Hreg, Hty.
  change (dict_get (text "system_command") (message_handlers (new_server w0)))
    with (Some _handle_system_command).
  unfold try_except, bindM, logger, modify, _handle_system_command, lift.
  cbn [payload with_client_id].
  destruct (payload m); try discriminate Hnd;
    cbn; eexists; repeat split.
  all: cbn; rewrite <- app_assoc; reflexivity.
Qed.

Lemma system_command_needs_dictionary_witness :
  decode command_with_list_payload
  = Envelope (sample_message "system_command" (JList [JStr (text "shutdown")]))
  /\ exists srv',
       _process_message command_with_list_payload (text "client_1_5001")
         (new_server (world_with one_client)) = Some srv'
       /\ clients (self srv') = one_client
       /\ stop_timers (self srv') = 0%nat.
Proof.
  assert (Hdec : decode command_with_list_payload
                 = Envelope (sample_message "system_command"
                               (JList [JStr (text "shutdown")])))
    by (vm_compute; reflexivity).
  split; [ exact Hdec | ].
  destruct (system_command_needs_dictionary (world_with one_client)
              (new_server (world_with one_client)) command_with_list_payload
              (text "client_1_5001") _ eq_refl Hdec eq_refl eq_refl)
    as (srv' & Hrun & Hclients & _).
  exists srv'. split; [ exact Hrun | ]. split; [ exact Hclients | ].
  vm_compute in Hrun. injection Hrun as <-. reflexivity.
Defined.

(** ** Configuration updates *)

(** X14. A configuration update is answered but never applied: the
    handler returns a response for every message, and the status, the
    connections, the running flag, the pending stops and the fieldbus
    master are as before; only the log and the clock reading move.
    When the payload is a dictionary whose "configuration" entry is a
    dictionary, the response reports success and the log names the keys
    received. *)
Theorem configuration_update_is_not_applied (m : NetworkMessage) (w : world) :
  exists resp w',
    _handle_configuration_update m w = (Return (Some resp), w')
    /\ system_status w' = system_status w
    /\ clients w' = clients w
    /\ is_running w' = is_running w
    /\ stop_timers w' = stop_timers w
    /\ plc_interface w' = plc_interface w
    /\ (forall config,
           py_get (payload m) "configuration" (JDict []) = Return (JDict config) ->
           message_id resp = text "response_" ++ message_id m
           /\ payload resp = JDict [ (text "success", JBool true);
                                     (text "message", JStr (text "Configuration updated")) ]
           /\ log w' = log w ++ [Configuration_update (List.map fst config)]).
Proof.
  unfold _handle_configuration_update, try_except, bindM, lift, logger, modify.
  destruct (py_get (payload m) "configuration" (JDict [])) as [config_data|e].
  - destruct config_data;
      cbn; eexists; eexists; do 6 (split; [ reflexivity | ]);
      intros config Hc; try discriminate Hc.
    injection Hc as <-. repeat split.
  - cbn. eexists. eexists. do 6 (split; [ reflexivity | ]).
    intros config Hc. discriminate Hc.
Qed.

(** ** Responses that cannot be written *)

Lemma distinct_keys_set {V} (k : str) (v : V) (d : list (str * V)) :
  distinct_keys d = true -> distinct_keys (dict_set k v d) = true.
Proof.
  induction d as [|[k0 v0] d IH]; cbn; intros Hd; [ reflexivity | ].
  destruct (dict_get k0 d) eqn:Hk0; [ discriminate | ].
  destruct (Text.eqb k0 k) eqn:E; cbn.
  - rewrite Hk0. exact Hd.
  - rewrite dict_get_set_other, Hk0; [ apply IH; exact Hd | ].
    intros ->. rewrite text_eqb_refl in E. discriminate.
Qed.

Lemma send_response_refused (cid : str) (resp : NetworkMessage)
    (info : client_info) (w : world) :
  dict_get cid (clients w) = Some info ->
  accepts_send info = false ->
  _send_response cid resp w
  = (Return tt,
     logged (Client_disconnected cid)
       (set_clients
          (dict_del cid
             (dict_set cid
                (with_socket (snd (socket_send (encode resp) (socket info))) info)
                (clients w)))
          (logged (Send_failed cid SocketError) w))).
Proof.
  intros Hget Ha. unfold _send_response, try_except. rewrite Hget.
  rewrite (socket_send_refused (encode resp) info Ha).
  unfold bindM, logger, modify, _disconnect_client.
  cbn [clients logged set_clients]. rewrite dict_get_set_same. reflexivity.
Qed.

Lemma send_response_untracked (cid : str) (resp : NetworkMessage) (w : world) :
  dict_get cid (clients w) = None -> _send_response cid resp w = (Return tt, w).
Proof.
  intros Hget. unfold _send_response, try_except. rewrite Hget. reflexivity.
Qed.

(** X15. [_send_response] never raises.  When the write to the
    client's socket fails, that client, and no other, is removed from
    the tracked connections, and the log records the failed send and the
    disconnection; the status is untouched.  For a client that is not
    tracked nothing happens at all. *)
Theorem failed_response_disconnects :
  (forall (cid : str) (resp : NetworkMessage) (info : client_info) (w : world),
      distinct_keys (clients w) = true ->
      dict_get cid (clients w) = Some info ->
      accepts_send info = false ->
      fst (_send_response cid resp w) = Return tt
      /\ dict_get cid (clients (snd (_send_response cid resp w))) = None
      /\ (forall other, other <> cid ->
                        dict_get other (clients (snd (_send_response cid resp w)))
                        = dict_get other (clients w))
      /\ log (snd (_send_response cid resp w))
         = log w ++ [Send_failed cid SocketError; Client_disconnected cid]
      /\ system_status (snd (_send_response cid resp w)) = system_status w)
  /\ (forall (cid : str) (resp : NetworkMessage) (w : world),
         dict_get cid (clients w) = None ->
         _send_response cid resp w = (Return tt, w)).
Proof.
  split; [ | exact send_response_untracked ].
  intros cid resp info w Hd Hget Ha.
  rewrite (send_response_refused cid resp info w Hget Ha).
  cbn [fst snd clients logged set_clients log system_status].
  split; [ reflexivity | ].
  split; [ apply dict_get_del_same, distinct_keys_set; exact Hd | ].
  split.
  - intros other Hne.
    rewrite dict_get_del_other, dict_get_set_other by congruence. reflexivity.
  - split; [ rewrite <- app_assoc; reflexivity | reflexivity ].
Qed.

Lemma failed_response_disconnects_witness :
  distinct_keys three_clients = true
  /\ accepts_send (client_on broken_socket 5002) = false
  /\ List.map fst
       (clients (snd (_send_response (text "client_1_5002")
                        (sample_message "heartbeat_response" (JDict []))
                        (world_with three_clients))))
     = [text "client_1_5001"; text "client_1_5003"]
  /\ dict_get (text "client_1_5002")
       (clients (snd (_send_response (text "client_1_5002")
                        (sample_message "heartbeat_response" (JDict []))
                        (world_with three_clients))))
     = None.
Proof.
  split; [ reflexivity | ]. split; [ reflexivity | ].
  split; [ vm_compute; reflexivity | ].
  exact (proj1 (proj2 (proj1 failed_response_disconnects (text "client_1_5002")
                         (sample_message "heartbeat_response" (JDict []))
                         (client_on broken_socket 5002) (world_with three_clients)
                         eq_refl eq_refl eq_refl))).
Defined.

(** ** What the server never records *)

(** The fields of the status no request can move, and the error
    counter, which can only go back to zero. *)
Definition unreported (w w' : world) : Prop :=
  controller_status (system_status w') = controller_status (system_status w)
  /\ hardware_connected (system_status w') = hardware_connected (system_status w)
  /\ (error_count (system_status w') = error_count (system_status w)
      \/ error_count (system_status w') = 0).

Lemma unreported_refl (w w' : world) :
  system_status w' = system_status w -> unreported w w'.
Proof. intros E. unfold unreported. rewrite E. auto. Qed.

Lemma unreported_trans (a b c : world) :
  unreported a b -> unreported b c -> unreported a c.
Proof.
  intros (H1 & H2 & H3) (K1 & K2 & K3). unfold unreported.
  rewrite K1, K2, H1, H2. repeat split.
  destruct K3 as [K3|K3]; [ rewrite K3; exact H3 | right; exact K3 ].
Qed.

Lemma builtin_handler_unreported (w0 : world) ty h (m : NetworkMessage) (w : world) :
  In (ty, h) (message_handlers (new_server w0)) ->
  unreported w (snd (h m w)).
Proof.
  intros Hin. apply builtin_handlers_are in Hin.
  destruct Hin as [E|[E|[E|[E|E]]]]; injection E as -> ->.
  - apply unreported_refl. reflexivity.
  - cbv [_handle_marking_request try_except bindM lift ret modify
         _create_error_response now_isoformat int_time].
    destruct (py_get (payload m) "product_data" (JDict [])) as [pd|e].
    + destruct (py_get pd "serial_number" JNull) as [serial|e].
      * destruct (truth serial); cbn; unfold unreported; cbn; auto.
      * apply unreported_refl. reflexivity.
    + apply unreported_refl. reflexivity.
  - cbv [_handle_configuration_update try_except bindM lift ret modify logger
         _create_error_response now_isoformat].
    destruct (py_get (payload m) "configuration" (JDict [])) as [config_data|e].
    + destruct (py_keys config_data) as [keys|e]; apply unreported_refl; reflexivity.
    + apply unreported_refl. reflexivity.
  - cbv [_handle_system_command bindM lift ret modify logger now_isoformat].
    destruct (py_get (payload m) "command" JNull) as [command|e];
      [ | apply unreported_refl; reflexivity ].
    destruct (is_text "shutdown" command);
      [ apply unreported_refl; reflexivity | ].
    destruct (is_text "reset_statistics" command);
      [ | apply unreported_refl; reflexivity ].
    cbn. unfold unreported. cbn. auto.
  - apply unreported_refl. reflexivity.
Qed.

Lemma disconnect_client_status (k : str) (w : world) :
  system_status (snd (_disconnect_client k w)) = system_status w.
Proof.
  unfold _disconnect_client. destruct (dict_get k (clients w)); reflexivity.
Qed.

Lemma send_response_status (cid : str) (resp : NetworkMessage) (w : world) :
  fst (_send_response cid resp w) = Return tt
  /\ system_status (snd (_send_response cid resp w)) = system_status w.
Proof.
  unfold _send_response, try_except.
  destruct (dict_get cid (clients w)) as [info|]; [ | split; reflexivity ].
  destruct (fst (socket_send (encode resp) (socket info))) as [[]|e].
  - split; reflexivity.
  - unfold bindM, logger, modify. cbn [fst snd].
    match goal with
    | |- context [_disconnect_client cid ?w1] =>
        pose proof (disconnect_client_clients cid w1) as (Hr & _);
        pose proof (disconnect_client_status cid w1) as Hs;
        destruct (_disconnect_client cid w1) as [r w2]
    end.
    cbn [fst snd] in *. subst r. split; [ reflexivity | exact Hs ].
Qed.

(** The body of the [try] block of [_process_message], after the
    envelope was built. *)
Definition dispatch (srv : MarkingSystemTCPServer) (cid : str)
    (message : NetworkMessage) : M unit :=
  bindM (logger (Received_message (message_type message) cid))
    (fun _ =>
       match dict_get (message_type message) (message_handlers srv) with
       | Some handler =>
           bindM (handler message)
             (fun response =>
                match response with
                | Some r => _send_response cid r
                | None => ret tt
                end)
       | None =>
           bindM (logger (No_handler (message_type message)))
             (fun _ =>
                bindM (_create_error_response (message_id message)
                         (text "Unknown message type: " ++ message_type message))
                  (fun error_response => _send_response cid error_response))
       end).

Lemma process_message_envelope (srv : MarkingSystemTCPServer)
    (line cid : str) (m : NetworkMessage) :
  decode line = Envelope m ->
  _process_message line cid srv
  = Some {| message_handlers := message_handlers srv;
            self := snd (try_except (dispatch srv cid (with_client_id cid m))
                           (fun e => logger (failure_entry cid e)) (self srv)) |}.
Proof. intros Hdec. unfold _process_message. rewrite Hdec. reflexivity. Qed.

Lemma dispatch_unreported (w0 : world) (srv : MarkingSystemTCPServer)
    (cid : str) (message : NetworkMessage) :
  message_handlers srv = message_handlers (new_server w0) ->
  unreported (self srv)
    (snd (try_except (dispatch srv cid message)
            (fun e => logger (failure_entry cid e)) (self srv))).
Proof.
  intros Hreg.
  unfold dispatch, try_except, bindM, logger, modify.
  set (w1 := logged (Received_message (message_type message) cid) (self srv)).
  assert (H1 : unreported (self srv) w1) by (apply unreported_refl; reflexivity).
  destruct (dict_get (message_type message) (message_handlers srv)) as [h|] eqn:Hh.
  - rewrite Hreg in Hh. pose proof (dict_get_in _ _ _ Hh) as Hin.
    pose proof (builtin_handler_unreported w0 _ h message w1 Hin) as H2.
    destruct (h message w1) as [[[resp|]|e] w2]; cbn [snd] in H2.
    + destruct (send_response_status cid resp w2) as [Hr Hs].
      destruct (_send_response cid resp w2) as [r w3]. cbn [fst snd] in Hr, Hs.
      subst r. cbn [snd].
      apply (unreported_trans _ w1); [ exact H1 | ].
      apply (unreported_trans _ w2); [ exact H2 | ].
      apply unreported_refl. exact Hs.
    + cbn. apply (unreported_trans _ w1); assumption.
    + cbn [snd]. apply (unreported_trans _ w1); [ exact H1 | ].
      apply (unreported_trans _ w2); [ exact H2 | ].
      apply unreported_refl. reflexivity.
  - rewrite create_error_response_run.
    match goal with
    | |- context [_send_response cid ?r ?w2] =>
        destruct (send_response_status cid r w2) as [Hr Hs];
        destruct (_send_response cid r w2) as [r3 w3]
    end.
    cbn [fst snd] in Hr, Hs. subst r3. cbn [snd].
    apply unreported_refl. rewrite Hs. reflexivity.
Qed.

Lemma process_message_unreported (w0 : world) (srv srv' : MarkingSystemTCPServer)
    (line cid : str) :
  message_handlers srv = message_handlers (new_server w0) ->
  _process_message line cid srv = Some srv' ->
  message_handlers srv' = message_handlers srv
  /\ unreported (self srv) (self srv').
Proof.
  intros Hreg.
  destruct (decode line) as [m|e|] eqn:Hdec.
  - rewrite (process_message_envelope srv line cid m Hdec).
    intros H. injection H as <-. split; [ reflexivity | ].
    apply (dispatch_unreported w0 srv cid _ Hreg).
  - unfold _process_message. rewrite Hdec.
    intros H. injection H as <-.
    split; [ reflexivity | apply unreported_refl; reflexivity ].
  - unfold _process_message. rewrite Hdec. discriminate.
Qed.

Lemma process_buffer_unreported (w0 : world) (fuel : nat) :
  forall (buffer cid : str) (srv srv' : MarkingSystemTCPServer) (rest : str),
    message_handlers srv = message_handlers (new_server w0) ->
    process_buffer fuel buffer cid srv = Some (srv', rest) ->
    message_handlers srv' = message_handlers srv
    /\ unreported (self srv) (self srv').
Proof.
  induction fuel as [|fuel IH]; intros buffer cid srv srv' rest Hreg H; cbn in H.
  - injection H as <- <-. split; [ reflexivity | apply unreported_refl; reflexivity ].
  - destruct (split_once 10 buffer) as [[line buffer']|].
    + destruct (strip line) as [|c l] eqn:Hline.
      * apply (IH _ _ _ _ _ Hreg H).
      * destruct (_process_message (c :: l) cid srv) as [srv1|] eqn:Hp; [ | discriminate ].
        destruct (process_message_unreported w0 srv srv1 _ cid Hreg Hp) as [Hh1 Hu1].
        assert (Hreg1 : message_handlers srv1 = message_handlers (new_server w0))
          by (rewrite Hh1; exact Hreg).
        destruct (IH _ _ _ _ _ Hreg1 H) as [Hh2 Hu2].
        split; [ rewrite Hh2; exact Hh1 | apply (unreported_trans _ (self srv1)); assumption ].
    + injection H as <- <-. split; [ reflexivity | apply unreported_refl; reflexivity ].
Qed.

(** ** Framing *)

(** The number of complete lines in a buffer. *)
Definition lines_in (buffer : str) : nat :=
  List.length (filter (N.eqb 10) buffer).

Lemma lines_in_app (a b : str) : lines_in (a ++ b) = (lines_in a + lines_in b)%nat.
Proof. unfold lines_in. rewrite filter_app, length_app. reflexivity. Qed.

Lemma lines_in_length (b : str) : (lines_in b <= List.length b)%nat.
Proof. unfold lines_in. apply filter_length_le. Qed.

Lemma split_once_none (b : str) : split_once 10 b = None <-> lines_in b = 0%nat.
Proof.
  unfold lines_in. induction b as [|c b IH]; cbn [split_once filter List.length]; [ tauto | ].
  rewrite (N.eqb_sym 10 c).
  destruct (c =? 10)%N; cbn [List.length]; [ split; discriminate | ].
  destruct (split_once 10 b) as [[before after]|].
  - split; [ discriminate | ]. intros H. apply IH in H. discriminate.
  - split; [ intros _; apply IH; reflexivity | reflexivity ].
Qed.

Lemma split_once_some (b line rest : str) :
  split_once 10 b = Some (line, rest) ->
  b = line ++ 10%N :: rest /\ lines_in line = 0%nat /\ lines_in b = S (lines_in rest).
Proof.
  unfold lines_in. revert line.
  induction b as [|c b IH]; intros line; cbn [split_once filter List.length];
    [ discriminate | ].
  rewrite (N.eqb_sym 10 c).
  destruct (c =? 10)%N eqn:E.
  - intros H. injection H as <- <-. apply N.eqb_eq in E. subst c. repeat split.
  - destruct (split_once 10 b) as [[before after]|]; [ | discriminate ].
    intros H. injection H as <- <-.
    destruct (IH before eq_refl) as (Hb & Hl & Hn).
    cbn [filter app]. rewrite (N.eqb_sym 10 c), E.
    split; [ rewrite Hb at 1; reflexivity | ]. split; assumption.
Qed.

Lemma split_once_app (b d : str) :
  split_once 10 (b ++ d)
  = match split_once 10 b with
    | Some (line, rest) => Some (line, rest ++ d)
    | None =>
        match split_once 10 d with
        | Some (line, rest) => Some (b ++ line, rest)
        | None => None
        end
    end.
Proof.
  induction b as [|c b IH]; cbn.
  - destruct (split_once 10 d) as [[line rest]|]; reflexivity.
  - destruct (c =? 10)%N; [ reflexivity | ].
    rewrite IH.
    destruct (split_once 10 b) as [[line rest]|]; [ reflexivity | ].
    destruct (split_once 10 d) as [[line rest]|]; reflexivity.
Qed.

(** One step of the inner loop of [_handle_client]. *)
Definition line_step (line cid : str) (srv : MarkingSystemTCPServer)
  : option MarkingSystemTCPServer :=
  match strip line with
  | [] => Some srv
  | _ :: _ => _process_message (strip line) cid srv
  end.

Lemma process_buffer_step (fuel : nat) (buffer cid : str) (srv : MarkingSystemTCPServer) :
  process_buffer (S fuel) buffer cid srv
  = match split_once 10 buffer with
    | None => Some (srv, buffer)
    | Some (line, buffer') =>
        match line_step line cid srv with
        | Some srv' => process_buffer fuel buffer' cid srv'
        | None => None
        end
    end.
Proof.
  cbn [process_buffer]. unfold line_step.
  destruct (split_once 10 buffer) as [[line buffer']|]; [ | reflexivity ].
  destruct (strip line); reflexivity.
Qed.

Lemma process_buffer_fuel (f1 : nat) :
  forall (f2 : nat) (buffer cid : str) (srv : MarkingSystemTCPServer),
    (lines_in buffer <= f1)%nat -> (lines_in buffer <= f2)%nat ->
    process_buffer f1 buffer cid srv = process_buffer f2 buffer cid srv.
Proof.
  induction f1 as [|f1 IH]; intros f2 buffer cid srv H1 H2.
  - assert (Hn : split_once 10 buffer = None) by (apply split_once_none; lia).
    destruct f2 as [|f2]; [ reflexivity | ].
    rewrite process_buffer_step, Hn. reflexivity.
  - destruct f2 as [|f2].
    + assert (Hn : split_once 10 buffer = None) by (apply split_once_none; lia).
      rewrite process_buffer_step, Hn. reflexivity.
    + rewrite !process_buffer_step.
      destruct (split_once 10 buffer) as [[line buffer']|] eqn:Hs; [ | reflexivity ].
      destruct (split_once_some _ _ _ Hs) as (_ & _ & Hn).
      destruct (line_step line cid srv) as [srv'|]; [ | reflexivity ].
      apply IH; lia.
Qed.

(** The inner loop run until no complete line is left. *)
Definition process_all (buffer cid : str) (srv : MarkingSystemTCPServer)
  : option (MarkingSystemTCPServer * str) :=
  process_buffer (lines_in buffer) buffer cid srv.

Lemma receive_process_all (data buffer cid : str) (srv : MarkingSystemTCPServer) :
  receive data buffer cid srv = process_all (buffer ++ data) cid srv.
Proof.
  unfold receive, process_all. apply process_buffer_fuel; [ apply lines_in_length | lia ].
Qed.

Lemma process_all_step (buffer cid : str) (srv : MarkingSystemTCPServer) :
  process_all buffer cid srv
  = match split_once 10 buffer with
    | None => Some (srv, buffer)
    | Some (line, buffer') =>
        match line_step line cid srv with
        | Some srv' => process_all buffer' cid srv'
        | None => None
        end
    end.
Proof.
  unfold process_all.
  destruct (split_once 10 buffer) as [[line buffer']|] eqn:Hs.
  - destruct (split_once_some _ _ _ Hs) as (_ & _ & Hn).
    rewrite Hn, process_buffer_step, Hs. reflexivity.
  - apply split_once_none in Hs. rewrite Hs. reflexivity.
Qed.

Lemma process_all_app (n : nat) :
  forall (buffer more cid : str) (srv : MarkingSystemTCPServer),
    lines_in buffer = n ->
    process_all (buffer ++ more) cid srv
    = match process_all buffer cid srv with
      | Some (srv1, rest) => process_all (rest ++ more) cid srv1
      | None => None
      end.
Proof.
  induction n as [|n IH]; intros buffer more cid srv Hn.
  - rewrite (process_all_step buffer).
    apply split_once_none in Hn. rewrite Hn. reflexivity.
  - rewrite (process_all_step (buffer ++ more)), (process_all_step buffer).
    rewrite split_once_app.
    destruct (split_once 10 buffer) as [[line buffer']|] eqn:Hs.
    + destruct (split_once_some _ _ _ Hs) as (_ & _ & Hl).
      destruct (line_step line cid srv) as [srv'|]; [ | reflexivity ].
      apply IH. lia.
    + apply split_once_none in Hs. lia.
Qed.

(** X17. How the decoded text is cut into chunks does not matter to
    what is processed: receiving two chunks one after the other, the
    second on the buffer the first left, gives the same server state and
    the same remaining buffer as receiving them joined; and when the
    first stops on a line whose fields the embedding does not type, so
    does the joined one. *)
Theorem chunking_does_not_matter
    (first second buffer cid : str) (srv : MarkingSystemTCPServer) :
  receive (first ++ second) buffer cid srv
  = match receive first buffer cid srv with
    | Some (srv1, rest) => receive second rest cid srv1
    | None => None
    end.
Proof.
  rewrite !receive_process_all, app_assoc.
  rewrite (process_all_app (lines_in (buffer ++ first)) _ _ _ _ eq_refl).
  destruct (process_all (buffer ++ first) cid srv) as [[srv1 rest]|]; [ | reflexivity ].
  rewrite receive_process_all. reflexivity.
Qed.

Lemma process_all_rest (n : nat) :
  forall (buffer cid : str) (srv srv' : MarkingSystemTCPServer) (rest : str),
    lines_in buffer = n ->
    process_all buffer cid srv = Some (srv', rest) ->
    split_once 10 rest = None
    /\ exists consumed,
         buffer = consumed ++ rest
         /\ (consumed = [] \/ exists l, consumed = l ++ [10%N]).
Proof.
  induction n as [|n IH]; intros buffer cid srv srv' rest Hn H;
    rewrite process_all_step in H.
  - pose proof (proj2 (split_once_none buffer) Hn) as Hs. rewrite Hs in H.
    injection H as <- <-. split; [ exact Hs | ].
    exists []. split; [ reflexivity | left; reflexivity ].
  - destruct (split_once 10 buffer) as [[line buffer']|] eqn:Hs.
    + destruct (split_once_some _ _ _ Hs) as (Hb & _ & Hl).
      destruct (line_step line cid srv) as [srv1|]; [ | discriminate ].
      assert (Hn' : lines_in buffer' = n) by lia.
      destruct (IH _ _ _ _ _ Hn' H) as (Hrest & consumed & Hc & Hend).
      split; [ exact Hrest | ].
      exists (line ++ 10%N :: consumed). split.
      * rewrite Hb, Hc, <- app_assoc. reflexivity.
      * right. destruct Hend as [->|[l ->]].
        -- exists line. reflexivity.
        -- exists (line ++ 10%N :: l). rewrite <- app_assoc. reflexivity.
    + apply split_once_none in Hs. lia.
Qed.

(** X18. After data was received the buffer that is kept holds no
    newline: it is the part of the input after its last newline, and
    every complete line before it was taken.  Input without a newline is
    only stored: the server is unchanged and the buffer is the old
    buffer followed by the data. *)
Theorem receive_keeps_the_partial_line
    (data buffer cid rest : str) (srv srv' : MarkingSystemTCPServer) :
  receive data buffer cid srv = Some (srv', rest) ->
  split_once 10 rest = None
  /\ (exists consumed,
         buffer ++ data = consumed ++ rest
         /\ (consumed = [] \/ exists l, consumed = l ++ [10%N]))
  /\ (split_once 10 (buffer ++ data) = None -> srv' = srv /\ rest = buffer ++ data).
Proof.
  rewrite receive_process_all. intros H.
  destruct (process_all_rest _ _ _ _ _ _ eq_refl H) as (Hrest & Hcons).
  split; [ exact Hrest | ]. split; [ exact Hcons | ].
  intros Hnone. rewrite process_all_step, Hnone in H.
  injection H as <- <-. split; reflexivity.
Qed.

Lemma receive_keeps_the_partial_line_witness :
  exists srv',
    receive (heartbeat_line ++ [10%N] ++ garbled_line) [] (text "client_1_5001")
      (new_server (world_with one_client)) = Some (srv', garbled_line)
    /\ split_once 10 garbled_line = None.
Proof.
  assert (Hrun : exists srv',
             receive (heartbeat_line ++ [10%N] ++ garbled_line) [] (text "client_1_5001")
               (new_server (world_with one_client)) = Some (srv', garbled_line))
    by (eexists; vm_compute; reflexivity).
  destruct Hrun as [srv' Hrun]. exists srv'. split; [ exact Hrun | ].
  exact (proj1 (receive_keeps_the_partial_line _ _ _ _ _ _ Hrun)).
Defined.

(** The complete lines of a buffer, cut as the inner loop of
    [_handle_client] cuts them: [line, buffer = buffer.split('\n', 1)]
    while a newline is left. *)
Fixpoint complete_lines_fuel (fuel : nat) (buffer : str) : list str :=
  match fuel with
  | O => []
  | S fuel' =>
      match split_once 10 buffer with
      | Some (line, buffer') => line :: complete_lines_fuel fuel' buffer'
      | None => []
      end
  end.

Definition complete_lines (buffer : str) : list str :=
  complete_lines_fuel (lines_in buffer) buffer.

(** The lines the embedding follows: every line but an envelope with a
    value that is not a string in message_id, timestamp, message_type
    or client_id. *)
Definition typed (line : str) : Prop := decode (strip line) <> Untyped.

Lemma complete_lines_step (buffer : str) :
  complete_lines buffer
  = match split_once 10 buffer with
    | Some (line, buffer') => line :: complete_lines buffer'
    | None => []
    end.
Proof.
  unfold complete_lines.
  destruct (split_once 10 buffer) as [[line buffer']|] eqn:Hs.
  - destruct (split_once_some _ _ _ Hs) as (_ & _ & Hn).
    rewrite Hn. cbn [complete_lines_fuel]. rewrite Hs. reflexivity.
  - apply split_once_none in Hs. rewrite Hs. reflexivity.
Qed.

Lemma line_step_typed (line cid : str) (srv : MarkingSystemTCPServer) :
  typed line -> exists srv', line_step line cid srv = Some srv'.
Proof.
  unfold typed, line_step, _process_message. intros Hty.
  destruct (strip line) as [|c l]; [ eexists; reflexivity | ].
  destruct (decode (c :: l)); [ eexists; reflexivity | eexists; reflexivity | ].
  contradiction Hty. reflexivity.
Qed.

Lemma process_all_typed (n : nat) :
  forall (buffer cid : str) (srv : MarkingSystemTCPServer),
    lines_in buffer = n ->
    Forall typed (complete_lines buffer) ->
    exists srv' rest, process_all buffer cid srv = Some (srv', rest).
Proof.
  induction n as [|n IH]; intros buffer cid srv Hn Hall;
    rewrite process_all_step; rewrite complete_lines_step in Hall.
  - apply split_once_none in Hn. rewrite Hn. eexists. eexists. reflexivity.
  - destruct (split_once 10 buffer) as [[line buffer']|] eqn:Hs.
    + destruct (split_once_some _ _ _ Hs) as (_ & _ & Hl).
      inversion Hall as [|? ? Hline Hrest]; subst.
      destruct (line_step_typed line cid srv Hline) as [srv1 ->].
      apply IH; [ lia | exact Hrest ].
    + eexists. eexists. reflexivity.
Qed.

(** X16. The server with its built-in handlers never counts an error.
    Received data, with what the buffer held before it, is processed to
    its last complete line when none of its complete lines is an
    envelope with a value that is not a string in message_id, timestamp,
    message_type or client_id; lines that json.loads or the envelope
    constructor rejects are processed like the others.  And whenever
    received data is processed, the error counter afterwards is what it
    was or zero (a reset), and the controller status and the hardware
    flag are what they were, also when lines were rejected, handlers
    raised or responses could not be written.  Envelopes with a value of
    another type in those four fields are not covered. *)
Theorem errors_are_never_counted
    (w0 : world) (srv : MarkingSystemTCPServer) (data buffer cid : str) :
  message_handlers srv = message_handlers (new_server w0) ->
  (Forall typed (complete_lines (buffer ++ data)) ->
   exists srv' rest, receive data buffer cid srv = Some (srv', rest))
  /\ (forall (srv' : MarkingSystemTCPServer) (rest : str),
         receive data buffer cid srv = Some (srv', rest) ->
         controller_status (system_status (self srv'))
         = controller_status (system_status (self srv))
         /\ hardware_connected (system_status (self srv'))
            = hardware_connected (system_status (self srv))
         /\ (error_count (system_status (self srv'))
             = error_count (system_status (self srv))
             \/ error_count (system_status (self srv')) = 0)).
Proof.
  intros Hreg. split.
  - intros Hall. rewrite receive_process_all.
    apply (process_all_typed _ _ _ _ eq_refl Hall).
  - intros srv' rest H. unfold receive in H.
    exact (proj2 (process_buffer_unreported w0 _ _ _ _ _ _ Hreg H)).
Qed.

Lemma errors_are_never_counted_witness :
  Forall typed (complete_lines ([] ++ garbled_line ++ [10%N] ++ incomplete_line ++ [10%N]))
  /\ exists srv',
       receive (garbled_line ++ [10%N] ++ incomplete_line ++ [10%N]) []
         (text "client_1_5001") (new_server (world_with one_client)) = Some (srv', [])
       /\ List.length (log (self srv')) = 7%nat
       /\ error_count (system_status (self srv')) = 0.
Proof.
  assert (Hall : Forall typed
                   (complete_lines
                      ([] ++ garbled_line ++ [10%N] ++ incomplete_line ++ [10%N]))).
  { assert (Hlines : complete_lines
                       ([] ++ garbled_line ++ [10%N] ++ incomplete_line ++ [10%N])
                     = [garbled_line; incomplete_line])
      by (vm_compute; reflexivity).
    rewrite Hlines.
    repeat constructor; intros H; vm_compute in H; discriminate H. }
  split; [ exact Hall | ].
  destruct (errors_are_never_counted (world_with one_client)
              (new_server (world_with one_client))
              (garbled_line ++ [10%N] ++ incomplete_line ++ [10%N]) []
              (text "client_1_5001") eq_refl) as [Hdef Hkeep].
  destruct (Hdef Hall) as (srv' & rest & Hrun).
  assert (Hrest : rest = []).
  { vm_compute in Hrun. injection Hrun as _ <-. reflexivity. }
  subst rest. exists srv'. split; [ exact Hrun | ].
  split.
  - vm_compute in Hrun. injection Hrun as <-. reflexivity.
  - destruct (Hkeep srv' [] Hrun) as (_ & _ & [H|H]); exact H.
Defined.

(** ** Accepting connections *)

(** The identifier [start_server] gives a connection accepted at the
    whole second [t] from the peer port [port]. *)
Definition client_id_of (t port : Z) : str :=
  text "client_" ++ int_repr t ++ text "_" ++ int_repr port.

Lemma dict_set_length {V} (k : str) (v : V) (d : list (str * V)) :
  List.length (dict_set k v d)
  = match dict_get k d with
    | Some _ => List.length d
    | None => S (List.length d)
    end.
Proof.
  induction d as [|[k0 v0] d IH]; cbn; [ reflexivity | ].
  destruct (Text.eqb k0 k); cbn; [ reflexivity | ].
  rewrite IH. destruct (dict_get k d); reflexivity.
Qed.

Lemma accept_client_run (k : client_socket) (addr : str * Z) (w : world) :
  accept_client k addr w
  = (Return (client_id_of (epoch (time w) (readings w)) (snd addr)),
     set_clients
       (dict_set (client_id_of (epoch (time w) (readings w)) (snd addr))
          {| socket := k; address := addr;
             connected_at := isoformat (time w) (S (readings w));
             last_activity := epoch_repr (time w) (S (S (readings w))) |}
          (clients w))
       (read_clock (read_clock (read_clock w)))).
Proof. reflexivity. Qed.

(** X19. Connection identifiers are not unique: two connections
    accepted within the same whole second from the same peer port (of
    two hosts, say) are given the same identifier, and the entry of the
    second replaces that of the first, so that only one of the two
    connections is tracked afterwards, the second. *)
Theorem same_second_same_port_share_an_identifier
    (k1 k2 : client_socket) (host1 host2 : str) (port : Z) (w : world) :
  epoch (time w) (3 + readings w) = epoch (time w) (readings w) ->
  dict_get (client_id_of (epoch (time w) (readings w)) port) (clients w) = None ->
  exists client_id w1 w2 info,
    accept_client k1 (host1, port) w = (Return client_id, w1)
    /\ accept_client k2 (host2, port) w1 = (Return client_id, w2)
    /\ List.length (clients w1) = S (List.length (clients w))
    /\ List.length (clients w2) = S (List.length (clients w))
    /\ dict_get client_id (clients w2) = Some info
    /\ socket info = k2
    /\ address info = (host2, port).
Proof.
  intros Hsame Hfree.
  eexists. eexists. eexists. eexists.
  split; [ apply accept_client_run | ].
  rewrite accept_client_run.
  cbn [snd time readings set_clients read_clock clients].
  change (S (S (S (readings w)))) with (3 + readings w)%nat. rewrite Hsame.
  split; [ reflexivity | ].
  cbn [set_clients clients].
  split; [ rewrite dict_set_length, Hfree; reflexivity | ].
  split; [ rewrite !dict_set_length, dict_get_set_same, Hfree; reflexivity | ].
  split; [ apply dict_get_set_same | ].
  split; reflexivity.
Qed.

Lemma same_second_same_port_share_an_identifier_witness :
  exists client_id w1 w2 info,
    accept_client healthy_socket (text "10.0.0.7", 5001) (world_with []) = (Return client_id, w1)
    /\ accept_client broken_socket (text "10.0.0.8", 5001) w1 = (Return client_id, w2)
    /\ List.length (clients w2) = 1%nat
    /\ dict_get client_id (clients w2) = Some info
    /\ address info = (text "10.0.0.8", 5001).
Proof.
  assert (Hsame : epoch (time (world_with [])) (3 + readings (world_with []))
                  = epoch (time (world_with [])) (readings (world_with [])))
    by reflexivity.
  assert (Hfree : dict_get (client_id_of (epoch (time (world_with []))
                                            (readings (world_with []))) 5001)
                    (clients (world_with [])) = None)
    by (cbn [clients world_with dict_get]; reflexivity).
  destruct (same_second_same_port_share_an_identifier healthy_socket broken_socket
              (text "10.0.0.7") (text "10.0.0.8") 5001 (world_with []) Hsame Hfree)
    as (client_id & w1 & w2 & info & H1 & H2 & _ & Hlen & Hget & _ & Haddr).
  exists client_id, w1, w2, info.
  split; [ exact H1 | ]. split; [ exact H2 | ].
  split; [ exact Hlen | split; [ exact Hget | exact Haddr ] ].
Defined.

(** ** Stopping *)

Lemma disconnect_all_tracked (cs : list (str * client_info)) :
  forall w : world,
    clients w = cs ->
    disconnect_all (List.map fst cs) w
    = (Return tt,
       set_clients []
         (fold_left (fun w' k => logged (Client_disconnected k) w') (List.map fst cs) w)).
Proof.
  induction cs as [|[k info] cs IH]; intros w Hw.
  - cbn. unfold ret. destruct w. cbn in Hw. subst. reflexivity.
  - cbn [List.map fst disconnect_all fold_left]. unfold bindM.
    unfold _disconnect_client at 1. rewrite Hw. cbn [dict_get dict_del].
    rewrite text_eqb_refl.
    rewrite (IH (logged (Client_disconnected k) (set_clients cs w)) eq_refl).
    f_equal.
    generalize (List.map fst cs). intros ks.
    assert (G : forall a b : world,
               system_status a = system_status b -> is_running a = is_running b ->
               stop_timers a = stop_timers b -> log a = log b ->
               readings a = readings b -> time a = time b ->
               broadcasts a = broadcasts b -> plc_interface a = plc_interface b ->
               set_clients [] (fold_left (fun w' k0 => logged (Client_disconnected k0) w') ks a)
               = set_clients [] (fold_left (fun w' k0 => logged (Client_disconnected k0) w') ks b)).
    { induction ks as [|k0 ks IHks]; intros a b H1 H2 H3 H4 H5 H6 H7 H8.
      - cbn. unfold set_clients. congruence.
      - cbn [fold_left]. apply IHks; cbn; congruence. }
    apply G; reflexivity.
Qed.

Lemma logged_all_disconnected (ks : list str) (w : world) :
  log (fold_left (fun w' k => logged (Client_disconnected k) w') ks w)
  = log w ++ List.map Client_disconnected ks
  /\ system_status (fold_left (fun w' k => logged (Client_disconnected k) w') ks w)
     = system_status w
  /\ is_running (fold_left (fun w' k => logged (Client_disconnected k) w') ks w)
     = is_running w.
Proof.
  revert w. induction ks as [|k ks IH]; intros w.
  - cbn. rewrite app_nil_r. repeat split.
  - cbn [fold_left List.map]. destruct (IH (logged (Client_disconnected k) w)) as (-> & -> & ->).
    cbn. rewrite <- app_assoc. repeat split.
Qed.

(** X20. The first part of [stop_server] clears the running flag and
    leaves no connection tracked: every client that was tracked is
    disconnected, in the order of the table, and logged as such; the
    status is not touched. *)
Theorem stop_server_disconnects_everyone (w : world) :
  fst (stop_server_clients w) = Return tt
  /\ clients (snd (stop_server_clients w)) = []
  /\ is_running (snd (stop_server_clients w)) = false
  /\ log (snd (stop_server_clients w))
     = log w ++ List.map Client_disconnected (List.map fst (clients w))
  /\ system_status (snd (stop_server_clients w)) = system_status w.
Proof.
  unfold stop_server_clients, bindM, modify, gets.
  cbn [clients set_is_running].
  rewrite (disconnect_all_tracked (clients w) (set_is_running false w) eq_refl).
  cbn [fst snd clients set_clients is_running log system_status].
  destruct (logged_all_disconnected (List.map fst (clients w)) (set_is_running false w))
    as (-> & -> & ->).
  repeat split.
Qed.

(** ** The monitor round *)

Lemma disconnect_all_status (ids : list str) (w : world) :
  system_status (snd (disconnect_all ids w)) = system_status w.
Proof.
  revert w. induction ids as [|k ids IH]; intros w; [ reflexivity | ].
  cbn [disconnect_all]. unfold bindM.
  pose proof (disconnect_client_clients k w) as (Hr & _).
  pose proof (disconnect_client_status k w) as Hs.
  destruct (_disconnect_client k w) as [r w1]. cbn [fst snd] in Hr, Hs. subst r.
  rewrite IH. exact Hs.
Qed.

Lemma logged_all_status (errors : list log_entry) (w : world) :
  system_status (fold_left (fun w' e => logged e w') errors w) = system_status w.
Proof.
  revert w. induction errors as [|e errors IH]; intros w; [ reflexivity | ].
  cbn [fold_left]. rewrite IH. reflexivity.
Qed.

Lemma broadcast_message_status (message : NetworkMessage) (w : world) :
  system_status (snd (broadcast_message message w)) = system_status w.
Proof.
  unfold broadcast_message. generalize (encode message). intros j.
  unfold bindM, modify, gets. cbn [clients count_broadcast].
  destruct (broadcast_loop j (clients w)) as [[cs' disconnected] errors].
  rewrite disconnect_all_status, logged_all_status. reflexivity.
Qed.

(** X21. A monitor round stores in the status the number of
    connections tracked when the round began, before it broadcasts:
    connections that the broadcast drops because their send fails are
    still counted in the stored [client_count], while the connections
    tracked after the round are only those whose send returned.  The
    counters of marks and errors are not touched. *)
Theorem monitor_round_counts_before_sending (w : world) :
  distinct_keys (clients w) = true ->
  client_count (system_status (snd (_monitor_system_round w)))
  = Some (Z.of_nat (List.length (clients w)))
  /\ List.map fst (clients (snd (_monitor_system_round w)))
     = List.map fst (filter (fun ci => accepts_send (snd ci)) (clients w))
  /\ marks_completed (system_status (snd (_monitor_system_round w)))
     = marks_completed (system_status w)
  /\ error_count (system_status (snd (_monitor_system_round w)))
     = error_count (system_status w).
Proof.
  intros Hd.
  unfold _monitor_system_round, bindM, gets, modify, ret,
    time_since_start, int_time, now_isoformat.
  cbn [clients set_status read_clock system_status].
  destruct (clients w) as [|c cs] eqn:Hcs; [ cbn; rewrite ?Hcs; repeat split | ].
  match goal with
  | |- context [broadcast_message ?m ?w1] =>
      pose proof (broadcast_message_status m w1) as Hs;
      pose proof (broadcast_message_clients m w1) as Hc;
      destruct (broadcast_message m w1) as [r w2]
  end.
  cbn [snd clients set_status read_clock system_status] in Hs, Hc |- *.
  rewrite Hcs in Hc. rewrite Hs, (Hc Hd), map_map. cbn [refresh_status client_count].
  repeat split.
Qed.

Lemma monitor_round_counts_before_sending_witness :
  distinct_keys three_clients = true
  /\ client_count (system_status (snd (_monitor_system_round (world_with three_clients))))
     = Some 3
  /\ List.length (clients (snd (_monitor_system_round (world_with three_clients)))) = 2%nat.
Proof.
  split; [ reflexivity | ].
  destruct (monitor_round_counts_before_sending (world_with three_clients) eq_refl)
    as (Hcount & Hkeys & _).
  split; [ exact Hcount | ].
  rewrite <- (length_map fst), Hkeys. reflexivity.
Defined.

(** ** Registering handlers *)

(** X22. [register_handler] replaces the handler of one message type
    and of no other: a lookup of the registered type finds the new
    handler, a lookup of any other type finds what it found before.  So
    after [_integrate_plc_with_server] a marking request goes to the
    handler of main.py, and the four other built-in types keep their
    handlers. *)
Theorem register_handler_replaces_one_type :
  (forall (message_type : string) (h : handler) (srv : MarkingSystemTCPServer),
      dict_get (text message_type)
        (message_handlers (register_handler message_type h srv)) = Some h
      /\ (forall other : str,
             other <> text message_type ->
             dict_get other (message_handlers (register_handler message_type h srv))
             = dict_get other (message_handlers srv))
      /\ clients (self (register_handler message_type h srv)) = clients (self srv)
      /\ system_status (self (register_handler message_type h srv))
         = system_status (self srv))
  /\ (forall w : world,
         List.map fst (message_handlers (_integrate_plc_with_server (new_server w)))
         = [ text "status_request"; text "marking_request";
             text "configuration_update"; text "system_command"; text "heartbeat" ]
         /\ dict_get (text "marking_request")
              (message_handlers (_integrate_plc_with_server (new_server w)))
            = Some plc_marking_handler
         /\ (forall other : str,
                other <> text "marking_request" ->
                dict_get other (message_handlers (_integrate_plc_with_server (new_server w)))
                = dict_get other (message_handlers (new_server w)))).
Proof.
  assert (H : forall (message_type : string) (h : handler) (srv : MarkingSystemTCPServer),
             dict_get (text message_type)
               (message_handlers (register_handler message_type h srv)) = Some h
             /\ (forall other : str,
                    other <> text message_type ->
                    dict_get other (message_handlers (register_handler message_type h srv))
                    = dict_get other (message_handlers srv))
             /\ clients (self (register_handler message_type h srv)) = clients (self srv)
             /\ system_status (self (register_handler message_type h srv))
                = system_status (self srv)).
  { intros ty h srv. unfold register_handler. cbn [message_handlers self].
    split; [ apply dict_get_set_same | ].
    split; [ | split; reflexivity ].
    intros other Hne. apply dict_get_set_other. congruence. }
  split; [ exact H | ].
  intros w. split; [ reflexivity | ].
  unfold _integrate_plc_with_server.
  destruct (H "marking_request" plc_marking_handler (new_server w)) as (H1 & H2 & _).
  split; [ exact H1 | exact H2 ].
Qed.

(** ** The server with the marking handler of main.py *)

Definition sequence_failed : json :=
  JDict [(text "error", JStr (text "PLC marking sequence failed"))].

Lemma plc_marking_handler_run (m : NetworkMessage) (w : world)
    (entries : list (str * json)) :
  payload m = JDict entries ->
  plc_marking_handler m w
  = (Return (Some {| message_id := text "error_" ++ message_id m;
                     timestamp := isoformat (time w) (readings w);
                     message_type := text "error_response";
                     payload := sequence_failed;
                     client_id := [] |}),
     read_clock
       (set_plc (Plc.note (Plc.Read_discrete 0) (plc_interface w)) w)).
Proof.
  intros Hp.
  unfold plc_marking_handler, try_except, bindM, lift, on_plc.
  rewrite Hp. cbn [py_get].
  rewrite PlcFacts.execute_marking_sequence_stops. reflexivity.
Qed.

Definition marking_line : str :=
  wire_text "{'message_id': 'req1', 'timestamp': 'T', 'message_type': 'marking_request', 'payload': {'product_data': {'serial_number': 'AUTO2024001'}}}".

(** X23. Once [_integrate_plc_with_server] has run, no marking
    request can succeed: every marking request with a dictionary
    payload, a serial number or none, received on a tracked connection
    that takes the write, is answered on that connection with the error
    "PLC marking sequence failed" under the id "error_" r.  The
    completed-marks counter stays as it was, nothing is sent to the
    PLC, and the only operation entered on the fieldbus master is the
    read of the product-present input. *)
Theorem integrated_marking_always_fails
    (w0 : world) (srv : MarkingSystemTCPServer) (line cid : str)
    (m : NetworkMessage) (info : client_info) :
  message_handlers srv
  = message_handlers (_integrate_plc_with_server (new_server w0)) ->
  decode line = Envelope m ->
  message_type m = text "marking_request" ->
  is_dict (payload m) = true ->
  dict_get cid (clients (self srv)) = Some info ->
  accepts_send info = true ->
  exists srv' resp,
    _process_message line cid srv = Some srv'
    /\ answered cid info resp (self srv) (self srv')
    /\ message_id resp = text "error_" ++ message_id m
    /\ message_type resp = text "error_response"
    /\ payload resp = sequence_failed
    /\ system_status (self srv') = system_status (self srv)
    /\ Plc.wire (plc_interface (self srv')) = Plc.wire (plc_interface (self srv))
    /\ Plc.journal (plc_interface (self srv'))
       = Plc.journal (plc_interface (self srv)) ++ [Plc.Read_discrete 0].
Proof.
  intros Hreg Hdec Hty Hdict Hget Ha.
  rewrite (process_message_envelope srv line cid m Hdec).
  unfold dispatch. cbn [message_type with_client_id message_id].
  rewrite Hreg, Hty.
  change (dict_get (text "marking_request")
            (message_handlers (_integrate_plc_with_server (new_server w0))))
    with (Some plc_marking_handler).
  destruct (payload m) as [ | | | | | | entries ] eqn:Hp; try discriminate Hdict.
  unfold try_except, bindM, logger, modify.
  rewrite (plc_marking_handler_run _ _ entries) by exact Hp.
  match goal with
  | |- context [_send_response cid ?r ?w2] =>
      pose proof (send_response_answers cid r info (self srv) w2 eq_refl Hget Ha) as Hans;
      rewrite (send_response_accepted cid r info w2 Hget Ha) in Hans |- *
  end.
  eexists. eexists. split; [ reflexivity | ].
  cbn [self snd]. split; [ exact Hans | ].
  repeat split.
Qed.

Lemma integrated_marking_always_fails_witness :
  decode marking_line
  = Envelope (sample_message "marking_request"
                (JDict [(text "product_data",
                         JDict [(text "serial_number", JStr (text "AUTO2024001"))])]))
  /\ exists srv' resp,
       _process_message marking_line (text "client_1_5001")
         (_integrate_plc_with_server (new_server (world_with one_client))) = Some srv'
       /\ message_id resp = text "error_req1"
       /\ payload resp = sequence_failed
       /\ marks_completed (system_status (self srv')) = 0.
Proof.
  assert (Hdec : decode marking_line
                 = Envelope (sample_message "marking_request"
                               (JDict [(text "product_data",
                                        JDict [(text "serial_number",
                                                JStr (text "AUTO2024001"))])])))
    by (vm_compute; reflexivity).
  split; [ exact Hdec | ].
  destruct (integrated_marking_always_fails (world_with one_client)
              (_integrate_plc_with_server (new_server (world_with one_client)))
              marking_line (text "client_1_5001") _ (client_on healthy_socket 5001)
              eq_refl Hdec eq_refl eq_refl eq_refl eq_refl)
    as (srv' & resp & Hrun & _ & Hid & _ & Hpay & Hst & _).
  exists srv', resp. split; [ exact Hrun | ]. split; [ exact Hid | ].
  split; [ exact Hpay | ]. rewrite Hst. reflexivity.
Defined.

(** ** The reader of a connection *)

Lemma decode_ascii_bytes (s : str) :
  forallb (fun c => c <? 128)%N s = true ->
  Utf8.decode (Utf8.ascii_bytes s) = Some s.
Proof.
  induction s as [|c s IH]; [ reflexivity | ].
  cbn [forallb]. intros H. apply andb_true_iff in H. destruct H as [Hc Hs].
  apply N.ltb_lt in Hc.
  cbn [Utf8.ascii_bytes List.map Utf8.decode].
  replace (Utf8.between 0 127 (Z.of_N c)) with true
    by (symmetry; unfold Utf8.between; apply andb_true_iff;
        split; apply Z.leb_le; lia).
  change (List.map Z.of_N s) with (Utf8.ascii_bytes s).
  rewrite (IH Hs), N2Z.id. reflexivity.
Qed.

Lemma handle_client_chunk (raw : list Z) (later : list (list Z))
    (buffer cid : str) (srv : MarkingSystemTCPServer) :
  is_running (self srv) = true ->
  raw <> [] ->
  _handle_client (raw :: later) buffer cid srv
  = match Utf8.decode raw with
    | None => Some (finally_disconnect cid srv, buffer, Some Undecodable)
    | Some data =>
        match receive data buffer cid srv with
        | None => None
        | Some (srv1, buffer1) =>
            match touch cid (self srv1) with
            | (Return _, w2) =>
                _handle_client later buffer1 cid
                  {| message_handlers := message_handlers srv1; self := w2 |}
            | (Raise _, w2) =>
                Some (finally_disconnect cid
                        {| message_handlers := message_handlers srv1; self := w2 |},
                      buffer1, Some Untracked)
            end
        end
    end.
Proof.
  intros Hrun Hne. destruct raw as [|b raw]; [ contradiction | ].
  cbn [_handle_client]. rewrite Hrun. reflexivity.
Qed.

(** The bytes of a heartbeat whose message id ends in an accented
    letter, cut between the two bytes of that letter. *)
Definition first_segment : list Z :=
  Utf8.ascii_bytes (wire_text "{'message_id': 'caf") ++ [195].

Definition second_segment : list Z :=
  [169] ++ Utf8.ascii_bytes
             (wire_text "', 'timestamp': 'T', 'message_type': 'heartbeat', 'payload': {}}")
        ++ [10].

(** X24. The reader decodes every chunk it receives on its own.  When
    a chunk is not valid UTF-8 by itself, as when a character of
    several bytes arrives in two chunks, the reader thread ends there:
    the client is disconnected, and the text buffered so far and every
    later chunk are left unprocessed, although the same bytes received
    as one chunk are decoded and read. *)
Theorem split_character_drops_the_connection
    (first second : list Z) (later : list (list Z)) (data buffer cid : str)
    (srv : MarkingSystemTCPServer) :
  is_running (self srv) = true ->
  Utf8.decode (first ++ second) = Some data ->
  Utf8.decode first = None ->
  _handle_client (first :: second :: later) buffer cid srv
  = Some (finally_disconnect cid srv, buffer, Some Undecodable)
  /\ clients (self (finally_disconnect cid srv)) = dict_del cid (clients (self srv))
  /\ system_status (self (finally_disconnect cid srv)) = system_status (self srv)
  /\ log (self (finally_disconnect cid srv))
     = log (self srv)
       ++ match dict_get cid (clients (self srv)) with
          | Some _ => [Client_disconnected cid]
          | None => []
          end
  /\ (forall r, _handle_client [first ++ second] buffer cid srv = Some r ->
                snd r <> Some Undecodable).
Proof.
  intros Hrun Hjoined Hfirst.
  assert (Hne : first <> []) by (intros ->; discriminate Hfirst).
  split; [ rewrite (handle_client_chunk first _ _ _ _ Hrun Hne), Hfirst; reflexivity | ].
  unfold finally_disconnect. cbn [self].
  split; [ apply disconnect_client_clients | ].
  split; [ apply disconnect_client_status | ].
  split.
  - unfold _disconnect_client.
    destruct (dict_get cid (clients (self srv))); cbn; [ reflexivity | ].
    rewrite app_nil_r. reflexivity.
  - assert (Hne2 : first ++ second <> [])
      by (destruct first; [ contradiction | discriminate ]).
    rewrite (handle_client_chunk _ _ _ _ _ Hrun Hne2), Hjoined.
    intros r Hr.
    destruct (receive data buffer cid srv) as [[srv1 buffer1]|]; [ | discriminate ].
    destruct (touch cid (self srv1)) as [[[]|e] w2].
    + cbn [_handle_client self] in Hr.
      destruct (negb (is_running w2)); injection Hr as <-; discriminate.
    + injection Hr as <-. discriminate.
Qed.

Lemma split_character_drops_the_connection_witness :
  Utf8.decode first_segment = None
  /\ (exists data, Utf8.decode (first_segment ++ second_segment) = Some data)
  /\ (exists srv',
         _handle_client [first_segment; second_segment] [] (text "client_1_5001")
           (new_server (world_with one_client))
         = Some (srv', [], Some Undecodable)
         /\ clients (self srv') = [])
  /\ (exists srv' info,
         _handle_client [first_segment ++ second_segment] [] (text "client_1_5001")
           (new_server (world_with one_client))
         = Some (srv', [], None)
         /\ dict_get (text "client_1_5001") (clients (self srv')) = Some info
         /\ List.length (sent (socket info)) = 1%nat).
Proof.
  assert (H1 : Utf8.decode first_segment = None) by (vm_compute; reflexivity).
  assert (H2 : exists data, Utf8.decode (first_segment ++ second_segment) = Some data)
    by (eexists; vm_compute; reflexivity).
  split; [ exact H1 | ]. split; [ exact H2 | ].
  destruct H2 as [data H2].
  destruct (split_character_drops_the_connection first_segment second_segment []
              data [] (text "client_1_5001") (new_server (world_with one_client))
              eq_refl H2 H1) as (Hrun & Hclients & _).
  split.
  - eexists. split; [ exact Hrun | ]. rewrite Hclients. reflexivity.
  - eexists. eexists. split; [ vm_compute; reflexivity | ].
    split; reflexivity.
Defined.

(** X25. When the peer closes the connection the reader disconnects
    the client and discards what is in the buffer: a last line that was
    sent without its newline (here as ASCII text, in one chunk) is
    stored, its arrival is noted as activity, and it is never processed;
    no handler runs and nothing is written back. *)
Theorem unterminated_line_is_never_processed
    (line cid : str) (info : client_info) (srv : MarkingSystemTCPServer) :
  is_running (self srv) = true ->
  line <> [] ->
  forallb (fun c => c <? 128)%N line = true ->
  split_once 10 line = None ->
  dict_get cid (clients (self srv)) = Some info ->
  distinct_keys (clients (self srv)) = true ->
  exists srv',
    _handle_client [Utf8.ascii_bytes line; []] [] cid srv
    = Some (srv', line, Some Peer_closed)
    /\ log (self srv') = log (self srv) ++ [Client_disconnected cid]
    /\ dict_get cid (clients (self srv')) = None
    /\ (forall other, other <> cid ->
                      dict_get other (clients (self srv'))
                      = dict_get other (clients (self srv)))
    /\ system_status (self srv') = system_status (self srv).
Proof.
  intros Hrun Hne Hascii Hnl Hget Hd.
  assert (Hraw : Utf8.ascii_bytes line <> [])
    by (destruct line; [ contradiction | discriminate ]).
  rewrite (handle_client_chunk _ _ _ _ _ Hrun Hraw), (decode_ascii_bytes line Hascii).
  rewrite receive_process_all, process_all_step. cbn [app]. rewrite Hnl.
  unfold touch. cbn [clients read_clock]. rewrite Hget.
  cbn [_handle_client self is_running set_clients read_clock]. rewrite Hrun. cbn [negb].
  eexists. split; [ reflexivity | ].
  unfold finally_disconnect, _disconnect_client.
  cbn [self clients set_clients read_clock message_handlers].
  rewrite dict_get_set_same.
  cbn [snd log logged set_clients clients system_status read_clock].
  split; [ reflexivity | ].
  split; [ apply dict_get_del_same, distinct_keys_set; exact Hd | ].
  split; [ | reflexivity ].
  intros other Hother.
  rewrite dict_get_del_other, dict_get_set_other by congruence. reflexivity.
Qed.

Lemma unterminated_line_is_never_processed_witness :
  exists srv',
    _handle_client [Utf8.ascii_bytes heartbeat_line; []] [] (text "client_1_5001")
      (new_server (world_with one_client))
    = Some (srv', heartbeat_line, Some Peer_closed)
    /\ clients (self srv') = []
    /\ List.length (log (self srv')) = 6%nat.
Proof.
  destruct (unterminated_line_is_never_processed heartbeat_line (text "client_1_5001")
              (client_on healthy_socket 5001) (new_server (world_with one_client))
              eq_refl ltac:(discriminate) ltac:(vm_compute; reflexivity)
              ltac:(vm_compute; reflexivity) eq_refl eq_refl)
    as (srv' & Hrun & Hlog & _).
  exists srv'. split; [ exact Hrun | ].
  rewrite Hlog. split; [ | reflexivity ].
  vm_compute in Hrun. injection Hrun as <-. reflexivity.
Defined.

(** The reader ends after a chunk once its client is no longer in the
    table. *)
Lemma reader_ends_when_untracked
    (raw : list Z) (later : list (list Z)) (data buffer cid rest : str)
    (srv srv1 : MarkingSystemTCPServer) :
  is_running (self srv) = true ->
  Utf8.decode raw = Some data ->
  raw <> [] ->
  receive data buffer cid srv = Some (srv1, rest) ->
  dict_get cid (clients (self srv1)) = None ->
  _handle_client (raw :: later) buffer cid srv
  = Some ({| message_handlers := message_handlers srv1;
             self := read_clock (self srv1) |}, rest, Some Untracked).
Proof.
  intros Hrun Hdec Hne Hrecv Hgone.
  rewrite (handle_client_chunk _ _ _ _ _ Hrun Hne), Hdec, Hrecv.
  unfold touch. cbn [clients read_clock]. rewrite Hgone.
  unfold finally_disconnect, _disconnect_client.
  cbn [self message_handlers clients read_clock]. rewrite Hgone.
  reflexivity.
Qed.

Lemma split_once_terminated (line : str) :
  split_once 10 line = None -> split_once 10 (line ++ [10%N]) = Some (line, []).
Proof.
  intros Hnl. rewrite split_once_app, Hnl. cbn. rewrite app_nil_r. reflexivity.
Qed.

Lemma envelope_line_not_blank (line : str) (m : NetworkMessage) :
  decode line = Envelope m -> line <> [].
Proof. intros H ->. discriminate H. Qed.

(** A line that holds an envelope, received by the server with its
    built-in handlers on a connection whose socket refuses the write:
    the client is gone from the table afterwards, and no other. *)
Lemma refused_answer_untracks (w0 : world) (srv : MarkingSystemTCPServer)
    (line cid : str) (m : NetworkMessage) (info : client_info) :
  message_handlers srv = message_handlers (new_server w0) ->
  decode line = Envelope m ->
  (message_type m = text "system_command" -> is_dict (payload m) = true) ->
  distinct_keys (clients (self srv)) = true ->
  dict_get cid (clients (self srv)) = Some info ->
  accepts_send info = false ->
  exists srv1,
    _process_message line cid srv = Some srv1
    /\ message_handlers srv1 = message_handlers srv
    /\ dict_get cid (clients (self srv1)) = None
    /\ (forall other, other <> cid ->
                      dict_get other (clients (self srv1))
                      = dict_get other (clients (self srv))).
Proof.
  intros Hreg Hdec Hcmd Hd Hget Ha.
  rewrite (process_message_envelope srv line cid m Hdec).
  eexists. split; [ reflexivity | ]. cbn [message_handlers self].
  split; [ reflexivity | ].
  unfold dispatch, try_except, bindM, logger, modify.
  set (message := with_client_id cid m).
  set (w1 := logged (Received_message (message_type message) cid) (self srv)).
  assert (Hgone : forall (resp : NetworkMessage) (w2 : world),
             clients w2 = clients (self srv) ->
             fst (_send_response cid resp w2) = Return tt
             /\ dict_get cid (clients (snd (_send_response cid resp w2))) = None
             /\ (forall other, other <> cid ->
                               dict_get other (clients (snd (_send_response cid resp w2)))
                               = dict_get other (clients (self srv)))).
  { intros resp w2 Hc.
    assert (Hget2 : dict_get cid (clients w2) = Some info) by (rewrite Hc; exact Hget).
    rewrite (send_response_refused cid resp info w2 Hget2 Ha).
    cbn [fst snd clients logged set_clients]. rewrite Hc.
    split; [ reflexivity | ].
    split; [ apply dict_get_del_same, distinct_keys_set; exact Hd | ].
    intros other Hne.
    rewrite dict_get_del_other, dict_get_set_other by congruence. reflexivity. }
  destruct (dict_get (message_type message) (message_handlers srv)) as [h|] eqn:Hh.
  - rewrite Hreg in Hh. pose proof (dict_get_in _ _ _ Hh) as Hin.
    assert (Hcmd' : message_type message = text "system_command" ->
                    is_dict (payload message) = true) by exact Hcmd.
    destruct (builtin_handler_returns w0 _ h message w1 Hin Hcmd')
      as (resp & w2 & Hrun).
    destruct (builtin_handler_response w0 _ h message w1 resp w2 Hin Hrun) as [_ Hcl].
    rewrite Hrun.
    destruct (Hgone resp w2 Hcl) as (Hr & Hnone & Hothers).
    destruct (_send_response cid resp w2) as [r w3]. cbn [fst snd] in *. subst r.
    cbn [snd]. split; assumption.
  - rewrite create_error_response_run.
    match goal with
    | |- context [_send_response cid ?r ?w2] =>
        destruct (Hgone r w2 eq_refl) as (Hr & Hnone & Hothers);
        destruct (_send_response cid r w2) as [r3 w3]
    end.
    cbn [fst snd] in *. subst r3. cbn [snd]. split; assumption.
Qed.

(** X26. A client whose response could not be written is not read
    from again.  When a chunk brings a complete request (here one line
    of ASCII text holding an envelope, for the server with its built-in
    handlers) and the socket refuses the response, the client is removed
    from the table; the update of its activity time after the chunk
    then raises, the reader thread ends, and the chunks that follow are
    never received.  The other connections stay as they were. *)
Theorem failed_write_ends_the_reader
    (w0 : world) (srv : MarkingSystemTCPServer) (line cid : str)
    (m : NetworkMessage) (info : client_info) (later : list (list Z)) :
  is_running (self srv) = true ->
  message_handlers srv = message_handlers (new_server w0) ->
  forallb (fun c => c <? 128)%N line = true ->
  split_once 10 line = None ->
  decode (strip line) = Envelope m ->
  (message_type m = text "system_command" -> is_dict (payload m) = true) ->
  distinct_keys (clients (self srv)) = true ->
  dict_get cid (clients (self srv)) = Some info ->
  accepts_send info = false ->
  exists srv',
    _handle_client (Utf8.ascii_bytes (line ++ [10%N]) :: later) [] cid srv
    = Some (srv', [], Some Untracked)
    /\ dict_get cid (clients (self srv')) = None
    /\ (forall other, other <> cid ->
                      dict_get other (clients (self srv'))
                      = dict_get other (clients (self srv))).
Proof.
  intros Hrun Hreg Hascii Hnl Hdec Hcmd Hd Hget Ha.
  destruct (refused_answer_untracks w0 srv (strip line) cid m info
              Hreg Hdec Hcmd Hd Hget Ha) as (srv1 & Hp & Hh1 & Hgone & Hothers).
  assert (Hrecv : receive (line ++ [10%N]) [] cid srv = Some (srv1, [])).
  { rewrite receive_process_all, process_all_step. cbn [app].
    rewrite (split_once_terminated line Hnl). unfold line_step.
    pose proof (envelope_line_not_blank _ _ Hdec) as Hne.
    destruct (strip line) as [|c l] eqn:Hs; [ contradiction | ].
    rewrite Hp. rewrite process_all_step. reflexivity. }
  assert (Hbytes : Utf8.decode (Utf8.ascii_bytes (line ++ [10%N])) = Some (line ++ [10%N])).
  { apply decode_ascii_bytes. rewrite forallb_app, Hascii. reflexivity. }
  assert (Hraw : Utf8.ascii_bytes (line ++ [10%N]) <> [])
    by (destruct line; discriminate).
  rewrite (reader_ends_when_untracked _ later _ [] cid [] srv srv1
             Hrun Hbytes Hraw Hrecv Hgone).
  eexists. split; [ reflexivity | ]. cbn [self clients read_clock].
  split; assumption.
Qed.

Lemma failed_write_ends_the_reader_witness :
  decode (strip heartbeat_line) = Envelope (sample_message "heartbeat" (JDict []))
  /\ accepts_send (client_on broken_socket 5002) = false
  /\ exists srv',
       _handle_client
         [Utf8.ascii_bytes (heartbeat_line ++ [10%N]);
          Utf8.ascii_bytes (heartbeat_line ++ [10%N])]
         [] (text "client_1_5002") (new_server (world_with three_clients))
       = Some (srv', [], Some Untracked)
       /\ dict_get (text "client_1_5002") (clients (self srv')) = None
       /\ dict_get (text "client_1_5003") (clients (self srv'))
          = Some (client_on healthy_socket 5003).
Proof.
  assert (Hdec : decode (strip heartbeat_line)
                 = Envelope (sample_message "heartbeat" (JDict [])))
    by (vm_compute; reflexivity).
  split; [ exact Hdec | ]. split; [ reflexivity | ].
  destruct (failed_write_ends_the_reader (world_with three_clients)
              (new_server (world_with three_clients)) heartbeat_line
              (text "client_1_5002") _ (client_on broken_socket 5002)
              [Utf8.ascii_bytes (heartbeat_line ++ [10%N])]
              eq_refl eq_refl ltac:(vm_compute; reflexivity)
              ltac:(vm_compute; reflexivity) Hdec ltac:(intros H; discriminate H)
              eq_refl eq_refl eq_refl)
    as (srv' & Hrun & Hgone & Hothers).
  exists srv'. split; [ exact Hrun | ]. split; [ exact Hgone | ].
  rewrite (Hothers (text "client_1_5003")) by discriminate. reflexivity.
Defined.

End ServerMore.
(** * Properties of the network monitor *)

Module MonitorFacts.

Import Json Monitor.
Import ServerFacts CodecFacts.

(** ** Modbus headers *)

Definition is_byte (b : Z) : Prop := 0 <= b <= 255.

(** X27. [_parse_modbus_packet] reads exactly the eight-byte header.
    A packet of fewer than eight bytes gives the "packet too short"
    error; any other gives the transaction id, the protocol id and the
    length as big-endian 16-bit numbers, the unit id, the function code
    and the name of the function, and never an error entry: the
    [except] clause of the parser cannot be reached. *)
Theorem parse_modbus_packet_header (data : list Z) :
  Forall is_byte data ->
  match data with
  | t1 :: t2 :: p1 :: p2 :: l1 :: l2 :: unit_id :: function_code :: _ =>
      _parse_modbus_packet data
      = JDict [ (text "protocol", JStr (text "modbus"));
                (text "transaction_id", JInt (256 * t1 + t2));
                (text "protocol_id", JInt (256 * p1 + p2));
                (text "length", JInt (256 * l1 + l2));
                (text "unit_id", JInt unit_id);
                (text "function_code", JInt function_code);
                (text "function_name",
                 JStr (_get_modbus_function_name function_code)) ]
  | _ => _parse_modbus_packet data = modbus_error (text "packet too short")
  end.
Proof.
  intros Hbytes.
  do 8 (destruct data as [|? data]; [ reflexivity | ]).
  repeat match goal with
         | H : Forall _ (_ :: _) |- _ => inversion H; clear H; subst
         end.
  unfold is_byte in *.
  unfold _parse_modbus_packet.
  replace (List.length (z :: z0 :: z1 :: z2 :: z3 :: z4 :: z5 :: z6 :: data) <? 8)%nat
    with false by (symmetry; apply Nat.ltb_ge; cbn; lia).
  cbn -[Z.lor Z.shiftl Z.mul _get_modbus_function_name text].
  rewrite !PlcMore.lor_shiftl_byte by assumption.
  reflexivity.
Qed.

Lemma parse_modbus_packet_header_witness :
  Forall is_byte Plc.input_on_response
  /\ _parse_modbus_packet Plc.input_on_response
     = JDict [ (text "protocol", JStr (text "modbus"));
               (text "transaction_id", JInt 1);
               (text "protocol_id", JInt 0);
               (text "length", JInt 4);
               (text "unit_id", JInt 1);
               (text "function_code", JInt 2);
               (text "function_name", JStr (text "Read Discrete Inputs")) ].
Proof.
  assert (Hb : Forall is_byte Plc.input_on_response)
    by (repeat constructor; unfold is_byte; lia).
  split; [ exact Hb | ].
  exact (parse_modbus_packet_header Plc.input_on_response Hb).
Defined.

(** ** Filters *)

(** X28. Which settings filter nothing.  A new monitor passes every
    packet.  The content filter is stored but never consulted, a filter
    name outside the four of the table is ignored, and a port filter of
    0, being false, filters no more than none.  A port filter other than
    0 passes only the packets whose destination port is that number. *)
Theorem filters_that_do_not_filter :
  (forall packet : NetworkPacket, _passes_filters no_filters packet = true)
  /\ (forall (value : filter_value) (f : filter_table) (packet : NetworkPacket),
         _passes_filters (store_filter "content_filter" value f) packet
         = _passes_filters f packet)
  /\ (forall (name : string) (value : filter_value) (f : filter_table),
         name <> "port_filter" -> name <> "ip_filter" ->
         name <> "protocol_filter" -> name <> "content_filter" ->
         store_filter name value f = f)
  /\ (forall (f : filter_table) (packet : NetworkPacket),
         _passes_filters (store_filter "port_filter" (FInt 0) f) packet
         = _passes_filters (store_filter "port_filter" FNone f) packet)
  /\ (forall (p : Z) (f : filter_table) (packet : NetworkPacket),
         p <> 0 ->
         _passes_filters (store_filter "port_filter" (FInt p) f) packet = true ->
         dest_port packet = Some p).
Proof.
  split; [ reflexivity | ].
  split; [ reflexivity | ].
  split.
  { intros name value f H1 H2 H3 H4. unfold store_filter.
    rewrite (PlcMore.string_eqb_false _ _ H1), (PlcMore.string_eqb_false _ _ H2),
      (PlcMore.string_eqb_false _ _ H3), (PlcMore.string_eqb_false _ _ H4).
    reflexivity. }
  split; [ reflexivity | ].
  intros p f packet Hp. unfold _passes_filters, store_filter.
  cbn [String.eqb Ascii.eqb Bool.eqb port_filter truthy].
  change (String.eqb "port_filter" "port_filter") with true. cbn iota.
  cbn [port_filter truthy].
  replace (p =? 0) with false by (symmetry; apply Z.eqb_neq; exact Hp).
  cbn [negb andb].
  destruct (dest_port packet) as [d|]; cbn [port_equals negb]; [ | discriminate ].
  destruct (d =? p) eqn:E; cbn [negb]; [ | discriminate ].
  intros _. apply Z.eqb_eq in E. subst d. reflexivity.
Qed.

(** ** Statistics *)

Definition sum_of {V} (f : V -> Z) (d : list (str * V)) : Z :=
  fold_right (fun kv acc => f (snd kv) + acc) 0 d.

Definition bytes_of (packets : list NetworkPacket) : Z :=
  fold_right (fun p acc => payload_size p + acc) 0 packets.

(** The three tallies agree with the list of captured packets. *)
Definition consistent (m : monitor) : Prop :=
  sum_of packet_count (connection_summary m) = Z.of_nat (List.length (captured_packets m))
  /\ sum_of (fun n => n) (protocol_stats m) = Z.of_nat (List.length (captured_packets m))
  /\ sum_of total_bytes (connection_summary m) = bytes_of (captured_packets m).

Lemma sum_of_cons {V} (f : V -> Z) (k : str) (v : V) (d : list (str * V)) :
  sum_of f ((k, v) :: d) = f v + sum_of f d.
Proof. reflexivity. Qed.

Lemma sum_of_dict_set {V} (f : V -> Z) (k : str) (v : V) (d : list (str * V)) :
  sum_of f (dict_set k v d)
  = sum_of f d + f v - match dict_get k d with Some old => f old | None => 0 end.
Proof.
  induction d as [|[k0 v0] d IH]; cbn [dict_set dict_get].
  - rewrite sum_of_cons. change (sum_of f []) with 0. lia.
  - destruct (Text.eqb k0 k); rewrite !sum_of_cons; [ lia | ].
    rewrite IH. lia.
Qed.

Lemma bytes_of_cons (p : NetworkPacket) (a : list NetworkPacket) :
  bytes_of (p :: a) = payload_size p + bytes_of a.
Proof. reflexivity. Qed.

Lemma bytes_of_app (a b : list NetworkPacket) :
  bytes_of (a ++ b) = bytes_of a + bytes_of b.
Proof.
  induction a as [|p a IH]; [ reflexivity | ].
  cbn [app]. rewrite !bytes_of_cons, IH. lia.
Qed.

Lemma update_connection_stats_consistent (packet : NetworkPacket) (m : monitor) :
  consistent m -> consistent (_update_connection_stats packet (append_packet packet m)).
Proof.
  intros (H1 & H2 & H3). unfold consistent, _update_connection_stats, append_packet, get_or.
  cbn [connection_summary protocol_stats captured_packets].
  rewrite !sum_of_dict_set, length_app, bytes_of_app, H1, H2, H3.
  rewrite bytes_of_cons. change (bytes_of []) with 0.
  cbn [List.length packet_count total_bytes].
  destruct (dict_get (connection_key packet) (connection_summary m)) as [st|];
    destruct (dict_get (protocol packet) (protocol_stats m)) as [n|];
    cbn [packet_count total_bytes new_stats]; repeat split; lia.
Qed.

Lemma record_data_consistent (table : N -> bool) (now : N) (addr : str * Z)
    (data : list Z) (m : monitor) :
  consistent m -> consistent (record_data table now addr data m).
Proof.
  intros H. unfold record_data.
  destruct (_passes_filters _ _); [ | exact H ].
  apply update_connection_stats_consistent. exact H.
Qed.

Lemma record_all_consistent (table : N -> bool) (arrivals : list arrival) :
  forall m : monitor, consistent m -> consistent (record_all table arrivals m).
Proof.
  induction arrivals as [|a arrivals IH]; intros m H; [ exact H | ].
  apply IH. apply record_data_consistent. exact H.
Qed.

Lemma record_all_length (table : N -> bool) (arrivals : list arrival) :
  forall m : monitor,
    (List.length (captured_packets (record_all table arrivals m))
     <= List.length (captured_packets m) + List.length arrivals)%nat.
Proof.
  induction arrivals as [|a arrivals IH]; intros m; [ cbn; lia | ].
  cbn [record_all fold_left List.length].
  fold (record_all table arrivals (record_data table (at_time a) (from a) (bytes a) m)).
  specialize (IH (record_data table (at_time a) (from a) (bytes a) m)).
  assert (List.length (captured_packets (record_data table (at_time a) (from a) (bytes a) m))
          <= S (List.length (captured_packets m)))%nat.
  { unfold record_data. destruct (_passes_filters _ _); [ | lia ].
    cbn [_update_connection_stats append_packet captured_packets].
    rewrite length_app. cbn. lia. }
  lia.
Qed.

(** X29. The tallies of the monitor agree with one another.  After
    any filter settings and any sequence of received chunks, on a
    monitor started empty, the packet counts of the connections and the
    counts per protocol both add up to the number of captured packets,
    the byte counts of the connections add up to the bytes of the
    captured packets, and no more packets are captured than chunks were
    received. *)
Theorem capture_tallies_agree
    (table : N -> bool) (listen : str) (port : option Z)
    (settings : list (string * filter_value)) (arrivals : list arrival) :
  consistent
    (record_all table arrivals
       (fold_left (fun m s => set_filter (fst s) (snd s) m) settings
          (new_monitor listen port)))
  /\ (List.length
        (captured_packets
           (record_all table arrivals
              (fold_left (fun m s => set_filter (fst s) (snd s) m) settings
                 (new_monitor listen port))))
      <= List.length arrivals)%nat.
Proof.
  assert (H0 : forall m : monitor,
             consistent m /\ captured_packets m = [] ->
             consistent (fold_left (fun m s => set_filter (fst s) (snd s) m) settings m)
             /\ captured_packets
                  (fold_left (fun m s => set_filter (fst s) (snd s) m) settings m) = []).
  { induction settings as [|s settings IH]; intros m Hm; [ exact Hm | ].
    cbn [fold_left]. apply IH. destruct Hm as [Hc He]. split; [ exact Hc | exact He ]. }
  destruct (H0 (new_monitor listen port)) as [Hc He].
  { split; [ repeat split | reflexivity ]. }
  split; [ apply record_all_consistent; exact Hc | ].
  pose proof (record_all_length table arrivals
                (fold_left (fun m s => set_filter (fst s) (snd s) m) settings
                   (new_monitor listen port))) as Hlen.
  rewrite He in Hlen. cbn in Hlen. exact Hlen.
Qed.

(** ** Reading the server's own traffic *)

Lemma forall_entries_read_back (kxs : list (str * json)) :
  Forall (fun kv => Codec.well_formed (snd kv) = true -> reads_back (snd kv)) kxs.
Proof.
  apply Forall_forall. intros kv _. apply scan_once_dumps.
Qed.

Lemma scan_once_dict_then (k : str) (x : json) (kxs : list (str * json))
    (fuel : nat) (rest : str) :
  Codec.well_formed (JDict ((k, x) :: kxs)) = true ->
  (Codec.weight (JDict ((k, x) :: kxs)) <= fuel)%nat ->
  scan_once fuel (dumps (JDict ((k, x) :: kxs)) ++ rest)
  = Return (JDict ((k, x) :: kxs), rest).
Proof.
  intros Hw Hfuel.
  destruct fuel as [|f]; [ cbn in Hfuel; lia | ].
  rewrite dumps_dict_app, scan_once_object.
  match goal with
  | |- context [skip_ws (34%N :: ?t)] => change (skip_ws (34%N :: t)) with (34%N :: t)
  end.
  change (34 =? 125)%N with false. change (34 =? 34)%N with true. cbv iota.
  cbn [Codec.well_formed] in Hw. apply andb_true_iff in Hw. destruct Hw as [Hall Hdist].
  cbn [forallb fst snd] in Hall. apply andb_true_iff in Hall.
  destruct Hall as [Hkx Hkxs]. apply andb_true_iff in Hkx. destruct Hkx as [Hk Hx].
  rewrite (object_pairs_reads kxs (forall_entries_read_back kxs) Hkxs k x f rest Hk Hx
             (scan_once_dumps x Hx)).
  - cbn [bind fst snd]. rewrite (dict_of_pairs_distinct _ Hdist). reflexivity.
  - cbn [Codec.weight] in Hfuel. fold (entries_weight ((k, x) :: kxs)) in Hfuel.
    cbn [entries_weight fold_right snd] in Hfuel |- *.
    fold (entries_weight kxs) in Hfuel |- *. lia.
Qed.

Lemma loads_line (m : Server.NetworkMessage) :
  Codec.valid_message m = true ->
  loads (Server.encode m) = Return (Server.asdict m).
Proof.
  intros Hv. pose proof (asdict_well_formed m Hv) as Hw.
  unfold Server.encode, loads.
  set (doc := Server.asdict m) in *.
  assert (Hhead : exists tl, dumps doc = 123%N :: tl).
  { destruct (dumps_dict_braces (text "message_id", JStr (Server.message_id m))
                [ (text "timestamp", JStr (Server.timestamp m));
                  (text "message_type", JStr (Server.message_type m));
                  (text "payload", Server.payload m);
                  (text "client_id", JStr (Server.client_id m)) ]) as [mid E].
    exists (mid ++ [125%N]). exact E. }
  destruct Hhead as [tl Htl].
  assert (Hskip : skip_ws (dumps doc ++ [10%N]) = dumps doc ++ [10%N])
    by (rewrite Htl; reflexivity).
  assert (Hbom : starts_with [65279%N] (dumps doc ++ [10%N]) = None)
    by (rewrite Htl; reflexivity).
  rewrite Hbom, Hskip.
  unfold doc, Server.asdict.
  rewrite scan_once_dict_then.
  - reflexivity.
  - exact Hw.
  - fold (Server.asdict m). fold doc.
    pose proof (weight_fits doc Hw) as Hfit.
    unfold fuel_for. rewrite length_app. lia.
Qed.

Lemma printable_is_ascii (s : str) :
  forallb printable s = true -> forallb (fun c => c <? 128)%N s = true.
Proof.
  apply forallb_weaken. intros c Hc. unfold printable in Hc.
  apply andb_true_iff in Hc. destruct Hc as [_ Hc]. apply N.leb_le in Hc.
  apply N.ltb_lt. lia.
Qed.

(** X30. The monitor reads the server's own traffic: the bytes of a
    line that the server writes for a valid message are decoded by
    [_decode_packet_content] as the very document the server encoded,
    with its five fields, whatever the Unicode database says of
    characters beyond ASCII, since the line has none. *)
Theorem monitor_decodes_server_lines
    (unicode_printable : N -> bool) (m : Server.NetworkMessage) :
  Codec.valid_message m = true ->
  Server.encode m = dumps (Server.asdict m) ++ [10%N]
  /\ Utf8.decode (Utf8.ascii_bytes (Server.encode m)) = Some (Server.encode m)
  /\ _decode_packet_content unicode_printable (Utf8.ascii_bytes (Server.encode m))
     = Some (Server.asdict m).
Proof.
  intros Hv. pose proof (asdict_well_formed m Hv) as Hw.
  split; [ reflexivity | ].
  assert (Hascii : forallb (fun c => c <? 128)%N (Server.encode m) = true).
  { unfold Server.encode. rewrite forallb_app.
    rewrite (printable_is_ascii _ (dumps_one_line _ Hw)). reflexivity. }
  assert (Hdec : Utf8.decode (Utf8.ascii_bytes (Server.encode m)) = Some (Server.encode m))
    by (apply ServerMore.decode_ascii_bytes; exact Hascii).
  split; [ exact Hdec | ].
  unfold _decode_packet_content. rewrite Hdec, (loads_line m Hv).
  destruct (dumps_dict_braces (text "message_id", JStr (Server.message_id m))
              [ (text "timestamp", JStr (Server.timestamp m));
                (text "message_type", JStr (Server.message_type m));
                (text "payload", Server.payload m);
                (text "client_id", JStr (Server.client_id m)) ]) as [mid E].
  change (JDict _) with (Server.asdict m) in E.
  unfold Server.encode. rewrite E. reflexivity.
Qed.

Lemma monitor_decodes_server_lines_witness :
  Codec.valid_message Codec.rich_message = true
  /\ _decode_packet_content ascii_only
       (Utf8.ascii_bytes (Server.encode Codec.rich_message))
     = Some (Server.asdict Codec.rich_message).
Proof.
  split; [ reflexivity | ].
  exact (proj2 (proj2 (monitor_decodes_server_lines ascii_only Codec.rich_message eq_refl))).
Defined.

End MonitorFacts.
